(** * Grid / DCA bot order-lifecycle engine

    A shallow embedding of the bot services of the trading assistant and
    the properties of their specification.

    - [services/grid_bot_service.py]             module [GridBot]
    - [services/price_service.py]                module [PriceService]
    - [models/exchange_account_model.py],
      [services/exchange_client.py]              module [Exchange]
    - [services/order_execution_service.py]      module [OrderExecution]
    - [services/ema_context_service.py]          module [EmaContext]
    - [services/dca_bot_service.py]              module [DcaBot]

    Conventions of the embedding.

    - Python [float] values (prices, amounts, balances) have two readings.
      In the modules listed above they are real numbers [R], and the
      comparisons that the code branches on are the boolean tests [Rleb],
      [Rltb] of module [Py]: this reading serves the statements about rows,
      ids, tags, flags and the routing of orders, which do not depend on
      rounding.  Module [Binary64], further down, is the grid engine again
      on IEEE 754 doubles, rounding after every operation as the program
      does: the statements about the prices of a grid, the balance after a
      create and a stop, and the 1 % band of the tick are stated there.
    - Python [int] values (ids, counts, the 0/1 flags of SQLite) are [Z].
    - The SQLite store (module [Db]) is a record of tables, each table the
      list of its rows in insertion order.  [INSERT] appends a row whose id
      is one more than the largest id of the table, [UPDATE] maps over the
      rows, [DELETE] filters them, [SELECT ... WHERE] is [find] / [filter].
      Every statement is committed on its own, as [db.execute_query] does;
      a failing connection is not modelled.  Timestamp columns are left out.
    - The exchange behind ccxt and the wall clock are part of an explicit
      world (module [World]) that the effectful functions thread through.
    - Result dictionaries [{'success': ..., ...}] are sums or variants: one
      case for each shape of dictionary that the function returns.
    - [print] calls are dropped. *)

From Stdlib Require Import Reals Lra Lia ZArith List String Ascii Bool.
From Stdlib Require Import DecimalString.
From Stdlib Require Floats.
Import ListNotations.

Local Open Scope string_scope.
Local Open Scope Z_scope.

(** ** Python primitives *)

Module Py.

(** [x <= y] and [x < y] on floats, as branch conditions. *)
Definition Rleb (x y : R) : bool := if Rle_dec x y then true else false.
Definition Rltb (x y : R) : bool := if Rlt_dec x y then true else false.

(** Truthiness of a float: [0.0] is falsy. *)
Definition Rtruthy (x : R) : bool := if Req_dec_T x 0%R then false else true.

(** [range(n)] *)
Definition range (n : Z) : list Z := map Z.of_nat (seq 0 (Z.to_nat n)).

(** [str(n)] for an int, as used inside f-strings. *)
Definition str_of_int (n : Z) : string := NilZero.string_of_int (Z.to_int n).

(** [s.replace(old, new)] for a non-empty [old]: occurrences are found left
    to right and do not overlap.  [skip] counts the characters of a matched
    occurrence that are still to be dropped. *)
Fixpoint replace_from (old new : string) (skip : nat) (s : string) : string :=
  match s with
  | EmptyString => EmptyString
  | String c rest =>
      match skip with
      | S k => replace_from old new k rest
      | O =>
          if String.prefix old s
          then new ++ replace_from old new (String.length old - 1) rest
          else String c (replace_from old new O rest)
      end
  end.

Definition replace (s old new : string) : string := replace_from old new O s.

(** [sub in s] for strings. *)
Fixpoint contains (sub s : string) : bool :=
  String.prefix sub s ||
  match s with
  | EmptyString => false
  | String _ rest => contains sub rest
  end.

(** [s.upper()] and [s.lower()] on ASCII letters. *)
Definition upper_ascii (c : ascii) : ascii :=
  let n := nat_of_ascii c in
  if ((97 <=? n) && (n <=? 122))%nat then ascii_of_nat (n - 32) else c.
Definition lower_ascii (c : ascii) : ascii :=
  let n := nat_of_ascii c in
  if ((65 <=? n) && (n <=? 90))%nat then ascii_of_nat (n + 32) else c.
Fixpoint smap (f : ascii -> ascii) (s : string) : string :=
  match s with
  | EmptyString => EmptyString
  | String c rest => String (f c) (smap f rest)
  end.
Definition upper : string -> string := smap upper_ascii.
Definition lower : string -> string := smap lower_ascii.

End Py.

(** ** The persistent store *)

Module Db.

Record user_row := {
  u_id : Z;
  u_balance : R
}.

Record grid_bot_row := {
  gb_id : Z;
  gb_user_id : Z;
  gb_symbol : string;
  gb_lower_price : R;
  gb_upper_price : R;
  gb_grid_count : Z;
  gb_investment_amount : R;
  gb_grid_type : string;
  gb_quote_currency : string;
  gb_trailing_up : Z;
  gb_grid_trigger_price : option R;
  gb_take_profit_pct : option R;
  gb_stop_loss_price : option R;
  gb_sell_all_on_stop : Z;
  gb_is_active : Z
}.

Record grid_level_row := {
  gl_id : Z;
  gl_bot_id : Z;
  gl_level_price : R;
  gl_order_type : string;
  gl_is_filled : Z
}.

Record price_row := {
  ph_symbol : string;
  ph_timestamp : Z;
  ph_close_price : R
}.

Record exchange_account_row := {
  ea_id : Z;
  ea_user_id : Z;
  ea_exchange_name : string;
  ea_is_testnet : Z;
  ea_is_active : Z
}.

Record trade_log_row := {
  tl_id : Z;
  tl_user_id : Z;
  tl_exchange_account_id : Z;
  tl_symbol : string;
  tl_side : string;
  tl_amount : R;
  tl_price : R;
  tl_total_value : R;
  tl_status : string;
  tl_exchange_order_id : option string;
  tl_trade_source : string;
  tl_fee : R;
  tl_error_message : option string
}.

Record dca_bot_row := {
  dc_id : Z;
  dc_user_id : Z;
  dc_exchange_account_id : Z;
  dc_symbol : string;
  dc_buy_amount : R;
  dc_interval_description : string;
  dc_side : string;
  dc_is_active : Z;
  dc_execution_count : Z
}.

Record t := {
  users : list user_row;
  grid_bots : list grid_bot_row;
  grid_levels : list grid_level_row;
  price_history : list price_row;
  exchange_accounts : list exchange_account_row;
  exchange_trade_logs : list trade_log_row;
  dca_bots : list dca_bot_row
}.

(** [cursor.lastrowid] of an insert into a table whose ids are [ids]. *)
Definition next_id (ids : list Z) : Z := 1 + fold_right Z.max 0 ids.

Definition set_users (d : t) (us : list user_row) : t :=
  {| users := us; grid_bots := grid_bots d; grid_levels := grid_levels d;
     price_history := price_history d; exchange_accounts := exchange_accounts d;
     exchange_trade_logs := exchange_trade_logs d; dca_bots := dca_bots d |}.

Definition set_grid_bots (d : t) (bs : list grid_bot_row) : t :=
  {| users := users d; grid_bots := bs; grid_levels := grid_levels d;
     price_history := price_history d; exchange_accounts := exchange_accounts d;
     exchange_trade_logs := exchange_trade_logs d; dca_bots := dca_bots d |}.

Definition set_grid_levels (d : t) (ls : list grid_level_row) : t :=
  {| users := users d; grid_bots := grid_bots d; grid_levels := ls;
     price_history := price_history d; exchange_accounts := exchange_accounts d;
     exchange_trade_logs := exchange_trade_logs d; dca_bots := dca_bots d |}.

Definition set_trade_logs (d : t) (ts : list trade_log_row) : t :=
  {| users := users d; grid_bots := grid_bots d; grid_levels := grid_levels d;
     price_history := price_history d; exchange_accounts := exchange_accounts d;
     exchange_trade_logs := ts; dca_bots := dca_bots d |}.

Definition set_dca_bots (d : t) (bs : list dca_bot_row) : t :=
  {| users := users d; grid_bots := grid_bots d; grid_levels := grid_levels d;
     price_history := price_history d; exchange_accounts := exchange_accounts d;
     exchange_trade_logs := exchange_trade_logs d; dca_bots := bs |}.

(** [SELECT balance FROM users WHERE id = ?] *)
Definition select_user (d : t) (uid : Z) : option user_row :=
  find (fun u => u_id u =? uid) (users d).

(** [UPDATE users SET balance = ? WHERE id = ?] *)
Definition update_balance (d : t) (uid : Z) (b : R) : t :=
  set_users d
    (map (fun u => if u_id u =? uid then {| u_id := u_id u; u_balance := b |} else u)
         (users d)).

(** [UPDATE users SET balance = balance + ? WHERE id = ?] *)
Definition credit_balance (d : t) (uid : Z) (amount : R) : t :=
  set_users d
    (map (fun u => if u_id u =? uid
                   then {| u_id := u_id u; u_balance := (u_balance u + amount)%R |}
                   else u)
         (users d)).

(** The balance column of a user, when the user exists. *)
Definition balance_of (d : t) (uid : Z) : option R :=
  option_map u_balance (select_user d uid).

End Db.

(** ** services/grid_bot_service.py *)

Module GridBot.
Import Py Db.

(** The arguments of [create_grid_bot]. *)
Record config := {
  user_id : Z;
  symbol : string;
  lower_price : R;
  upper_price : R;
  grid_count : Z;
  investment_amount : R;
  grid_type : string;
  quote_currency : string;
  trailing_up : bool;
  grid_trigger_price : option R;
  take_profit_pct : option R;
  stop_loss_price : option R;
  sell_all_on_stop : bool
}.

(** The [{'success': False, 'error': ...}] results of the module, one
    constructor per message. *)
Inductive error :=
| GridCountTooSmall        (* 'Grid count must be at least 2' *)
| GridCountTooLarge        (* 'Grid count too large (max 100)' *)
| UpperNotGreater          (* 'Upper price must be greater than lower price' *)
| PricesNotPositive        (* 'Prices must be positive' *)
| InvestmentNotPositive    (* 'Investment amount must be positive' *)
| GridTypeUnsupported      (* 'Grid type must be ARITHMETIC or GEOMETRIC' *)
| TriggerPriceNotPositive  (* 'Trigger price must be positive' *)
| TakeProfitOutOfRange     (* 'Take profit % must be between 0 and 1000' *)
| StopLossNotPositive      (* 'Stop loss price must be positive' *)
| UserNotFound             (* 'User not found' *)
| InsufficientBalanceError (required available : R)
                           (* 'Insufficient balance. Required: ..., Available: ...' *)
| BotNotFound.             (* 'Bot not found or access denied' *)

(** The error taxonomy of the specification, as a reading of the messages. *)
Inductive error_kind := InvalidConfig | InsufficientBalance | NotFound.

Definition kind_of (e : error) : error_kind :=
  match e with
  | UserNotFound | BotNotFound => NotFound
  | InsufficientBalanceError _ _ => InsufficientBalance
  | _ => InvalidConfig
  end.

(** One entry of the [grid_levels] list built by [create_grid_bot]. *)
Record level := {
  level_price : R;
  order_type : string;
  level_number : Z
}.

(** [math.pow(x, y)] for a positive base. *)
Definition math_pow (x y : R) : R := Rpower x y.

(** STEP 1 of [create_grid_bot]: the validation cascade, in source order.
    [None] means that every check passed. *)
Definition validate (c : config) : option error :=
  if grid_count c <? 2 then Some GridCountTooSmall
  else if 100 <? grid_count c then Some GridCountTooLarge
  else if Rleb (upper_price c) (lower_price c) then Some UpperNotGreater
  else if Rleb (lower_price c) 0 || Rleb (upper_price c) 0 then Some PricesNotPositive
  else if Rleb (investment_amount c) 0 then Some InvestmentNotPositive
  else if negb ((grid_type c =? "ARITHMETIC")%string || (grid_type c =? "GEOMETRIC")%string)
       then Some GridTypeUnsupported
  else if match grid_trigger_price c with
          | Some p => Rleb p 0
          | None => false
          end then Some TriggerPriceNotPositive
  else if match take_profit_pct c with
          | Some p => Rleb p 0 || Rltb 1000 p
          | None => false
          end then Some TakeProfitOutOfRange
  else if match stop_loss_price c with
          | Some p => Rleb p 0
          | None => false
          end then Some StopLossNotPositive
  else None.

(** The BUY/SELL tag of the level with index [i]. *)
Definition tag (grid_count i : Z) : string :=
  if i <? grid_count / 2 then "BUY" else "SELL".

(** STEP 3 of [create_grid_bot], the ARITHMETIC branch. *)
Definition arithmetic_levels (lower upper : R) (grid_count : Z) : list level :=
  let price_step := ((upper - lower) / IZR (grid_count - 1))%R in
  map (fun i => {| level_price := (lower + IZR i * price_step)%R;
                   order_type := tag grid_count i;
                   level_number := i + 1 |})
      (range grid_count).

(** STEP 3 of [create_grid_bot], the GEOMETRIC branch. *)
Definition geometric_levels (lower upper : R) (grid_count : Z) : list level :=
  let ratio := math_pow (upper / lower) (1 / IZR (grid_count - 1)) in
  map (fun i => {| level_price := (lower * math_pow ratio (IZR i))%R;
                   order_type := tag grid_count i;
                   level_number := i + 1 |})
      (range grid_count).

(** STEP 3 of [create_grid_bot]: [if grid_type == 'ARITHMETIC': ... else: ...] *)
Definition compute_levels (gtype : string) (lower upper : R) (grid_count : Z)
  : list level :=
  if (gtype =? "ARITHMETIC")%string
  then arithmetic_levels lower upper grid_count
  else geometric_levels lower upper grid_count.

(** STEP 2: [INSERT INTO grid_bots (...) VALUES (..., 1)] *)
Definition insert_grid_bot (d : Db.t) (c : config) : Db.t * Z :=
  let bot_id := next_id (map gb_id (grid_bots d)) in
  (set_grid_bots d
     (grid_bots d ++
      [{| gb_id := bot_id;
          gb_user_id := user_id c;
          gb_symbol := symbol c;
          gb_lower_price := lower_price c;
          gb_upper_price := upper_price c;
          gb_grid_count := grid_count c;
          gb_investment_amount := investment_amount c;
          gb_grid_type := grid_type c;
          gb_quote_currency := quote_currency c;
          gb_trailing_up := if trailing_up c then 1 else 0;
          gb_grid_trigger_price := grid_trigger_price c;
          gb_take_profit_pct := take_profit_pct c;
          gb_stop_loss_price := stop_loss_price c;
          gb_sell_all_on_stop := if sell_all_on_stop c then 1 else 0;
          gb_is_active := 1 |}]),
   bot_id).

(** STEP 4: [INSERT INTO grid_levels (bot_id, level_price, order_type,
    is_filled) VALUES (?, ?, ?, 0)] *)
Definition insert_grid_level (bot_id : Z) (d : Db.t) (l : level) : Db.t :=
  set_grid_levels d
    (grid_levels d ++
     [{| gl_id := next_id (map gl_id (grid_levels d));
         gl_bot_id := bot_id;
         gl_level_price := level_price l;
         gl_order_type := order_type l;
         gl_is_filled := 0 |}]).

(** The successful result of [create_grid_bot]; the fields that echo the
    arguments are left out. *)
Record created := {
  bot_id : Z;
  levels : list level;
  new_balance : R
}.

(** [create_grid_bot].  The insert of STEP 2 always yields a non-zero row
    id here, so the ['Failed to create bot'] exit is not reachable. *)
Definition create_grid_bot (d : Db.t) (c : config) : Db.t * (error + created) :=
  match validate c with
  | Some e => (d, inl e)
  | None =>
      match select_user d (user_id c) with
      | None => (d, inl UserNotFound)
      | Some user =>
          if Rltb (u_balance user) (investment_amount c)
          then (d, inl (InsufficientBalanceError (investment_amount c) (u_balance user)))
          else
            let '(d1, bot_id) := insert_grid_bot d c in
            let grid_levels :=
              compute_levels (grid_type c) (lower_price c) (upper_price c) (grid_count c) in
            let d2 := fold_left (insert_grid_level bot_id) grid_levels d1 in
            let new_balance := (u_balance user - investment_amount c)%R in
            let d3 := update_balance d2 (user_id c) new_balance in
            (d3, inr {| bot_id := bot_id; levels := grid_levels; new_balance := new_balance |})
      end
  end.

(** [ORDER BY level_price ASC], as a stable insertion sort. *)
Fixpoint insert_by_price (l : grid_level_row) (ls : list grid_level_row)
  : list grid_level_row :=
  match ls with
  | [] => [l]
  | h :: t =>
      if Rltb (gl_level_price h) (gl_level_price l)
      then h :: insert_by_price l t
      else l :: h :: t
  end.

Definition order_by_price (ls : list grid_level_row) : list grid_level_row :=
  fold_right insert_by_price [] ls.

(** [get_levels_for_bot] *)
Definition get_levels_for_bot (d : Db.t) (bot_id : Z) : list grid_level_row :=
  order_by_price (filter (fun l => gl_bot_id l =? bot_id) (grid_levels d)).

Record stats := {
  total_levels : nat;
  buy_levels : nat;
  sell_levels : nat;
  filled_count : nat;
  pending_count : nat
}.

Record details := {
  bot : grid_bot_row;
  dlevels : list grid_level_row;
  dstats : stats
}.

(** [get_bot_details(bot_id, user_id)]; a falsy [user_id] (0) skips the
    ownership filter, as [if user_id:] does. *)
Definition get_bot_details (d : Db.t) (bot_id uid : Z) : option details :=
  let found :=
    if negb (uid =? 0)
    then find (fun b => (gb_id b =? bot_id) && (gb_user_id b =? uid)) (grid_bots d)
    else find (fun b => gb_id b =? bot_id) (grid_bots d) in
  match found with
  | None => None
  | Some b =>
      let ls := get_levels_for_bot d bot_id in
      let filled := List.length (filter (fun l => gl_is_filled l =? 1) ls) in
      Some {| bot := b;
              dlevels := ls;
              dstats :=
                {| total_levels := List.length ls;
                   buy_levels := List.length (filter (fun l => (gl_order_type l =? "BUY")%string) ls);
                   sell_levels := List.length (filter (fun l => (gl_order_type l =? "SELL")%string) ls);
                   filled_count := filled;
                   pending_count := List.length ls - filled |} |}
  end.

(** [UPDATE grid_bots SET is_active = 0 WHERE id = ?] *)
Definition deactivate (d : Db.t) (bot_id : Z) : Db.t :=
  set_grid_bots d
    (map (fun b =>
            if gb_id b =? bot_id
            then {| gb_id := gb_id b; gb_user_id := gb_user_id b; gb_symbol := gb_symbol b;
                    gb_lower_price := gb_lower_price b; gb_upper_price := gb_upper_price b;
                    gb_grid_count := gb_grid_count b;
                    gb_investment_amount := gb_investment_amount b;
                    gb_grid_type := gb_grid_type b; gb_quote_currency := gb_quote_currency b;
                    gb_trailing_up := gb_trailing_up b;
                    gb_grid_trigger_price := gb_grid_trigger_price b;
                    gb_take_profit_pct := gb_take_profit_pct b;
                    gb_stop_loss_price := gb_stop_loss_price b;
                    gb_sell_all_on_stop := gb_sell_all_on_stop b;
                    gb_is_active := 0 |}
            else b)
         (grid_bots d)).

(** [stop_grid_bot]; the successful result carries ['returned_investment']. *)
Definition stop_grid_bot (d : Db.t) (bot_id uid : Z) : Db.t * (error + R) :=
  match get_bot_details d bot_id uid with
  | None => (d, inl BotNotFound)
  | Some dt =>
      let d1 := deactivate d bot_id in
      let bot_info := bot dt in
      let d2 := credit_balance d1 uid (gb_investment_amount bot_info) in
      (d2, inr (gb_investment_amount bot_info))
  end.

(** [DELETE FROM grid_bots WHERE id = ?].  The comment beside it expects the
    levels to go by [ON DELETE CASCADE]; SQLite enforces foreign keys only
    on a connection that has run [PRAGMA foreign_keys = ON], which
    [db.get_connection] never does, so the level rows stay. *)
Definition delete_bot_row (d : Db.t) (bot_id : Z) : Db.t :=
  set_grid_bots d (filter (fun b => negb (gb_id b =? bot_id)) (grid_bots d)).

(** [delete_grid_bot] *)
Definition delete_grid_bot (d : Db.t) (bot_id uid : Z) : Db.t * (error + unit) :=
  match get_bot_details d bot_id uid with
  | None => (d, inl BotNotFound)
  | Some dt =>
      let bot_info := bot dt in
      let d1 :=
        if gb_is_active bot_info =? 1
        then credit_balance d uid (gb_investment_amount bot_info)
        else d in
      (delete_bot_row d1 bot_id, inr tt)
  end.

End GridBot.

(** ** services/price_service.py *)

Module PriceService.
Import Db.

(** [ORDER BY timestamp DESC LIMIT 1] over the selected rows. *)
Definition newest (rows : list price_row) : option price_row :=
  fold_left
    (fun best r =>
       match best with
       | None => Some r
       | Some b => if ph_timestamp b <? ph_timestamp r then Some r else Some b
       end)
    rows None.

(** [get_latest_price(symbol)] *)
Definition get_latest_price (d : Db.t) (symbol : string) : option price_row :=
  newest (filter (fun r => (ph_symbol r =? symbol)%string) (price_history d)).

End PriceService.

(** ** The world outside the process

    The store, the exchange reached through ccxt and the wall clock.  The
    exchange is an oracle: [ex_connect] tells whether a client can be built
    for an exchange name, [ex_replies] holds its answers to the successive
    [create_market_order] calls ([None]: the call raises, or its answer is
    falsy, that is [None] or an empty dictionary; an exhausted list answers
    [None]), and [ex_orders] records the orders it received. *)

Module World.

(** An entry of the dictionary that the exchange answers with: the key is
    missing, its value is [None], or it has a value. *)
Inductive field (A : Type) :=
| Missing
| Null
| Value (a : A).
Arguments Missing {A}.
Arguments Null {A}.
Arguments Value {A} a.

(** The answer to an order, as far as the router reads it: ['id'] through
    [order.get('id')], for which a missing key and [None] are the same;
    ['status'], ['average'] and ['fee'], each missing, [None] or a value,
    the value of ['fee'] being a dictionary with or without a ['cost'];
    ['filled'], missing or a number.  (A [None] under ['filled'] or under
    the ['cost'] of the fee would be written to the trade log as NULL, with
    an effect that depends on the table definition, which is not part of
    the sources; such answers are outside the model.) *)
Record order := {
  o_id : option string;
  o_status : field string;
  o_filled : option R;
  o_average : field R;
  o_fee : field (option R)
}.

Record sent_order := {
  so_symbol : string;
  so_side : string;
  so_amount : R
}.

Record t := {
  db : Db.t;
  ex_connect : string -> bool;
  ex_replies : list (option order);
  ex_orders : list sent_order;
  now : string
}.

Definition set_db (w : t) (d : Db.t) : t :=
  {| db := d; ex_connect := ex_connect w; ex_replies := ex_replies w;
     ex_orders := ex_orders w; now := now w |}.

(** [exchange.create_market_order(symbol, side, amount)] *)
Definition create_market_order (w : t) (symbol side : string) (amount : R)
  : t * option order :=
  let sent := {| so_symbol := symbol; so_side := side; so_amount := amount |} in
  ({| db := db w; ex_connect := ex_connect w; ex_replies := tl (ex_replies w);
      ex_orders := ex_orders w ++ [sent]; now := now w |},
   match ex_replies w with
   | [] => None
   | r :: _ => r
   end).

End World.

(** ** models/exchange_account_model.py and services/exchange_client.py *)

Module Exchange.
Import Py Db World.

(** [get_exchange_account_by_id(account_id, user_id)] *)
Definition get_exchange_account_by_id (d : Db.t) (account_id uid : Z)
  : option exchange_account_row :=
  find (fun a => (ea_id a =? account_id) && (ea_user_id a =? uid) && (ea_is_active a =? 1))
       (exchange_accounts d).

(** [create_exchange_client(...)]: [true] when a client object comes back. *)
Definition create_exchange_client (w : World.t) (exchange_name : string) : bool :=
  ex_connect w exchange_name.

(** [place_market_order(exchange, symbol, side, amount)] for an existing
    client: the argument checks, then the call to the exchange; every
    exception of the call becomes [None]. *)
Definition place_market_order (w : World.t) (symbol side : string) (amount : R)
  : World.t * option order :=
  if (symbol =? "")%string || (side =? "")%string || negb (Rtruthy amount) then (w, None)
  else
    let side := lower side in
    if negb ((side =? "buy")%string || (side =? "sell")%string) then (w, None)
    else if Rleb amount 0 then (w, None)
    else create_market_order w symbol side amount.

End Exchange.

(** ** services/order_execution_service.py *)

Module OrderExecution.
Import Py Db World Exchange.

(** [log_trade_execution], with the keyword defaults of the source filled in
    by the callers. *)
Definition log_trade_execution (d : Db.t)
    (uid exchange_account_id : Z) (symbol side : string) (amount price : R)
    (status : string) (exchange_order_id : option string) (trade_source : string)
    (fee : R) (error_message : option string) : Db.t * Z :=
  let total_value := if Rltb 0 price then (amount * price)%R else 0%R in
  let log_id := next_id (map tl_id (exchange_trade_logs d)) in
  (set_trade_logs d
     (exchange_trade_logs d ++
      [{| tl_id := log_id;
          tl_user_id := uid;
          tl_exchange_account_id := exchange_account_id;
          tl_symbol := symbol;
          tl_side := side;
          tl_amount := amount;
          tl_price := price;
          tl_total_value := total_value;
          tl_status := status;
          tl_exchange_order_id := exchange_order_id;
          tl_trade_source := trade_source;
          tl_fee := fee;
          tl_error_message := error_message |}]),
   log_id).

(** The result dictionaries of [execute_market_order_for_account]. *)
Inductive result :=
| Failed (error : string) (mode : option string) (log_id : option Z)
| Simulated (log_id : Z) (price total : R) (exchange : string)
| Live (order_id : option string) (log_id : Z) (price filled : option R)
       (status : option string) (exchange : string).

(** [result['success']] *)
Definition success (r : result) : bool :=
  match r with
  | Failed _ _ _ => false
  | _ => true
  end.

Definition from_option {A : Type} (o : option A) (default : A) : A :=
  match o with
  | Some a => a
  | None => default
  end.

(** [d.get(key)] and [d.get(key, default)] for an entry that is not [None]. *)
Definition get {A : Type} (f : field A) : option A :=
  match f with
  | Value a => Some a
  | _ => None
  end.

(** The exception that logging the answer raises, if any.  The arguments of
    the call of [log_trade_execution] are evaluated in order, [status]
    before [fee], and the call itself comes last: [.upper()] on a [None]
    status and [.get('cost', 0)] on a [None] fee raise [AttributeError],
    [price > 0] on a [None] average raises [TypeError]. *)
Definition answer_error (o : order) : option string :=
  match o_status o with
  | Null => Some "'NoneType' object has no attribute 'upper'"
  | _ =>
      match o_fee o with
      | Null => Some "'NoneType' object has no attribute 'get'"
      | _ =>
          match o_average o with
          | Null => Some "'>' not supported between instances of 'NoneType' and 'int'"
          | _ => None
          end
      end
  end.

(** [order.get('fee', {}).get('cost', 0)] for a fee that is not [None]. *)
Definition fee_cost (o : order) : R :=
  match o_fee o with
  | Value (Some cost) => cost
  | _ => 0%R
  end.

(** [execute_market_order_for_account].  [LIVE_TRADING_ENABLED] is the
    flag of [config.py]; [is_live_mode] is [None] when the caller leaves
    it out.  The [except Exception] exit of the function is taken when
    logging the answer of the exchange raises ([answer_error]): it writes
    an ERROR row and reports a failure, after the order has been placed. *)
Definition execute_market_order_for_account (LIVE_TRADING_ENABLED : bool)
    (w : World.t) (uid exchange_account_id : Z) (symbol side : string) (amount : R)
    (is_live_mode : option bool) (trade_source : string) : World.t * result :=
  let is_live_mode := from_option is_live_mode LIVE_TRADING_ENABLED in
  match get_exchange_account_by_id (db w) exchange_account_id uid with
  | None => (w, Failed "Exchange account not found or access denied" None None)
  | Some account =>
      if negb is_live_mode then
        (* SIMULATION MODE *)
        let price_data := PriceService.get_latest_price (db w) (replace symbol "/" "") in
        let simulated_price :=
          match price_data with
          | Some p => ph_close_price p
          | None => 45000%R
          end in
        let total_value := (amount * simulated_price)%R in
        let '(d1, log_id) :=
          log_trade_execution (db w) uid exchange_account_id symbol (upper side)
            amount simulated_price "SIMULATED" (Some ("SIM_" ++ now w)) trade_source
            0%R None in
        (set_db w d1,
         Simulated log_id simulated_price total_value (ea_exchange_name account))
      else
        (* LIVE MODE *)
        if negb (create_exchange_client w (ea_exchange_name account))
        then (w, Failed ("Failed to create " ++ ea_exchange_name account ++ " client")
                        None None)
        else
          let '(w1, order) := place_market_order w symbol (lower side) amount in
          match order with
          | None =>
              let '(d1, log_id) :=
                log_trade_execution (db w1) uid exchange_account_id symbol (upper side)
                  amount 0%R "ERROR" None trade_source 0%R
                  (Some "Exchange rejected the order") in
              (set_db w1 d1, Failed "Order execution failed" (Some "LIVE") (Some log_id))
          | Some o =>
              match answer_error o with
              | Some e =>
                  (* except Exception as e *)
                  let '(d1, _) :=
                    log_trade_execution (db w1) uid exchange_account_id symbol
                      (upper side) amount 0%R "ERROR" None trade_source 0%R (Some e) in
                  (set_db w1 d1, Failed e (Some "LIVE") None)
              | None =>
                  let '(d1, log_id) :=
                    log_trade_execution (db w1) uid exchange_account_id symbol
                      (upper side)
                      (from_option (o_filled o) amount)
                      (from_option (get (o_average o)) 0%R)
                      (upper (from_option (get (o_status o)) "FILLED"))
                      (o_id o) trade_source (fee_cost o) None in
                  (set_db w1 d1,
                   Live (o_id o) log_id (get (o_average o)) (o_filled o)
                        (get (o_status o)) (ea_exchange_name account))
              end
          end
  end.

(** The eligibility test inside the loop of [execute_grid_bot_levels]:
    [Some side] when [should_execute] ends up [True]. *)
Definition should_execute (order_type : string) (current_price level_price : R)
  : option string :=
  if (order_type =? "BUY")%string && Rleb current_price (level_price * (101 / 100))
  then Some "buy"
  else if (order_type =? "SELL")%string && Rleb (level_price * (99 / 100)) current_price
  then Some "sell"
  else None.

(** [UPDATE grid_levels SET is_filled = 1, filled_at = datetime('now')
    WHERE id = ?] (the timestamp column is not kept). *)
Definition mark_filled (d : Db.t) (level_id : Z) : Db.t :=
  set_grid_levels d
    (map (fun l =>
            if gl_id l =? level_id
            then {| gl_id := gl_id l; gl_bot_id := gl_bot_id l;
                    gl_level_price := gl_level_price l;
                    gl_order_type := gl_order_type l; gl_is_filled := 1 |}
            else l)
         (grid_levels d)).

(** One entry of [executed_levels]. *)
Record executed := {
  level_id : Z;
  price : R;
  type : string;
  exec_result : result
}.

(** The body of [for level in levels:], applied to the world and the
    [executed_levels] collected so far. *)
Definition level_step (LIVE_TRADING_ENABLED : bool) (uid bot_id exchange_account_id : Z)
    (symbol_exchange : string) (current_price amount_per_order : R)
    (st : World.t * list executed) (level : grid_level_row) : World.t * list executed :=
  let '(w, executed_levels) := st in
  if gl_is_filled level =? 1 then st
  else
    match should_execute (gl_order_type level) current_price (gl_level_price level) with
    | None => st
    | Some side =>
        let '(w1, result) :=
          execute_market_order_for_account LIVE_TRADING_ENABLED w uid exchange_account_id
            symbol_exchange side amount_per_order None
            ("grid_bot_" ++ str_of_int bot_id) in
        if success result
        then (set_db w1 (mark_filled (db w1) (gl_id level)),
              (executed_levels ++
               [{| level_id := gl_id level; price := gl_level_price level;
                   type := gl_order_type level; exec_result := result |}])%list)
        else (w1, executed_levels)
    end.

(** The successful result of [execute_grid_bot_levels]. *)
Record tick_result := {
  tr_bot_id : Z;
  tr_current_price : R;
  tr_executed_count : nat;
  tr_executed_levels : list executed;
  tr_mode : string
}.

Inductive tick_outcome :=
| TickFailed (error : string)
| TickRaised (exception : string)
| TickDone (r : tick_result).

(** The [return] statement of [execute_grid_bot_levels].  Its ['mode'] entry
    reads the name [is_live_mode]; [None] stands for a name that is not
    bound, and reading it raises [NameError]. *)
Definition tick_return (is_live_mode : option bool) (bot_id : Z) (current_price : R)
    (executed_levels : list executed) : tick_outcome :=
  match is_live_mode with
  | None => TickRaised "NameError: name 'is_live_mode' is not defined"
  | Some live =>
      TickDone {| tr_bot_id := bot_id;
                  tr_current_price := current_price;
                  tr_executed_count := List.length executed_levels;
                  tr_executed_levels := executed_levels;
                  tr_mode := if live then "LIVE" else "SIMULATED" |}
  end.

(** The locals of [execute_grid_bot_levels] before its loop. *)
Definition tick_symbol (b : grid_bot_row) : string := replace (gb_symbol b) "USDT" "/USDT".

Definition tick_price (d : Db.t) (b : grid_bot_row) : R :=
  match PriceService.get_latest_price d (gb_symbol b) with
  | Some p => ph_close_price p
  | None => 45000%R
  end.

(** [if not amount_per_order: amount_per_order = investment / grid_count];
    [None] and [0.0] are both falsy.  Bots written by [create_grid_bot]
    have [grid_count >= 2], so the division is defined. *)
Definition tick_amount (b : grid_bot_row) (amount_per_order : option R) : R :=
  match amount_per_order with
  | Some a => if Rtruthy a then a else (gb_investment_amount b / IZR (gb_grid_count b))%R
  | None => (gb_investment_amount b / IZR (gb_grid_count b))%R
  end.

(** The loop of [execute_grid_bot_levels] over the levels read at entry. *)
Definition run_levels (LIVE_TRADING_ENABLED : bool) (w : World.t)
    (uid bot_id exchange_account_id : Z) (b : grid_bot_row)
    (levels : list grid_level_row) (amount_per_order : option R)
  : World.t * list executed :=
  fold_left
    (level_step LIVE_TRADING_ENABLED uid bot_id exchange_account_id
       (tick_symbol b) (tick_price (db w) b) (tick_amount b amount_per_order))
    levels (w, []).

(** [execute_grid_bot_levels].  Neither the function nor its module binds
    [is_live_mode], hence [tick_return None]. *)
Definition execute_grid_bot_levels (LIVE_TRADING_ENABLED : bool) (w : World.t)
    (uid bot_id exchange_account_id : Z) (amount_per_order : option R)
  : World.t * tick_outcome :=
  match GridBot.get_bot_details (db w) bot_id uid with
  | None => (w, TickFailed "Grid bot not found or access denied")
  | Some bot_details =>
      let b := GridBot.bot bot_details in
      let levels := GridBot.dlevels bot_details in
      let '(w1, executed_levels) :=
        run_levels LIVE_TRADING_ENABLED w uid bot_id exchange_account_id b levels
          amount_per_order in
      (w1, tick_return None bot_id (tick_price (db w) b) executed_levels)
  end.

End OrderExecution.

(** ** services/ema_context_service.py *)

Module EmaContext.

(** The trend-context dictionary; a key that is absent is [None], which is
    how [dict.get] reads it. *)
Record ema_context := {
  ctx_success : option bool;
  trend_label : option string;
  overall_signal : option string;
  confidence : option Z;
  golden_cross : option bool;
  death_cross : option bool
}.

(** Truthiness of [ema_context.get(key)]. *)
Definition truthy (o : option bool) : bool :=
  match o with
  | Some b => b
  | None => false
  end.

(** The reason strings returned next to the decision. *)
Inductive reason :=
| EmaUnavailable      (* "EMA data unavailable, executing normally" *)
| GoldenCrossBuy      (* "Golden Cross - excellent timing for DCA BUY" *)
| UptrendBuy          (* "Long-term uptrend - ideal for DCA BUY (...)" *)
| DeathCrossBuy       (* "Death Cross - bad timing for DCA BUY, cycle skipped" *)
| DowntrendBuy        (* "Long-term downtrend - not ideal for DCA BUY, cycle skipped" *)
| NeutralBuy          (* "Neutral trend - DCA BUY can proceed with caution" *)
| DeathCrossSell      (* "Death Cross - excellent timing for DCA SELL" *)
| DowntrendSell       (* "Long-term downtrend - ideal for DCA SELL (...)" *)
| GoldenCrossSell     (* "Golden Cross - bad timing for DCA SELL, cycle skipped" *)
| UptrendSell         (* "Long-term uptrend - not ideal for DCA SELL, cycle skipped" *)
| NeutralSell         (* "Neutral trend - DCA SELL can proceed with caution" *)
| UnknownSide.        (* "Unknown bot side '...', executing normally" *)

(** [should_dca_bot_execute(ema_context, bot_side)] *)
Definition should_dca_bot_execute (c : ema_context) (bot_side : string) : bool * reason :=
  if negb (truthy (ctx_success c)) then (true, EmaUnavailable)
  else
    let trend := OrderExecution.from_option (trend_label c) "unknown" in
    if (bot_side =? "BUY")%string then
      if truthy (golden_cross c) then (true, GoldenCrossBuy)
      else if (trend =? "long_term_uptrend")%string then (true, UptrendBuy)
      else if truthy (death_cross c) then (false, DeathCrossBuy)
      else if (trend =? "long_term_downtrend")%string then (false, DowntrendBuy)
      else (true, NeutralBuy)
    else if (bot_side =? "SELL")%string then
      if truthy (death_cross c) then (true, DeathCrossSell)
      else if (trend =? "long_term_downtrend")%string then (true, DowntrendSell)
      else if truthy (golden_cross c) then (false, GoldenCrossSell)
      else if (trend =? "long_term_uptrend")%string then (false, UptrendSell)
      else (true, NeutralSell)
    else (true, UnknownSide).

End EmaContext.

(** ** services/dca_bot_service.py *)

Module DcaBot.
Import Py Db World.

(** [get_dca_bot_details]: the bot row of the user, joined with its
    exchange account. *)
Definition get_dca_bot_details (d : Db.t) (bot_id uid : Z) : option dca_bot_row :=
  find (fun b => (dc_id b =? bot_id) && (dc_user_id b =? uid))
       (filter (fun b => existsb (fun a => ea_id a =? dc_exchange_account_id b)
                                 (exchange_accounts d))
               (dca_bots d)).

(** [UPDATE dca_bots SET last_run_at = datetime('now'),
    execution_count = execution_count + 1 WHERE id = ?] *)
Definition count_execution (d : Db.t) (bot_id : Z) : Db.t :=
  set_dca_bots d
    (map (fun b =>
            if dc_id b =? bot_id
            then {| dc_id := dc_id b; dc_user_id := dc_user_id b;
                    dc_exchange_account_id := dc_exchange_account_id b;
                    dc_symbol := dc_symbol b; dc_buy_amount := dc_buy_amount b;
                    dc_interval_description := dc_interval_description b;
                    dc_side := dc_side b; dc_is_active := dc_is_active b;
                    dc_execution_count := dc_execution_count b + 1 |}
            else b)
         (dca_bots d)).

(** The result of [run_dca_cycle]: an early error, or the result of the
    order, which carries ['execution_count'] when the order succeeded. *)
Inductive cycle_result :=
| CycleFailed (error : string)
| CycleOrder (r : OrderExecution.result) (execution_count : option Z).

(** [run_dca_cycle(bot_id, user_id)] *)
Definition run_dca_cycle (LIVE_TRADING_ENABLED : bool) (w : World.t) (bot_id uid : Z)
  : World.t * cycle_result :=
  match get_dca_bot_details (db w) bot_id uid with
  | None => (w, CycleFailed "DCA bot not found or access denied")
  | Some bot =>
      if dc_is_active bot =? 0 then (w, CycleFailed "DCA bot is not active")
      else
        let symbol := dc_symbol bot in
        let symbol_exchange :=
          if negb (contains "/" symbol) then replace symbol "USDT" "/USDT" else symbol in
        let '(w1, result) :=
          OrderExecution.execute_market_order_for_account LIVE_TRADING_ENABLED w uid
            (dc_exchange_account_id bot) symbol_exchange "buy" (dc_buy_amount bot) None
            ("dca_bot_" ++ str_of_int bot_id) in
        if OrderExecution.success result
        then (set_db w1 (count_execution (db w1) bot_id),
              CycleOrder result (Some (dc_execution_count bot + 1)))
        else (w1, CycleOrder result None)
  end.

End DcaBot.

(** ** Observations used in the statements *)

Module Obs.
Import Db.

(** The prices and the tags of a computed grid, in order. *)
Definition prices (ls : list GridBot.level) : list R := map GridBot.level_price ls.
Definition tags (ls : list GridBot.level) : list string := map GridBot.order_type ls.

(** The [is_filled] column of the level row with a given id. *)
Definition level_state (d : Db.t) (level_id : Z) : option Z :=
  option_map gl_is_filled (find (fun l => gl_id l =? level_id) (grid_levels d)).

(** The router call that the tick makes for a pending, eligible level, and
    the [executed_levels] entry of a level. *)
Definition level_order (live : bool) (uid bid acc : Z) (sym : string) (amt : R)
    (w : World.t) (side : string) : World.t * OrderExecution.result :=
  OrderExecution.execute_market_order_for_account live w uid acc sym side amt None
    ("grid_bot_" ++ Py.str_of_int bid).

Definition entry (l : grid_level_row) (r : OrderExecution.result)
  : OrderExecution.executed :=
  {| OrderExecution.level_id := gl_id l;
     OrderExecution.price := gl_level_price l;
     OrderExecution.type := gl_order_type l;
     OrderExecution.exec_result := r |}.

(** The rows of every collected level are filled in the store. *)
Definition collected_filled (st : World.t * list OrderExecution.executed) : Prop :=
  forall e r, In e (snd st) -> In r (grid_levels (World.db (fst st))) ->
              gl_id r = OrderExecution.level_id e -> gl_is_filled r = 1.

(** The level ids that the outcome of a tick reports on. *)
Definition reported (o : OrderExecution.tick_outcome) : list Z :=
  match o with
  | OrderExecution.TickDone r =>
      map OrderExecution.level_id (OrderExecution.tr_executed_levels r)
  | _ => []
  end.

(** The trend label that the gating reads, ['unknown'] when it is absent. *)
Definition trend_of (c : EmaContext.ema_context) : string :=
  OrderExecution.from_option (EmaContext.trend_label c) "unknown".

(** The level ids collected in [executed_levels]. *)
Definition executed_ids (ex : list OrderExecution.executed) : list Z :=
  map OrderExecution.level_id ex.

End Obs.

(** ** Concrete stores and requests (the scenarios of the specification) *)

Module Fixtures.
Import Db.

Definition empty_db : Db.t :=
  {| users := []; grid_bots := []; grid_levels := []; price_history := [];
     exchange_accounts := []; exchange_trade_logs := []; dca_bots := [] |}.

(** One user, id 1, with a balance of 5000. *)
Definition db0 : Db.t := set_users empty_db [ {| u_id := 1; u_balance := 5000 |} ].

(** Scenario A: ARITHMETIC grid, 40000 to 50000, count 5, investment 1000. *)
Definition scenario_a : GridBot.config :=
  {| GridBot.user_id := 1;
     GridBot.symbol := "BTCUSDT";
     GridBot.lower_price := 40000;
     GridBot.upper_price := 50000;
     GridBot.grid_count := 5;
     GridBot.investment_amount := 1000;
     GridBot.grid_type := "ARITHMETIC";
     GridBot.quote_currency := "USDT";
     GridBot.trailing_up := false;
     GridBot.grid_trigger_price := None;
     GridBot.take_profit_pct := None;
     GridBot.stop_loss_price := None;
     GridBot.sell_all_on_stop := false |}.

(** Scenario A with a count of 1, which the validation rejects. *)
Definition scenario_a_count_1 : GridBot.config :=
  {| GridBot.user_id := 1;
     GridBot.symbol := "BTCUSDT";
     GridBot.lower_price := 40000;
     GridBot.upper_price := 50000;
     GridBot.grid_count := 1;
     GridBot.investment_amount := 1000;
     GridBot.grid_type := "ARITHMETIC";
     GridBot.quote_currency := "USDT";
     GridBot.trailing_up := false;
     GridBot.grid_trigger_price := None;
     GridBot.take_profit_pct := None;
     GridBot.stop_loss_price := None;
     GridBot.sell_all_on_stop := false |}.

(** An active binance account of user 1. *)
Definition account1 : exchange_account_row :=
  {| ea_id := 1; ea_user_id := 1; ea_exchange_name := "binance";
     ea_is_testnet := 1; ea_is_active := 1 |}.

(** Scenario D: a store whose latest BTCUSDT price is 42000, and a world
    around it in which no exchange call is answered. *)
Definition db_sim : Db.t :=
  {| users := [ {| u_id := 1; u_balance := 5000 |} ];
     grid_bots := []; grid_levels := [];
     price_history := [ {| ph_symbol := "BTCUSDT"; ph_timestamp := 1;
                           ph_close_price := 42000 |} ];
     exchange_accounts := [ account1 ];
     exchange_trade_logs := []; dca_bots := [] |}.

Definition world_of (d : Db.t) (replies : list (option World.order)) : World.t :=
  {| World.db := d; World.ex_connect := fun _ => true; World.ex_replies := replies;
     World.ex_orders := []; World.now := "20250101120000" |}.

(** The same store without any price row. *)
Definition db_no_price : Db.t :=
  {| users := users db_sim; grid_bots := []; grid_levels := [];
     price_history := [];
     exchange_accounts := [ account1 ];
     exchange_trade_logs := []; dca_bots := [] |}.

(** The store after the create of Scenario A, with a latest price of 40000:
    the two BUY levels (ids 1 and 2) are eligible, the SELL levels are not. *)
Definition bot1 : grid_bot_row :=
  {| gb_id := 1; gb_user_id := 1; gb_symbol := "BTCUSDT";
     gb_lower_price := 40000; gb_upper_price := 50000; gb_grid_count := 5;
     gb_investment_amount := 1000; gb_grid_type := "ARITHMETIC";
     gb_quote_currency := "USDT"; gb_trailing_up := 0;
     gb_grid_trigger_price := None; gb_take_profit_pct := None;
     gb_stop_loss_price := None; gb_sell_all_on_stop := 0; gb_is_active := 1 |}.

Definition level_row (id : Z) (p : R) (t : string) : grid_level_row :=
  {| gl_id := id; gl_bot_id := 1; gl_level_price := p; gl_order_type := t;
     gl_is_filled := 0 |}.

Definition rows1 : list grid_level_row :=
  [ level_row 1 40000 "BUY"; level_row 2 42500 "BUY"; level_row 3 45000 "SELL";
    level_row 4 47500 "SELL"; level_row 5 50000 "SELL" ].

Definition db_tick : Db.t :=
  {| users := [ {| u_id := 1; u_balance := 4000 |} ];
     grid_bots := [ bot1 ];
     grid_levels := rows1;
     price_history := [ {| ph_symbol := "BTCUSDT"; ph_timestamp := 1;
                           ph_close_price := 40000 |} ];
     exchange_accounts := [ account1 ];
     exchange_trade_logs := []; dca_bots := [] |}.

Definition details1 : GridBot.details :=
  {| GridBot.bot := bot1;
     GridBot.dlevels := rows1;
     GridBot.dstats :=
       {| GridBot.total_levels := 5; GridBot.buy_levels := 2; GridBot.sell_levels := 3;
          GridBot.filled_count := 0; GridBot.pending_count := 5 |} |}.

(** The answer of the exchange to an order that it fills. *)
Definition filled_order : World.order :=
  {| World.o_id := Some "A1"; World.o_status := World.Value "closed";
     World.o_filled := Some 200%R; World.o_average := World.Value 40010%R;
     World.o_fee := World.Value (Some 8%R) |}.

(** Live trading against an exchange that rejects the first order of the
    tick and fills the second. *)
Definition world_tick : World.t := world_of db_tick [ None; Some filled_order ].

(** The world after the rejected order of level 1: an ERROR row in the
    trade log, one order sent, one answer left. *)
Definition sent_buy : World.sent_order :=
  {| World.so_symbol := "BTC/USDT"; World.so_side := "buy";
     World.so_amount := (1000 / 5)%R |}.

Definition error_row : trade_log_row :=
  {| tl_id := 1; tl_user_id := 1; tl_exchange_account_id := 1;
     tl_symbol := "BTC/USDT"; tl_side := "BUY"; tl_amount := (1000 / 5)%R;
     tl_price := 0; tl_total_value := 0; tl_status := "ERROR";
     tl_exchange_order_id := None; tl_trade_source := "grid_bot_1";
     tl_fee := 0; tl_error_message := Some "Exchange rejected the order" |}.

Definition world_tick_1 : World.t :=
  {| World.db := set_trade_logs db_tick [ error_row ];
     World.ex_connect := fun _ => true;
     World.ex_replies := [ Some filled_order ];
     World.ex_orders := [ sent_buy ];
     World.now := "20250101120000" |}.

(** The world after the filled order of level 2, before the level is
    marked, and the world at the end of the tick. *)
Definition filled_row : trade_log_row :=
  {| tl_id := 2; tl_user_id := 1; tl_exchange_account_id := 1;
     tl_symbol := "BTC/USDT"; tl_side := "BUY"; tl_amount := 200;
     tl_price := 40010; tl_total_value := (200 * 40010)%R; tl_status := "CLOSED";
     tl_exchange_order_id := Some "A1"; tl_trade_source := "grid_bot_1";
     tl_fee := 8; tl_error_message := None |}.

Definition world_tick_2 : World.t :=
  {| World.db := set_trade_logs db_tick [ error_row; filled_row ];
     World.ex_connect := fun _ => true;
     World.ex_replies := [];
     World.ex_orders := [ sent_buy; sent_buy ];
     World.now := "20250101120000" |}.

Definition rows1_after : list grid_level_row :=
  [ level_row 1 40000 "BUY";
    {| gl_id := 2; gl_bot_id := 1; gl_level_price := 42500; gl_order_type := "BUY";
       gl_is_filled := 1 |};
    level_row 3 45000 "SELL"; level_row 4 47500 "SELL"; level_row 5 50000 "SELL" ].

Definition world_tick_end : World.t :=
  World.set_db world_tick_2 (set_grid_levels (World.db world_tick_2) rows1_after).

Definition live_result : OrderExecution.result :=
  OrderExecution.Live (Some "A1") 2 (Some 40010%R) (Some 200%R) (Some "closed") "binance".

(** Trend contexts: Scenario C (confirmed downtrend, no golden cross), a
    confirmed uptrend on which a death cross fires, and a confirmed
    downtrend on which a golden cross fires. *)
Definition downtrend_ctx : EmaContext.ema_context :=
  {| EmaContext.ctx_success := Some true;
     EmaContext.trend_label := Some "long_term_downtrend";
     EmaContext.overall_signal := Some "SELL";
     EmaContext.confidence := Some 70;
     EmaContext.golden_cross := Some false;
     EmaContext.death_cross := Some false |}.

Definition uptrend_death_ctx : EmaContext.ema_context :=
  {| EmaContext.ctx_success := Some true;
     EmaContext.trend_label := Some "long_term_uptrend";
     EmaContext.overall_signal := Some "HOLD";
     EmaContext.confidence := Some 50;
     EmaContext.golden_cross := Some false;
     EmaContext.death_cross := Some true |}.

Definition downtrend_golden_ctx : EmaContext.ema_context :=
  {| EmaContext.ctx_success := Some true;
     EmaContext.trend_label := Some "long_term_downtrend";
     EmaContext.overall_signal := Some "HOLD";
     EmaContext.confidence := Some 50;
     EmaContext.golden_cross := Some true;
     EmaContext.death_cross := Some false |}.

(** A DCA bot of user 1 configured with side SELL. *)
Definition dca_sell : dca_bot_row :=
  {| dc_id := 1; dc_user_id := 1; dc_exchange_account_id := 1;
     dc_symbol := "BTCUSDT"; dc_buy_amount := (1 / 100)%R;
     dc_interval_description := "Weekly"; dc_side := "SELL";
     dc_is_active := 1; dc_execution_count := 0 |}.

Definition db_dca : Db.t :=
  {| users := users db_sim; grid_bots := []; grid_levels := [];
     price_history := price_history db_sim;
     exchange_accounts := [ account1 ];
     exchange_trade_logs := []; dca_bots := [ dca_sell ] |}.

End Fixtures.


(** ** More of services/grid_bot_service.py *)

Module GridStats.
Import Py Db.

(** The dictionary returned by [get_grid_statistics]. *)
Record statistics := {
  gs_total_levels : nat;
  gs_filled_count : nat;
  gs_pending_count : nat;
  gs_buy_filled : nat;
  gs_sell_filled : nat;
  gs_completion_pct : R
}.

(** [get_grid_statistics(bot_id)]; [None] when the bot has no level. *)
Definition get_grid_statistics (d : Db.t) (bot_id : Z) : option statistics :=
  let levels := GridBot.get_levels_for_bot d bot_id in
  match levels with
  | [] => None
  | _ :: _ =>
      let total_levels := List.length levels in
      let filled_levels := filter (fun l => gl_is_filled l =? 1) levels in
      Some {| gs_total_levels := total_levels;
              gs_filled_count := List.length filled_levels;
              gs_pending_count := total_levels - List.length filled_levels;
              gs_buy_filled :=
                List.length
                  (filter (fun l => (gl_order_type l =? "BUY")%string) filled_levels);
              gs_sell_filled :=
                List.length
                  (filter (fun l => (gl_order_type l =? "SELL")%string) filled_levels);
              gs_completion_pct :=
                if (0 <? total_levels)%nat
                then (INR (List.length filled_levels) / INR total_levels * 100)%R
                else 0%R |}
  end.

End GridStats.

(** ** More of services/ema_context_service.py *)

Module GridGate.
Import EmaContext.

(** The reason strings of [should_grid_bot_execute]. *)
Inductive reason :=
| GridEmaUnavailable   (* "EMA data unavailable, executing normally" *)
| GridSideways         (* "Market sideways - ideal for grid trading" *)
| GridWeakSignal       (* "Weak ... signal (...%), grid can execute" *)
| GridGoldenCross      (* "Golden Cross - strong uptrend expected, grid bot paused" *)
| GridDeathCross       (* "Death Cross - strong downtrend expected, grid bot paused" *)
| GridStrongUptrend    (* "Strong uptrend (...) - better for DCA BUY, grid bot paused" *)
| GridStrongDowntrend  (* "Strong downtrend (...) - better for DCA SELL, grid bot paused" *)
| GridAcceptable.      (* "Market conditions acceptable for grid trading" *)

(** [should_grid_bot_execute(ema_context)] *)
Definition should_grid_bot_execute (c : ema_context) : bool * reason :=
  if negb (truthy (ctx_success c)) then (true, GridEmaUnavailable)
  else
    let signal := OrderExecution.from_option (overall_signal c) "HOLD" in
    let conf := OrderExecution.from_option (confidence c) 0 in
    if (signal =? "HOLD")%string then (true, GridSideways)
    else if conf <? 60 then (true, GridWeakSignal)
    else if truthy (golden_cross c) then (false, GridGoldenCross)
    else if truthy (death_cross c) then (false, GridDeathCross)
    else if (signal =? "BUY")%string && (60 <=? conf) then (false, GridStrongUptrend)
    else if (signal =? "SELL")%string && (60 <=? conf) then (false, GridStrongDowntrend)
    else (true, GridAcceptable).

End GridGate.

(** ** More of services/order_execution_service.py *)

Module AiTrade.
Import Py World OrderExecution.

(** What [prediction_service.predict_price_movement] returns, as far as
    [execute_ai_trade] reads it. *)
Record prediction := {
  direction : string;
  confidence_pct : R
}.

(** The result of [execute_ai_trade]: the early error, or the result of the
    order with the ['prediction'] entry added to it. *)
Inductive ai_result :=
| AiFailed (error : string)
| AiOrder (r : result) (p : prediction).

(** [execute_ai_trade]; the prediction service is the oracle [predict]. *)
Definition execute_ai_trade (predict : string -> option prediction)
    (LIVE_TRADING_ENABLED : bool) (w : World.t) (uid exchange_account_id : Z)
    (symbol : string) (amount : R) : World.t * ai_result :=
  match predict (replace symbol "/" "") with
  | None => (w, AiFailed "Failed to get AI prediction")
  | Some p =>
      let side := if (direction p =? "UP")%string then "buy" else "sell" in
      let '(w1, result) :=
        execute_market_order_for_account LIVE_TRADING_ENABLED w uid exchange_account_id
          symbol side amount None "ai_prediction" in
      (w1, AiOrder result p)
  end.

End AiTrade.

(** ** More of services/dca_bot_service.py *)

Module DcaAdmin.
Import Py Db.

(** The arguments of [create_dca_bot]. *)
Record config := {
  user_id : Z;
  exchange_account_id : Z;
  symbol : string;
  buy_amount : R;
  interval_description : string;
  side : string;
  price_deviation_pct : R;
  take_profit_pct : option R;
  take_profit_type : string;
  base_order_size : option R;
  dca_order_size : option R;
  max_dca_orders : Z;
  trigger_price : option R;
  price_deviation_multiplier : option R;
  dca_order_size_multiplier : option R;
  cooldown_seconds : option Z;
  range_lower : option R;
  range_upper : option R;
  stop_loss_pct : option R;
  end_on_stop : bool
}.

Inductive error :=
| BuyAmountNotPositive        (* 'Buy amount must be positive' *)
| SymbolRequired              (* 'Symbol is required' *)
| SideInvalid                 (* 'Side must be BUY or SELL' *)
| PriceDeviationOutOfRange    (* 'Price deviation must be between 0 and 100%' *)
| TakeProfitOutOfRange        (* 'Take profit % must be between 0 and 1000' *)
| MaxOrdersOutOfRange         (* 'Max DCA orders must be between 1 and 100' *)
| StopLossOutOfRange          (* 'Stop loss % must be between 0 and 100' *)
| DeviationMultiplierOutOfRange  (* 'Price deviation multiplier must be between 0.1 and 10' *)
| SizeMultiplierOutOfRange    (* 'DCA order size multiplier must be between 0.1 and 10' *)
| BotNotFound.                (* 'Bot not found or access denied' *)

(** [x is not None and (x < lo or x > hi)] *)
Definition outside (x : option R) (lo hi : R) : bool :=
  match x with
  | Some v => Rltb v lo || Rltb hi v
  | None => false
  end.

(** [x is not None and (x <= 0 or x > hi)] *)
Definition not_in_percent (x : option R) (hi : R) : bool :=
  match x with
  | Some v => Rleb v 0 || Rltb hi v
  | None => false
  end.

(** STEP 1 of [create_dca_bot], in source order. *)
Definition validate (c : config) : option error :=
  if Rleb (buy_amount c) 0 then Some BuyAmountNotPositive
  else if (symbol c =? "")%string then Some SymbolRequired
  else if negb ((side c =? "BUY")%string || (side c =? "SELL")%string) then Some SideInvalid
  else if Rleb (price_deviation_pct c) 0 || Rltb 100 (price_deviation_pct c)
       then Some PriceDeviationOutOfRange
  else if not_in_percent (take_profit_pct c) 1000 then Some TakeProfitOutOfRange
  else if (max_dca_orders c <? 1) || (100 <? max_dca_orders c) then Some MaxOrdersOutOfRange
  else if not_in_percent (stop_loss_pct c) 100 then Some StopLossOutOfRange
  else if outside (price_deviation_multiplier c) (1 / 10) 10
       then Some DeviationMultiplierOutOfRange
  else if outside (dca_order_size_multiplier c) (1 / 10) 10
       then Some SizeMultiplierOutOfRange
  else None.

(** The successful result of [create_dca_bot]: the row id and the values
    that the function fills in; the other entries echo the arguments. *)
Record created := {
  bot_id : Z;
  interval : string;
  base_size : R;
  dca_size : R
}.

(** [create_dca_bot].  The store keeps the columns of [dca_bots] that the
    service reads back; [execution_count], which the INSERT leaves to the
    column default, starts at 0. *)
Definition create_dca_bot (d : Db.t) (c : config) : Db.t * (error + created) :=
  match validate c with
  | Some e => (d, inl e)
  | None =>
      let interval_description :=
        if (interval_description c =? "")%string then "Weekly"
        else interval_description c in
      let base_order_size := OrderExecution.from_option (base_order_size c) (buy_amount c) in
      let dca_order_size := OrderExecution.from_option (dca_order_size c) (buy_amount c) in
      let bot_id := next_id (map dc_id (dca_bots d)) in
      (set_dca_bots d
         (dca_bots d ++
          [{| dc_id := bot_id;
              dc_user_id := user_id c;
              dc_exchange_account_id := exchange_account_id c;
              dc_symbol := symbol c;
              dc_buy_amount := buy_amount c;
              dc_interval_description := interval_description;
              dc_side := side c;
              dc_is_active := 1;
              dc_execution_count := 0 |}]),
       inr {| bot_id := bot_id; interval := interval_description;
              base_size := base_order_size; dca_size := dca_order_size |})
  end.

(** [WHERE id = ? AND user_id = ?] *)
Definition owned (bot_id uid : Z) (b : dca_bot_row) : bool :=
  (dc_id b =? bot_id) && (dc_user_id b =? uid).

(** [stop_dca_bot]: the UPDATE, whose row count decides the result. *)
Definition stop_dca_bot (d : Db.t) (bot_id uid : Z) : Db.t * (error + unit) :=
  let rowcount := List.length (filter (owned bot_id uid) (dca_bots d)) in
  let d1 :=
    set_dca_bots d
      (map (fun b =>
              if owned bot_id uid b
              then {| dc_id := dc_id b; dc_user_id := dc_user_id b;
                      dc_exchange_account_id := dc_exchange_account_id b;
                      dc_symbol := dc_symbol b; dc_buy_amount := dc_buy_amount b;
                      dc_interval_description := dc_interval_description b;
                      dc_side := dc_side b; dc_is_active := 0;
                      dc_execution_count := dc_execution_count b |}
              else b)
           (dca_bots d)) in
  if (0 <? rowcount)%nat then (d1, inr tt) else (d1, inl BotNotFound).

(** [delete_dca_bot]: the DELETE, whose row count decides the result. *)
Definition delete_dca_bot (d : Db.t) (bot_id uid : Z) : Db.t * (error + unit) :=
  let rowcount := List.length (filter (owned bot_id uid) (dca_bots d)) in
  let d1 := set_dca_bots d (filter (fun b => negb (owned bot_id uid b)) (dca_bots d)) in
  if (0 <? rowcount)%nat then (d1, inr tt) else (d1, inl BotNotFound).

(** The row returned by the aggregate query of [get_dca_statistics]; an
    aggregate over no row is NULL, except [COUNT]. *)
Record statistics := {
  total_executions : nat;
  total_bought : option R;
  average_price : option R;
  total_spent : option R;
  lowest_price : option R;
  highest_price : option R
}.

Definition Rsum (xs : list R) : R := fold_right Rplus 0%R xs.

Definition aggregate (f : R -> R -> R) (xs : list R) : option R :=
  match xs with
  | [] => None
  | x :: rest => Some (fold_left f rest x)
  end.

Definition non_empty (xs : list R) (v : R) : option R :=
  match xs with
  | [] => None
  | _ :: _ => Some v
  end.

(** [WHERE trade_source = ? AND status IN ('FILLED', 'SIMULATED')] *)
Definition counted (bot_id : Z) (r : trade_log_row) : bool :=
  (tl_trade_source r =? "dca_bot_" ++ str_of_int bot_id)%string
  && ((tl_status r =? "FILLED")%string || (tl_status r =? "SIMULATED")%string).

(** [get_dca_statistics(bot_id, user_id)] *)
Definition get_dca_statistics (d : Db.t) (bot_id uid : Z) : option statistics :=
  match DcaBot.get_dca_bot_details d bot_id uid with
  | None => None
  | Some _ =>
      let rows := filter (counted bot_id) (exchange_trade_logs d) in
      let amounts := map tl_amount rows in
      let prices := map tl_price rows in
      let values := map tl_total_value rows in
      Some {| total_executions := List.length rows;
              total_bought := non_empty amounts (Rsum amounts);
              average_price := non_empty prices (Rsum prices / INR (List.length prices))%R;
              total_spent := non_empty values (Rsum values);
              lowest_price := aggregate Rmin prices;
              highest_price := aggregate Rmax prices |}
  end.

End DcaAdmin.

(** ** More of services/price_service.py *)

Module Prices.
Import Db.

(** The [default_prices] table of [get_current_prices], with [0] for a
    symbol that it does not list. *)
Definition default_price (symbol : string) : R :=
  if (symbol =? "BTCUSDT")%string then 45600%R
  else if (symbol =? "ETHUSDT")%string then (28005 / 10)%R
  else if (symbol =? "BNBUSDT")%string then (42075 / 100)%R
  else if (symbol =? "SOLUSDT")%string then (953 / 10)%R
  else if (symbol =? "ADAUSDT")%string then (65 / 100)%R
  else 0%R.

(** [prices[symbol] = value] on a dictionary kept as an association list
    in insertion order. *)
Fixpoint dict_set (k : string) (v : R) (dct : list (string * R)) : list (string * R) :=
  match dct with
  | [] => [(k, v)]
  | (k', v') :: rest =>
      if (k' =? k)%string then (k, v) :: rest else (k', v') :: dict_set k v rest
  end.

(** [prices.get(symbol)] *)
Fixpoint dict_get (k : string) (dct : list (string * R)) : option R :=
  match dct with
  | [] => None
  | (k', v) :: rest => if (k' =? k)%string then Some v else dict_get k rest
  end.

(** [get_current_prices(symbols)] *)
Definition get_current_prices (d : Db.t) (symbols : list string) : list (string * R) :=
  fold_left
    (fun prices symbol =>
       match PriceService.get_latest_price d symbol with
       | Some price_data => dict_set symbol (ph_close_price price_data) prices
       | None => dict_set symbol (default_price symbol) prices
       end)
    symbols [].

End Prices.

(** ** The DCA run route of app.py

    The body of [api_run_dca_bot] between the session lookup and the JSON
    encoding; [ema_context_of] stands for [get_latest_ema_context(symbol,
    timeframe='1h')]. *)

Module Routes.
Import Db World EmaContext DcaBot.

Inductive run_response :=
| RunNotFound                                      (* 404 *)
| RunSkipped (why : reason) (bot_side : string)    (* 200, 'executed': False *)
| RunExecuted (r : cycle_result) (why : reason) (bot_side : string).
                                                   (* 200 or 400, 'executed': True *)

Definition api_run_dca_bot (LIVE_TRADING_ENABLED : bool)
    (ema_context_of : string -> ema_context) (w : World.t) (bot_id uid : Z)
  : World.t * run_response :=
  match get_dca_bot_details (db w) bot_id uid with
  | None => (w, RunNotFound)
  | Some bot =>
      let ema_context := ema_context_of (dc_symbol bot) in
      let bot_side := dc_side bot in
      let '(should_execute, why) := should_dca_bot_execute ema_context bot_side in
      if negb should_execute then (w, RunSkipped why bot_side)
      else
        let '(w1, result) := run_dca_cycle LIVE_TRADING_ENABLED w bot_id uid in
        (w1, RunExecuted result why bot_side)
  end.

End Routes.

(** ** The grid run and delete routes of app.py

    The bodies of [api_run_grid_bot] and [api_delete_grid_bot] between the
    session lookup and the JSON encoding.  Both subscript the dictionary
    that [get_bot_details] returns, whose keys are ['bot'], ['levels'] and
    ['stats']; [details_item] is that subscript, [None] standing for the
    [KeyError] of any other key, which the [except Exception] of the route
    turns into a 500 answer carrying [str(e)]. *)

Module GridRoutes.
Import Db World EmaContext OrderExecution.

Inductive details_value :=
| VBot (b : grid_bot_row)
| VLevels (ls : list grid_level_row)
| VStats (s : GridBot.stats).

(** [bot_details[key]] *)
Definition details_item (dt : GridBot.details) (key : string) : option details_value :=
  if (key =? "bot")%string then Some (VBot (GridBot.bot dt))
  else if (key =? "levels")%string then Some (VLevels (GridBot.dlevels dt))
  else if (key =? "stats")%string then Some (VStats (GridBot.dstats dt))
  else None.

(** [value == 1] for a row, a list of rows or a dictionary of counts. *)
Definition equals_one (v : details_value) : bool := false.

Inductive response :=
| BadRequest (error : string)                        (* 400 *)
| NotFound                                           (* 404 *)
| Paused (why : GridGate.reason)                     (* 200, 'executed': False *)
| Ticked (r : tick_result) (why : GridGate.reason)   (* 200, 'executed': True *)
| TickRefused (error : string) (why : GridGate.reason)  (* 400, 'executed': True *)
| Deleted                                            (* 200 *)
| ServerError (error : string).                      (* 500, str(e) *)

(** [api_run_grid_bot]; [exchange_account_id] and [amount_per_order] are the
    entries of the request body, [None] when the body leaves them out, and
    [ema_context_of] stands for [get_latest_ema_context(..., timeframe='1h')]
    applied to the value of [bot['symbol']]. *)
Definition api_run_grid_bot (LIVE_TRADING_ENABLED : bool)
    (ema_context_of : details_value -> ema_context) (w : World.t) (bot_id uid : Z)
    (exchange_account_id : option Z) (amount_per_order : option R)
  : World.t * response :=
  match exchange_account_id with
  | None => (w, BadRequest "exchange_account_id required")
  | Some acc =>
      if acc =? 0 then (w, BadRequest "exchange_account_id required")
      else
        match GridBot.get_bot_details (db w) bot_id uid with
        | None => (w, NotFound)
        | Some bot =>
            match details_item bot "symbol" with
            | None => (w, ServerError "'symbol'")
            | Some symbol =>
                let ema_context := ema_context_of symbol in
                let '(should_execute, why) :=
                  GridGate.should_grid_bot_execute ema_context in
                if negb should_execute then (w, Paused why)
                else
                  let '(w1, result) :=
                    execute_grid_bot_levels LIVE_TRADING_ENABLED w uid bot_id acc
                      amount_per_order in
                  match result with
                  | TickRaised e => (w1, ServerError e)
                  | TickFailed e => (w1, TickRefused e why)
                  | TickDone r => (w1, Ticked r why)
                  end
            end
        end
  end.

(** [api_delete_grid_bot].  After the test of [bot_details['is_active']] the
    route calls [db.get_db()], which [models/db.py] does not define. *)
Definition api_delete_grid_bot (d : Db.t) (bot_id uid : Z) : Db.t * response :=
  match GridBot.get_bot_details d bot_id uid with
  | None => (d, NotFound)
  | Some bot_details =>
      match details_item bot_details "is_active" with
      | None => (d, ServerError "'is_active'")
      | Some v =>
          if equals_one v
          then (d, BadRequest "Cannot delete active bot. Please stop it first.")
          else (d, ServerError "module 'models.db' has no attribute 'get_db'")
      end
  end.

End GridRoutes.

(** ** Observations used in the further statements *)

Module Obs2.
Import Db EmaContext.

(** The trend context seen from the other side: golden and death cross
    exchanged, uptrend and downtrend exchanged. *)
Definition mirror_trend (t : option string) : option string :=
  match t with
  | Some s =>
      if (s =? "long_term_uptrend")%string then Some "long_term_downtrend"
      else if (s =? "long_term_downtrend")%string then Some "long_term_uptrend"
      else Some s
  | None => None
  end.

Definition mirror (c : ema_context) : ema_context :=
  {| ctx_success := ctx_success c;
     trend_label := mirror_trend (trend_label c);
     overall_signal := overall_signal c;
     confidence := confidence c;
     golden_cross := death_cross c;
     death_cross := golden_cross c |}.

(** Ascending price order on level rows. *)
Definition price_le (a b : grid_level_row) : Prop :=
  (gl_level_price a <= gl_level_price b)%R.

(** A level row is pending and eligible at a price. *)
Definition due (cp : R) (l : grid_level_row) : bool :=
  negb (gl_is_filled l =? 1) &&
  match OrderExecution.should_execute (gl_order_type l) cp (gl_level_price l) with
  | Some _ => true
  | None => false
  end.

(** Two level rows differ at most in their fill flag, which only goes from
    pending to filled. *)
Definition same_or_filled (l0 l1 : grid_level_row) : Prop :=
  gl_id l1 = gl_id l0 /\ gl_bot_id l1 = gl_bot_id l0 /\
  gl_level_price l1 = gl_level_price l0 /\ gl_order_type l1 = gl_order_type l0 /\
  (gl_is_filled l1 = gl_is_filled l0 \/ gl_is_filled l1 = 1).

(** What a tick may change in the world: level rows get filled, the trade
    log and the list of orders received by the exchange grow, answers of
    the exchange are consumed; everything else is as before. *)
Record tick_changes (w w' : World.t) : Prop := {
  tc_users : users (World.db w') = users (World.db w);
  tc_grid_bots : grid_bots (World.db w') = grid_bots (World.db w);
  tc_dca_bots : dca_bots (World.db w') = dca_bots (World.db w);
  tc_prices : price_history (World.db w') = price_history (World.db w);
  tc_accounts : exchange_accounts (World.db w') = exchange_accounts (World.db w);
  tc_levels : Forall2 same_or_filled (grid_levels (World.db w)) (grid_levels (World.db w'));
  tc_logs : exists rows,
      exchange_trade_logs (World.db w')
      = (exchange_trade_logs (World.db w) ++ rows)%list;
  tc_orders : exists sent, World.ex_orders w' = (World.ex_orders w ++ sent)%list
}.

(** An order as the exchange may receive it. *)
Definition well_formed (o : World.sent_order) : Prop :=
  World.so_symbol o <> "" /\
  (World.so_side o = "buy" \/ World.so_side o = "sell") /\
  (0 < World.so_amount o)%R.

(** An optional argument, when it is given, satisfies [P]. *)
Definition when_given (x : option R) (P : R -> Prop) : Prop :=
  match x with
  | Some v => P v
  | None => True
  end.

(** The argument ranges named by the error messages of [create_dca_bot]. *)
Definition acceptable (c : DcaAdmin.config) : Prop :=
  (0 < DcaAdmin.buy_amount c)%R /\
  DcaAdmin.symbol c <> "" /\
  (DcaAdmin.side c = "BUY" \/ DcaAdmin.side c = "SELL") /\
  (0 < DcaAdmin.price_deviation_pct c <= 100)%R /\
  when_given (DcaAdmin.take_profit_pct c) (fun v => 0 < v <= 1000)%R /\
  1 <= DcaAdmin.max_dca_orders c <= 100 /\
  when_given (DcaAdmin.stop_loss_pct c) (fun v => 0 < v <= 100)%R /\
  when_given (DcaAdmin.price_deviation_multiplier c) (fun v => 1 / 10 <= v <= 10)%R /\
  when_given (DcaAdmin.dca_order_size_multiplier c) (fun v => 1 / 10 <= v <= 10)%R.

(** Some row of the DCA table has this id and this owner. *)
Definition dca_row_exists (d : Db.t) (bot_id uid : Z) : Prop :=
  exists b, In b (dca_bots d) /\ dc_id b = bot_id /\ dc_user_id b = uid.

(** The symbol that [run_dca_cycle] hands to the router. *)
Definition exchange_symbol (symbol : string) : string :=
  if negb (Py.contains "/" symbol) then Py.replace symbol "USDT" "/USDT" else symbol.


End Obs2.

(** ** Further concrete worlds *)

Module Fixtures2.
Import Db Fixtures.





(** The store of the tick with the exchange account switched off. *)
Definition db_tick_no_account : Db.t :=
  {| users := users db_tick; grid_bots := grid_bots db_tick;
     grid_levels := grid_levels db_tick; price_history := price_history db_tick;
     exchange_accounts :=
       [ {| ea_id := 1; ea_user_id := 1; ea_exchange_name := "binance";
            ea_is_testnet := 1; ea_is_active := 0 |} ];
     exchange_trade_logs := []; dca_bots := [ dca_sell ] |}.

(** The example call of the docstring of [create_dca_bot]. *)
Definition dca_config : DcaAdmin.config :=
  {| DcaAdmin.user_id := 1; DcaAdmin.exchange_account_id := 1;
     DcaAdmin.symbol := "BTCUSDT"; DcaAdmin.buy_amount := 100%R;
     DcaAdmin.interval_description := "Daily"; DcaAdmin.side := "BUY";
     DcaAdmin.price_deviation_pct := (3 / 2)%R;
     DcaAdmin.take_profit_pct := Some 10%R;
     DcaAdmin.take_profit_type := "FIX";
     DcaAdmin.base_order_size := Some 100%R;
     DcaAdmin.dca_order_size := Some 150%R;
     DcaAdmin.max_dca_orders := 7;
     DcaAdmin.trigger_price := Some 45000%R;
     DcaAdmin.price_deviation_multiplier := Some (13 / 10)%R;
     DcaAdmin.dca_order_size_multiplier := Some (3 / 2)%R;
     DcaAdmin.cooldown_seconds := None;
     DcaAdmin.range_lower := None; DcaAdmin.range_upper := None;
     DcaAdmin.stop_loss_pct := Some 8%R;
     DcaAdmin.end_on_stop := true |}.

(** The same call naming an exchange account that does not exist. *)
Definition dca_config_no_account : DcaAdmin.config :=
  {| DcaAdmin.user_id := 1; DcaAdmin.exchange_account_id := 9;
     DcaAdmin.symbol := "BTCUSDT"; DcaAdmin.buy_amount := 100%R;
     DcaAdmin.interval_description := "Daily"; DcaAdmin.side := "BUY";
     DcaAdmin.price_deviation_pct := (3 / 2)%R;
     DcaAdmin.take_profit_pct := Some 10%R;
     DcaAdmin.take_profit_type := "FIX";
     DcaAdmin.base_order_size := Some 100%R;
     DcaAdmin.dca_order_size := Some 150%R;
     DcaAdmin.max_dca_orders := 7;
     DcaAdmin.trigger_price := Some 45000%R;
     DcaAdmin.price_deviation_multiplier := Some (13 / 10)%R;
     DcaAdmin.dca_order_size_multiplier := Some (3 / 2)%R;
     DcaAdmin.cooldown_seconds := None;
     DcaAdmin.range_lower := None; DcaAdmin.range_upper := None;
     DcaAdmin.stop_loss_pct := Some 8%R;
     DcaAdmin.end_on_stop := true |}.

(** An answer of the exchange in the shape ccxt gives to a filled market
    order: its status is ['closed']. *)
Definition closed_order : World.order :=
  {| World.o_id := Some "D1"; World.o_status := World.Value "closed";
     World.o_filled := Some (1 / 100)%R; World.o_average := World.Value 42010%R;
     World.o_fee := World.Value (Some (42 / 100)%R) |}.

Definition world_dca_live : World.t := world_of db_dca [ Some closed_order ].

End Fixtures2.

(** * The grid engine on IEEE 754 doubles

    The modules above read a Python [float] as a real number, which is
    what the statements about rows, ids, tags and routing need.  Where a
    statement depends on the arithmetic itself (the prices of a grid, the
    balance after a create and a stop, the 1 % band of the tick), the
    program computes on binary64 doubles and rounds after every operation.
    Module [Binary64] is the grid engine again, from the same sources, with
    [float] for every Python [float] and SQLite [REAL]: [+], [-], [*], [/]
    and the comparisons are the IEEE 754 operations (a comparison with NaN
    is false, as in Python), a decimal literal is the nearest double.

    - Python raises [ZeroDivisionError] where IEEE 754 answers an infinity
      or NaN: a division whose divisor can be zero is modelled with its
      exception.
    - [math.pow] is not an IEEE 754 operation: it is an oracle
      [math_pow], which answers [None] where [math.pow] raises
      ([ValueError], [OverflowError]).
    - SQLite stores a NaN as NULL; the store below keeps the double as it
      is, and the statements ask for finite values where one is written to
      the store. *)

Module Binary64.

Set Warnings "-inexact-float".

(** ** Python on doubles *)

Module Num.
Import PrimFloat.

(** [float(n)] for an int with [|n| < 2^63]; exact when [|n| <= 2^53]. *)
Definition of_int (n : Z) : float :=
  if n <? 0 then (- of_uint63 (Uint63.of_Z (- n)))%float
  else of_uint63 (Uint63.of_Z n).

(** Truthiness of a float: [0.0] and [-0.0] are falsy, NaN is truthy. *)
Definition truthy (x : float) : bool := negb (x =? 0)%float.

End Num.

(** ** The persistent store *)

Module Db.
Import PrimFloat.

Record user_row := {
  u_id : Z;
  u_balance : float
}.

Record grid_bot_row := {
  gb_id : Z;
  gb_user_id : Z;
  gb_symbol : string;
  gb_lower_price : float;
  gb_upper_price : float;
  gb_grid_count : Z;
  gb_investment_amount : float;
  gb_grid_type : string;
  gb_quote_currency : string;
  gb_trailing_up : Z;
  gb_grid_trigger_price : option float;
  gb_take_profit_pct : option float;
  gb_stop_loss_price : option float;
  gb_sell_all_on_stop : Z;
  gb_is_active : Z
}.

Record grid_level_row := {
  gl_id : Z;
  gl_bot_id : Z;
  gl_level_price : float;
  gl_order_type : string;
  gl_is_filled : Z
}.

Record price_row := {
  ph_symbol : string;
  ph_timestamp : Z;
  ph_close_price : float
}.

Record trade_log_row := {
  tl_id : Z;
  tl_user_id : Z;
  tl_exchange_account_id : Z;
  tl_symbol : string;
  tl_side : string;
  tl_amount : float;
  tl_price : float;
  tl_total_value : float;
  tl_status : string;
  tl_exchange_order_id : option string;
  tl_trade_source : string;
  tl_fee : float;
  tl_error_message : option string
}.

(** The tables that the grid engine reads and writes. *)
Record t := {
  users : list user_row;
  grid_bots : list grid_bot_row;
  grid_levels : list grid_level_row;
  price_history : list price_row;
  exchange_accounts : list Db.exchange_account_row;
  exchange_trade_logs : list trade_log_row
}.

Definition set_users (d : t) (us : list user_row) : t :=
  {| users := us; grid_bots := grid_bots d; grid_levels := grid_levels d;
     price_history := price_history d; exchange_accounts := exchange_accounts d;
     exchange_trade_logs := exchange_trade_logs d |}.

Definition set_grid_bots (d : t) (bs : list grid_bot_row) : t :=
  {| users := users d; grid_bots := bs; grid_levels := grid_levels d;
     price_history := price_history d; exchange_accounts := exchange_accounts d;
     exchange_trade_logs := exchange_trade_logs d |}.

Definition set_grid_levels (d : t) (ls : list grid_level_row) : t :=
  {| users := users d; grid_bots := grid_bots d; grid_levels := ls;
     price_history := price_history d; exchange_accounts := exchange_accounts d;
     exchange_trade_logs := exchange_trade_logs d |}.

Definition set_trade_logs (d : t) (ts : list trade_log_row) : t :=
  {| users := users d; grid_bots := grid_bots d; grid_levels := grid_levels d;
     price_history := price_history d; exchange_accounts := exchange_accounts d;
     exchange_trade_logs := ts |}.

(** [SELECT balance FROM users WHERE id = ?] *)
Definition select_user (d : t) (uid : Z) : option user_row :=
  find (fun u => u_id u =? uid) (users d).

(** [UPDATE users SET balance = ? WHERE id = ?] *)
Definition update_balance (d : t) (uid : Z) (b : float) : t :=
  set_users d
    (map (fun u => if u_id u =? uid then {| u_id := u_id u; u_balance := b |} else u)
         (users d)).

(** [UPDATE users SET balance = balance + ? WHERE id = ?] *)
Definition credit_balance (d : t) (uid : Z) (amount : float) : t :=
  set_users d
    (map (fun u => if u_id u =? uid
                   then {| u_id := u_id u; u_balance := (u_balance u + amount)%float |}
                   else u)
         (users d)).

(** The balance column of a user, when the user exists. *)
Definition balance_of (d : t) (uid : Z) : option float :=
  option_map u_balance (select_user d uid).

End Db.

(** ** services/grid_bot_service.py *)

Module GridBot.
Import PrimFloat Num Py Db.

(** The arguments of [create_grid_bot]. *)
Record config := {
  user_id : Z;
  symbol : string;
  lower_price : float;
  upper_price : float;
  grid_count : Z;
  investment_amount : float;
  grid_type : string;
  quote_currency : string;
  trailing_up : bool;
  grid_trigger_price : option float;
  take_profit_pct : option float;
  stop_loss_price : option float;
  sell_all_on_stop : bool
}.

(** The [{'success': False, 'error': ...}] results of the module, one
    constructor per message, and [MathError] for the exception that
    [math.pow] raises in the GEOMETRIC branch, which leaves
    [create_grid_bot] without a result. *)
Inductive error :=
| GridCountTooSmall        (* 'Grid count must be at least 2' *)
| GridCountTooLarge        (* 'Grid count too large (max 100)' *)
| UpperNotGreater          (* 'Upper price must be greater than lower price' *)
| PricesNotPositive        (* 'Prices must be positive' *)
| InvestmentNotPositive    (* 'Investment amount must be positive' *)
| GridTypeUnsupported      (* 'Grid type must be ARITHMETIC or GEOMETRIC' *)
| TriggerPriceNotPositive  (* 'Trigger price must be positive' *)
| TakeProfitOutOfRange     (* 'Take profit % must be between 0 and 1000' *)
| StopLossNotPositive      (* 'Stop loss price must be positive' *)
| UserNotFound             (* 'User not found' *)
| InsufficientBalanceError (required available : float)
                           (* 'Insufficient balance. Required: ..., Available: ...' *)
| BotNotFound              (* 'Bot not found or access denied' *)
| MathError.               (* ValueError or OverflowError of math.pow *)

(** One entry of the [grid_levels] list built by [create_grid_bot]. *)
Record level := {
  level_price : float;
  order_type : string;
  level_number : Z
}.

(** STEP 1 of [create_grid_bot]: the validation cascade, in source order.
    [None] means that every check passed. *)
Definition validate (c : config) : option error :=
  if grid_count c <? 2 then Some GridCountTooSmall
  else if 100 <? grid_count c then Some GridCountTooLarge
  else if (upper_price c <=? lower_price c)%float then Some UpperNotGreater
  else if (lower_price c <=? 0)%float || (upper_price c <=? 0)%float
       then Some PricesNotPositive
  else if (investment_amount c <=? 0)%float then Some InvestmentNotPositive
  else if negb ((grid_type c =? "ARITHMETIC")%string || (grid_type c =? "GEOMETRIC")%string)
       then Some GridTypeUnsupported
  else if match grid_trigger_price c with
          | Some p => (p <=? 0)%float
          | None => false
          end then Some TriggerPriceNotPositive
  else if match take_profit_pct c with
          | Some p => (p <=? 0)%float || (1000 <? p)%float
          | None => false
          end then Some TakeProfitOutOfRange
  else if match stop_loss_price c with
          | Some p => (p <=? 0)%float
          | None => false
          end then Some StopLossNotPositive
  else None.

(** STEP 3 of [create_grid_bot], the ARITHMETIC branch; the divisor
    [grid_count - 1] is not zero after the validation. *)
Definition arithmetic_levels (lower upper : float) (grid_count : Z) : list level :=
  let price_step := ((upper - lower) / of_int (grid_count - 1))%float in
  map (fun i => {| level_price := (lower + of_int i * price_step)%float;
                   order_type := GridBot.tag grid_count i;
                   level_number := i + 1 |})
      (range grid_count).

(** The loop of the GEOMETRIC branch: it ends at the first [math.pow] that
    raises. *)
Fixpoint geometric_loop (math_pow : float -> float -> option float) (lower ratio : float)
    (grid_count : Z) (indices : list Z) : option (list level) :=
  match indices with
  | [] => Some []
  | i :: rest =>
      match math_pow ratio (of_int i) with
      | None => None
      | Some q =>
          match geometric_loop math_pow lower ratio grid_count rest with
          | None => None
          | Some ls =>
              Some ({| level_price := (lower * q)%float;
                       order_type := GridBot.tag grid_count i;
                       level_number := i + 1 |} :: ls)
          end
      end
  end.

(** STEP 3 of [create_grid_bot], the GEOMETRIC branch; [lower] is not zero
    after the validation. *)
Definition geometric_levels (math_pow : float -> float -> option float)
    (lower upper : float) (grid_count : Z) : option (list level) :=
  match math_pow (upper / lower)%float (1 / of_int (grid_count - 1))%float with
  | None => None
  | Some ratio => geometric_loop math_pow lower ratio grid_count (range grid_count)
  end.

(** STEP 3 of [create_grid_bot]: [if grid_type == 'ARITHMETIC': ... else: ...] *)
Definition compute_levels (math_pow : float -> float -> option float) (gtype : string)
    (lower upper : float) (grid_count : Z) : option (list level) :=
  if (gtype =? "ARITHMETIC")%string
  then Some (arithmetic_levels lower upper grid_count)
  else geometric_levels math_pow lower upper grid_count.

(** The utility [calculate_grid_levels]; it validates nothing, so a count
    of 1 divides by zero ([None]: [ZeroDivisionError]). *)
Definition calculate_grid_levels (lower upper : float) (grid_count : Z)
  : option (list float) :=
  if grid_count - 1 =? 0 then None
  else
    let price_step := ((upper - lower) / of_int (grid_count - 1))%float in
    Some (map (fun i => (lower + of_int i * price_step)%float) (range grid_count)).

(** STEP 2: [INSERT INTO grid_bots (...) VALUES (..., 1)] *)
Definition insert_grid_bot (d : Db.t) (c : config) : Db.t * Z :=
  let bot_id := Db.next_id (map gb_id (grid_bots d)) in
  (set_grid_bots d
     (grid_bots d ++
      [{| gb_id := bot_id;
          gb_user_id := user_id c;
          gb_symbol := symbol c;
          gb_lower_price := lower_price c;
          gb_upper_price := upper_price c;
          gb_grid_count := grid_count c;
          gb_investment_amount := investment_amount c;
          gb_grid_type := grid_type c;
          gb_quote_currency := quote_currency c;
          gb_trailing_up := if trailing_up c then 1 else 0;
          gb_grid_trigger_price := grid_trigger_price c;
          gb_take_profit_pct := take_profit_pct c;
          gb_stop_loss_price := stop_loss_price c;
          gb_sell_all_on_stop := if sell_all_on_stop c then 1 else 0;
          gb_is_active := 1 |}]),
   bot_id).

(** STEP 4: [INSERT INTO grid_levels (bot_id, level_price, order_type,
    is_filled) VALUES (?, ?, ?, 0)] *)
Definition insert_grid_level (bot_id : Z) (d : Db.t) (l : level) : Db.t :=
  set_grid_levels d
    (grid_levels d ++
     [{| gl_id := Db.next_id (map gl_id (grid_levels d));
         gl_bot_id := bot_id;
         gl_level_price := level_price l;
         gl_order_type := order_type l;
         gl_is_filled := 0 |}]).

(** The successful result of [create_grid_bot]; the fields that echo the
    arguments are left out. *)
Record created := {
  bot_id : Z;
  levels : list level;
  new_balance : float
}.

(** [create_grid_bot].  The insert of STEP 2 always yields a non-zero row
    id here, so the ['Failed to create bot'] exit is not reachable.  When
    [math.pow] raises in STEP 3, the bot row of STEP 2 is already
    committed. *)
Definition create_grid_bot (math_pow : float -> float -> option float) (d : Db.t)
    (c : config) : Db.t * (error + created) :=
  match validate c with
  | Some e => (d, inl e)
  | None =>
      match select_user d (user_id c) with
      | None => (d, inl UserNotFound)
      | Some user =>
          if (u_balance user <? investment_amount c)%float
          then (d, inl (InsufficientBalanceError (investment_amount c) (u_balance user)))
          else
            let '(d1, bot_id) := insert_grid_bot d c in
            match compute_levels math_pow (grid_type c) (lower_price c) (upper_price c)
                    (grid_count c) with
            | None => (d1, inl MathError)
            | Some grid_levels =>
                let d2 := fold_left (insert_grid_level bot_id) grid_levels d1 in
                let new_balance := (u_balance user - investment_amount c)%float in
                let d3 := update_balance d2 (user_id c) new_balance in
                (d3, inr {| bot_id := bot_id; levels := grid_levels;
                            new_balance := new_balance |})
            end
      end
  end.

(** [ORDER BY level_price ASC], as a stable insertion sort. *)
Fixpoint insert_by_price (l : grid_level_row) (ls : list grid_level_row)
  : list grid_level_row :=
  match ls with
  | [] => [l]
  | h :: t =>
      if (gl_level_price h <? gl_level_price l)%float
      then h :: insert_by_price l t
      else l :: h :: t
  end.

Definition order_by_price (ls : list grid_level_row) : list grid_level_row :=
  fold_right insert_by_price [] ls.

(** [get_levels_for_bot] *)
Definition get_levels_for_bot (d : Db.t) (bot_id : Z) : list grid_level_row :=
  order_by_price (filter (fun l => gl_bot_id l =? bot_id) (grid_levels d)).

Record details := {
  bot : grid_bot_row;
  dlevels : list grid_level_row;
  dstats : GridBot.stats
}.

(** [get_bot_details(bot_id, user_id)]; a falsy [user_id] (0) skips the
    ownership filter, as [if user_id:] does. *)
Definition get_bot_details (d : Db.t) (bot_id uid : Z) : option details :=
  let found :=
    if negb (uid =? 0)
    then find (fun b => (gb_id b =? bot_id) && (gb_user_id b =? uid)) (grid_bots d)
    else find (fun b => gb_id b =? bot_id) (grid_bots d) in
  match found with
  | None => None
  | Some b =>
      let ls := get_levels_for_bot d bot_id in
      let filled := List.length (filter (fun l => gl_is_filled l =? 1) ls) in
      Some {| bot := b;
              dlevels := ls;
              dstats :=
                {| GridBot.total_levels := List.length ls;
                   GridBot.buy_levels :=
                     List.length (filter (fun l => (gl_order_type l =? "BUY")%string) ls);
                   GridBot.sell_levels :=
                     List.length (filter (fun l => (gl_order_type l =? "SELL")%string) ls);
                   GridBot.filled_count := filled;
                   GridBot.pending_count := List.length ls - filled |} |}
  end.

(** [UPDATE grid_bots SET is_active = 0 WHERE id = ?] *)
Definition deactivate (d : Db.t) (bot_id : Z) : Db.t :=
  set_grid_bots d
    (map (fun b =>
            if gb_id b =? bot_id
            then {| gb_id := gb_id b; gb_user_id := gb_user_id b; gb_symbol := gb_symbol b;
                    gb_lower_price := gb_lower_price b; gb_upper_price := gb_upper_price b;
                    gb_grid_count := gb_grid_count b;
                    gb_investment_amount := gb_investment_amount b;
                    gb_grid_type := gb_grid_type b; gb_quote_currency := gb_quote_currency b;
                    gb_trailing_up := gb_trailing_up b;
                    gb_grid_trigger_price := gb_grid_trigger_price b;
                    gb_take_profit_pct := gb_take_profit_pct b;
                    gb_stop_loss_price := gb_stop_loss_price b;
                    gb_sell_all_on_stop := gb_sell_all_on_stop b;
                    gb_is_active := 0 |}
            else b)
         (grid_bots d)).

(** [stop_grid_bot]; the successful result carries ['returned_investment']. *)
Definition stop_grid_bot (d : Db.t) (bot_id uid : Z) : Db.t * (error + float) :=
  match get_bot_details d bot_id uid with
  | None => (d, inl BotNotFound)
  | Some dt =>
      let d1 := deactivate d bot_id in
      let bot_info := bot dt in
      let d2 := credit_balance d1 uid (gb_investment_amount bot_info) in
      (d2, inr (gb_investment_amount bot_info))
  end.

End GridBot.

(** ** services/price_service.py *)

Module PriceService.
Import Db.

(** [ORDER BY timestamp DESC LIMIT 1] over the selected rows. *)
Definition newest (rows : list price_row) : option price_row :=
  fold_left
    (fun best r =>
       match best with
       | None => Some r
       | Some b => if ph_timestamp b <? ph_timestamp r then Some r else Some b
       end)
    rows None.

(** [get_latest_price(symbol)] *)
Definition get_latest_price (d : Db.t) (symbol : string) : option price_row :=
  newest (filter (fun r => (ph_symbol r =? symbol)%string) (price_history d)).

End PriceService.

(** ** The world outside the process, as in module [World] above *)

Module World.
Import PrimFloat.

Record order := {
  o_id : option string;
  o_status : World.field string;
  o_filled : option float;
  o_average : World.field float;
  o_fee : World.field (option float)
}.

Record sent_order := {
  so_symbol : string;
  so_side : string;
  so_amount : float
}.

Record t := {
  db : Db.t;
  ex_connect : string -> bool;
  ex_replies : list (option order);
  ex_orders : list sent_order;
  now : string
}.

Definition set_db (w : t) (d : Db.t) : t :=
  {| db := d; ex_connect := ex_connect w; ex_replies := ex_replies w;
     ex_orders := ex_orders w; now := now w |}.

(** [exchange.create_market_order(symbol, side, amount)] *)
Definition create_market_order (w : t) (symbol side : string) (amount : float)
  : t * option order :=
  let sent := {| so_symbol := symbol; so_side := side; so_amount := amount |} in
  ({| db := db w; ex_connect := ex_connect w; ex_replies := tl (ex_replies w);
      ex_orders := ex_orders w ++ [sent]; now := now w |},
   match ex_replies w with
   | [] => None
   | r :: _ => r
   end).

End World.

(** ** models/exchange_account_model.py and services/exchange_client.py *)

Module Exchange.
Import PrimFloat Num Py Db World.

(** [get_exchange_account_by_id(account_id, user_id)] *)
Definition get_exchange_account_by_id (d : Db.t) (account_id uid : Z)
  : option Db.exchange_account_row :=
  find (fun a => (Db.ea_id a =? account_id) && (Db.ea_user_id a =? uid) && (Db.ea_is_active a =? 1))
       (exchange_accounts d).

(** [create_exchange_client(...)]: [true] when a client object comes back. *)
Definition create_exchange_client (w : World.t) (exchange_name : string) : bool :=
  ex_connect w exchange_name.

(** [place_market_order(exchange, symbol, side, amount)] for an existing
    client: the argument checks, then the call to the exchange; every
    exception of the call becomes [None]. *)
Definition place_market_order (w : World.t) (symbol side : string) (amount : float)
  : World.t * option order :=
  if (symbol =? "")%string || (side =? "")%string || negb (truthy amount) then (w, None)
  else
    let side := lower side in
    if negb ((side =? "buy")%string || (side =? "sell")%string) then (w, None)
    else if (amount <=? 0)%float then (w, None)
    else create_market_order w symbol side amount.

End Exchange.

(** ** services/order_execution_service.py *)

Module OrderExecution.
Import PrimFloat Num Py Db World Exchange.

(** [log_trade_execution], with the keyword defaults of the source filled in
    by the callers. *)
Definition log_trade_execution (d : Db.t)
    (uid exchange_account_id : Z) (symbol side : string) (amount price : float)
    (status : string) (exchange_order_id : option string) (trade_source : string)
    (fee : float) (error_message : option string) : Db.t * Z :=
  let total_value := if (0 <? price)%float then (amount * price)%float else 0%float in
  let log_id := Db.next_id (map tl_id (exchange_trade_logs d)) in
  (set_trade_logs d
     (exchange_trade_logs d ++
      [{| tl_id := log_id;
          tl_user_id := uid;
          tl_exchange_account_id := exchange_account_id;
          tl_symbol := symbol;
          tl_side := side;
          tl_amount := amount;
          tl_price := price;
          tl_total_value := total_value;
          tl_status := status;
          tl_exchange_order_id := exchange_order_id;
          tl_trade_source := trade_source;
          tl_fee := fee;
          tl_error_message := error_message |}]),
   log_id).

(** The result dictionaries of [execute_market_order_for_account]. *)
Inductive result :=
| Failed (error : string) (mode : option string) (log_id : option Z)
| Simulated (log_id : Z) (price total : float) (exchange : string)
| Live (order_id : option string) (log_id : Z) (price filled : option float)
       (status : option string) (exchange : string).

(** [result['success']] *)
Definition success (r : result) : bool :=
  match r with
  | Failed _ _ _ => false
  | _ => true
  end.

(** The exception that logging the answer raises, if any, in the order in
    which the entries are read. *)
Definition answer_error (o : order) : option string :=
  match o_status o with
  | World.Null => Some "'NoneType' object has no attribute 'upper'"
  | _ =>
      match o_fee o with
      | World.Null => Some "'NoneType' object has no attribute 'get'"
      | _ =>
          match o_average o with
          | World.Null =>
              Some "'>' not supported between instances of 'NoneType' and 'int'"
          | _ => None
          end
      end
  end.

(** [order.get('fee', {}).get('cost', 0)] for a fee that is not [None]. *)
Definition fee_cost (o : order) : float :=
  match o_fee o with
  | World.Value (Some cost) => cost
  | _ => 0%float
  end.

(** [execute_market_order_for_account] *)
Definition execute_market_order_for_account (LIVE_TRADING_ENABLED : bool)
    (w : World.t) (uid exchange_account_id : Z) (symbol side : string) (amount : float)
    (is_live_mode : option bool) (trade_source : string) : World.t * result :=
  let is_live_mode := OrderExecution.from_option is_live_mode LIVE_TRADING_ENABLED in
  match get_exchange_account_by_id (db w) exchange_account_id uid with
  | None => (w, Failed "Exchange account not found or access denied" None None)
  | Some account =>
      if negb is_live_mode then
        (* SIMULATION MODE *)
        let price_data := PriceService.get_latest_price (db w) (replace symbol "/" "") in
        let simulated_price :=
          match price_data with
          | Some p => ph_close_price p
          | None => 45000.00%float
          end in
        let total_value := (amount * simulated_price)%float in
        let '(d1, log_id) :=
          log_trade_execution (db w) uid exchange_account_id symbol (upper side)
            amount simulated_price "SIMULATED" (Some ("SIM_" ++ now w)) trade_source
            0%float None in
        (set_db w d1,
         Simulated log_id simulated_price total_value (Db.ea_exchange_name account))
      else
        (* LIVE MODE *)
        if negb (create_exchange_client w (Db.ea_exchange_name account))
        then (w, Failed ("Failed to create " ++ Db.ea_exchange_name account ++ " client")
                        None None)
        else
          let '(w1, order) := place_market_order w symbol (lower side) amount in
          match order with
          | None =>
              let '(d1, log_id) :=
                log_trade_execution (db w1) uid exchange_account_id symbol (upper side)
                  amount 0%float "ERROR" None trade_source 0%float
                  (Some "Exchange rejected the order") in
              (set_db w1 d1, Failed "Order execution failed" (Some "LIVE") (Some log_id))
          | Some o =>
              match answer_error o with
              | Some e =>
                  (* except Exception as e *)
                  let '(d1, _) :=
                    log_trade_execution (db w1) uid exchange_account_id symbol
                      (upper side) amount 0%float "ERROR" None trade_source 0%float
                      (Some e) in
                  (set_db w1 d1, Failed e (Some "LIVE") None)
              | None =>
                  let '(d1, log_id) :=
                    log_trade_execution (db w1) uid exchange_account_id symbol
                      (upper side)
                      (OrderExecution.from_option (o_filled o) amount)
                      (OrderExecution.from_option (OrderExecution.get (o_average o))
                         0%float)
                      (upper (OrderExecution.from_option
                                (OrderExecution.get (o_status o)) "FILLED"))
                      (o_id o) trade_source (fee_cost o) None in
                  (set_db w1 d1,
                   Live (o_id o) log_id (OrderExecution.get (o_average o)) (o_filled o)
                        (OrderExecution.get (o_status o)) (Db.ea_exchange_name account))
              end
          end
  end.

(** The eligibility test inside the loop of [execute_grid_bot_levels]:
    [Some side] when [should_execute] ends up [True].  [1.01] and [0.99]
    are the doubles nearest to these decimals, and the products are
    rounded. *)
Definition should_execute (order_type : string) (current_price level_price : float)
  : option string :=
  if (order_type =? "BUY")%string && (current_price <=? level_price * 1.01)%float
  then Some "buy"
  else if (order_type =? "SELL")%string && (level_price * 0.99 <=? current_price)%float
  then Some "sell"
  else None.

(** [UPDATE grid_levels SET is_filled = 1, filled_at = datetime('now')
    WHERE id = ?] (the timestamp column is not kept). *)
Definition mark_filled (d : Db.t) (level_id : Z) : Db.t :=
  set_grid_levels d
    (map (fun l =>
            if gl_id l =? level_id
            then {| gl_id := gl_id l; gl_bot_id := gl_bot_id l;
                    gl_level_price := gl_level_price l;
                    gl_order_type := gl_order_type l; gl_is_filled := 1 |}
            else l)
         (grid_levels d)).

(** One entry of [executed_levels]. *)
Record executed := {
  level_id : Z;
  price : float;
  type : string;
  exec_result : result
}.

(** The body of [for level in levels:], applied to the world and the
    [executed_levels] collected so far. *)
Definition level_step (LIVE_TRADING_ENABLED : bool) (uid bot_id exchange_account_id : Z)
    (symbol_exchange : string) (current_price amount_per_order : float)
    (st : World.t * list executed) (level : grid_level_row) : World.t * list executed :=
  let '(w, executed_levels) := st in
  if gl_is_filled level =? 1 then st
  else
    match should_execute (gl_order_type level) current_price (gl_level_price level) with
    | None => st
    | Some side =>
        let '(w1, result) :=
          execute_market_order_for_account LIVE_TRADING_ENABLED w uid exchange_account_id
            symbol_exchange side amount_per_order None
            ("grid_bot_" ++ str_of_int bot_id) in
        if success result
        then (set_db w1 (mark_filled (db w1) (gl_id level)),
              (executed_levels ++
               [{| level_id := gl_id level; price := gl_level_price level;
                   type := gl_order_type level; exec_result := result |}])%list)
        else (w1, executed_levels)
    end.

(** The successful result of [execute_grid_bot_levels]. *)
Record tick_result := {
  tr_bot_id : Z;
  tr_current_price : float;
  tr_executed_count : nat;
  tr_executed_levels : list executed;
  tr_mode : string
}.

Inductive tick_outcome :=
| TickFailed (error : string)
| TickRaised (exception : string)
| TickDone (r : tick_result).

(** The [return] statement of [execute_grid_bot_levels].  Its ['mode'] entry
    reads the name [is_live_mode]; [None] stands for a name that is not
    bound, and reading it raises [NameError]. *)
Definition tick_return (is_live_mode : option bool) (bot_id : Z) (current_price : float)
    (executed_levels : list executed) : tick_outcome :=
  match is_live_mode with
  | None => TickRaised "NameError: name 'is_live_mode' is not defined"
  | Some live =>
      TickDone {| tr_bot_id := bot_id;
                  tr_current_price := current_price;
                  tr_executed_count := List.length executed_levels;
                  tr_executed_levels := executed_levels;
                  tr_mode := if live then "LIVE" else "SIMULATED" |}
  end.

(** The locals of [execute_grid_bot_levels] before its loop. *)
Definition tick_symbol (b : grid_bot_row) : string := replace (gb_symbol b) "USDT" "/USDT".

Definition tick_price (d : Db.t) (b : grid_bot_row) : float :=
  match PriceService.get_latest_price d (gb_symbol b) with
  | Some p => ph_close_price p
  | None => 45000.00%float
  end.

(** [if not amount_per_order: amount_per_order = investment / grid_count];
    [None] and [0.0] are both falsy, and a [grid_count] of 0 makes the
    division raise [ZeroDivisionError] ([None]). *)
Definition tick_amount (b : grid_bot_row) (amount_per_order : option float)
  : option float :=
  let default :=
    if gb_grid_count b =? 0 then None
    else Some (gb_investment_amount b / of_int (gb_grid_count b))%float in
  match amount_per_order with
  | Some a => if truthy a then Some a else default
  | None => default
  end.

(** The loop of [execute_grid_bot_levels] over the levels read at entry. *)
Definition run_levels (LIVE_TRADING_ENABLED : bool) (w : World.t)
    (uid bot_id exchange_account_id : Z) (b : grid_bot_row)
    (levels : list grid_level_row) (amount : float)
  : World.t * list executed :=
  fold_left
    (level_step LIVE_TRADING_ENABLED uid bot_id exchange_account_id
       (tick_symbol b) (tick_price (db w) b) amount)
    levels (w, []).

(** [execute_grid_bot_levels].  Neither the function nor its module binds
    [is_live_mode], hence [tick_return None]. *)
Definition execute_grid_bot_levels (LIVE_TRADING_ENABLED : bool) (w : World.t)
    (uid bot_id exchange_account_id : Z) (amount_per_order : option float)
  : World.t * tick_outcome :=
  match GridBot.get_bot_details (db w) bot_id uid with
  | None => (w, TickFailed "Grid bot not found or access denied")
  | Some bot_details =>
      let b := GridBot.bot bot_details in
      let levels := GridBot.dlevels bot_details in
      match tick_amount b amount_per_order with
      | None => (w, TickRaised "ZeroDivisionError: float division by zero")
      | Some amount =>
          let '(w1, executed_levels) :=
            run_levels LIVE_TRADING_ENABLED w uid bot_id exchange_account_id b levels
              amount in
          (w1, tick_return None bot_id (tick_price (db w) b) executed_levels)
      end
  end.

End OrderExecution.

(** ** Observations and concrete stores on doubles *)

Module Obs.
Import PrimFloat Db.

(** The prices of a computed grid, in order. *)
Definition prices (ls : list GridBot.level) : list float := map GridBot.level_price ls.

(** The [is_filled] column of the level row with a given id. *)
Definition level_state (d : Db.t) (level_id : Z) : option Z :=
  option_map gl_is_filled (find (fun l => gl_id l =? level_id) (grid_levels d)).

(** The router call that the tick makes for a pending, eligible level, and
    what the step of the loop makes of its result. *)
Definition level_order (live : bool) (uid bid acc : Z) (sym : string) (amt : float)
    (w : World.t) (side : string) : World.t * OrderExecution.result :=
  OrderExecution.execute_market_order_for_account live w uid acc sym side amt None
    ("grid_bot_" ++ Py.str_of_int bid).

(** The entry that a successful order adds to [executed_levels]. *)
Definition entry (l : grid_level_row) (r : OrderExecution.result)
  : OrderExecution.executed :=
  {| OrderExecution.level_id := gl_id l;
     OrderExecution.price := gl_level_price l;
     OrderExecution.type := gl_order_type l;
     OrderExecution.exec_result := r |}.

Definition after_order (l : grid_level_row) (ex : list OrderExecution.executed)
    (routed : World.t * OrderExecution.result) : World.t * list OrderExecution.executed :=
  if OrderExecution.success (snd routed)
  then (World.set_db (fst routed)
          (OrderExecution.mark_filled (World.db (fst routed)) (gl_id l)),
        (ex ++ [entry l (snd routed)])%list)
  else (fst routed, ex).

(** The rows of every collected level are filled in the store. *)
Definition collected_filled (st : World.t * list OrderExecution.executed) : Prop :=
  forall e r, In e (snd st) -> In r (grid_levels (World.db (fst st))) ->
              gl_id r = OrderExecution.level_id e -> gl_is_filled r = 1.

(** SQLite stores a NaN as NULL: in a store that it can hold, the [REAL]
    columns that the tick reads are numbers. *)
Definition numbers (d : Db.t) : bool :=
  forallb (fun l => negb (is_nan (gl_level_price l))) (grid_levels d) &&
  forallb (fun p => negb (is_nan (ph_close_price p))) (price_history d).

(** The rows appended to the trade log between two stores. *)
Definition new_logs (d d' : Db.t) : list trade_log_row :=
  skipn (List.length (exchange_trade_logs d)) (exchange_trade_logs d').

(** The level ids collected in [executed_levels]. *)
Definition executed_ids (ex : list OrderExecution.executed) : list Z :=
  map OrderExecution.level_id ex.

(** A level row is pending and passes the test of the tick at a price. *)
Definition due (cp : float) (l : grid_level_row) : bool :=
  negb (gl_is_filled l =? 1) &&
  match OrderExecution.should_execute (gl_order_type l) cp (gl_level_price l) with
  | Some _ => true
  | None => false
  end.

End Obs.

Module Fixtures.
Import PrimFloat Db.

(** No [math.pow] is needed for an ARITHMETIC grid. *)
Definition no_pow (x y : float) : option float := None.

(** [math.pow] at the exponents 0 and 1, the only ones that a grid of
    count 2 asks for: [math.pow(x, 0.0)] is 1.0 and [math.pow(x, 1.0)] is
    [x]. *)
Definition pow_count_2 (x y : float) : option float :=
  if (y =? 0)%float then Some 1%float
  else if (y =? 1)%float then Some x
  else None.

Definition db_of (balance : float) : Db.t :=
  {| users := [ {| u_id := 1; u_balance := balance |} ];
     grid_bots := []; grid_levels := []; price_history := [];
     exchange_accounts := [ Fixtures.account1 ]; exchange_trade_logs := [] |}.

Definition grid (lower upper : float) (count : Z) (investment : float) : GridBot.config :=
  {| GridBot.user_id := 1;
     GridBot.symbol := "BTCUSDT";
     GridBot.lower_price := lower;
     GridBot.upper_price := upper;
     GridBot.grid_count := count;
     GridBot.investment_amount := investment;
     GridBot.grid_type := "ARITHMETIC";
     GridBot.quote_currency := "USDT";
     GridBot.trailing_up := false;
     GridBot.grid_trigger_price := None;
     GridBot.take_profit_pct := None;
     GridBot.stop_loss_price := None;
     GridBot.sell_all_on_stop := false |}.

(** Scenario A: 40000 to 50000, count 5, investment 1000, balance 5000. *)
Definition scenario_a : GridBot.config := grid 40000 50000 5 1000.
Definition db0 : Db.t := db_of 5000.

(** The same grid with an investment of 2469.77 out of a balance of
    7136.44. *)
Definition scenario_cents : GridBot.config := grid 40000 50000 5 2469.77.
Definition db_cents : Db.t := db_of 7136.44.

(** A bot with one pending BUY level at 3.0 and a latest price of
    3.0300000000000002, the double that [3.0 * 1.01] rounds to; the
    decimal 3.03 is the next double below it. *)
Definition edge_bot : grid_bot_row :=
  {| gb_id := 1; gb_user_id := 1; gb_symbol := "ADAUSDT";
     gb_lower_price := 3; gb_upper_price := 4; gb_grid_count := 2;
     gb_investment_amount := 100; gb_grid_type := "ARITHMETIC";
     gb_quote_currency := "USDT"; gb_trailing_up := 0;
     gb_grid_trigger_price := None; gb_take_profit_pct := None;
     gb_stop_loss_price := None; gb_sell_all_on_stop := 0; gb_is_active := 1 |}.

Definition edge_level : grid_level_row :=
  {| gl_id := 1; gl_bot_id := 1; gl_level_price := 3; gl_order_type := "BUY";
     gl_is_filled := 0 |}.

Definition edge_sell : grid_level_row :=
  {| gl_id := 2; gl_bot_id := 1; gl_level_price := 4; gl_order_type := "SELL";
     gl_is_filled := 0 |}.

Definition db_edge : Db.t :=
  {| users := [ {| u_id := 1; u_balance := 900 |} ];
     grid_bots := [ edge_bot ];
     grid_levels := [ edge_level; edge_sell ];
     price_history := [ {| ph_symbol := "ADAUSDT"; ph_timestamp := 1;
                           ph_close_price := 3.0300000000000002 |} ];
     exchange_accounts := [ Fixtures.account1 ]; exchange_trade_logs := [] |}.

Definition world_edge : World.t :=
  {| World.db := db_edge; World.ex_connect := fun _ => true; World.ex_replies := [];
     World.ex_orders := []; World.now := "20250101120000" |}.

End Fixtures.

End Binary64.
(** * Properties *)

(** ** Branch conditions and list primitives *)

Section PyFacts.
Import Py.
Local Open Scope R_scope.

Lemma Rleb_true (x y : R) : Rleb x y = true <-> x <= y.
Proof. unfold Rleb. destruct (Rle_dec x y); split; intros; try easy; lra. Qed.

Lemma Rleb_false (x y : R) : Rleb x y = false <-> y < x.
Proof. unfold Rleb. destruct (Rle_dec x y); split; intros; try easy; lra. Qed.

Lemma Rltb_true (x y : R) : Rltb x y = true <-> x < y.
Proof. unfold Rltb. destruct (Rlt_dec x y); split; intros; try easy; lra. Qed.

Lemma Rltb_false (x y : R) : Rltb x y = false <-> y <= x.
Proof. unfold Rltb. destruct (Rlt_dec x y); split; intros; try easy; lra. Qed.

Lemma range_length (n : Z) : List.length (range n) = Z.to_nat n.
Proof. unfold range. now rewrite length_map, length_seq. Qed.

Lemma nth_map_range {A : Type} (f : Z -> A) (n : Z) (i : nat) (d : A) :
  (i < Z.to_nat n)%nat -> nth i (map f (range n)) d = f (Z.of_nat i).
Proof.
  intros Hi. unfold range. rewrite map_map.
  rewrite nth_indep with (d' := f (Z.of_nat 0)) by now rewrite length_map, length_seq.
  rewrite (map_nth (fun k => f (Z.of_nat k))), seq_nth by exact Hi.
  reflexivity.
Qed.

End PyFacts.

(** Decides the concrete float comparisons left by evaluation. *)
Ltac rbool :=
  unfold Py.Rleb, Py.Rltb, Py.Rtruthy;
  repeat match goal with
         | |- context [Rle_dec ?a ?b] => destruct (Rle_dec a b); try lra
         | |- context [Rlt_dec ?a ?b] => destruct (Rlt_dec a b); try lra
         | |- context [Req_dec_T ?a ?b] => destruct (Req_dec_T a b); try lra
         end.

(** ** Price levels *)

Section Levels.
Import Py GridBot Obs.
Local Open Scope R_scope.

Lemma arithmetic_prices (lower upper : R) (n : Z) :
  prices (arithmetic_levels lower upper n)
  = map (fun i => lower + IZR i * ((upper - lower) / IZR (n - 1))) (range n).
Proof. unfold prices, arithmetic_levels. now rewrite map_map. Qed.

Lemma geometric_prices (lower upper : R) (n : Z) :
  prices (geometric_levels lower upper n)
  = map (fun i => lower * Rpower (Rpower (upper / lower) (1 / IZR (n - 1))) (IZR i))
        (range n).
Proof. unfold prices, geometric_levels, math_pow. now rewrite map_map. Qed.

Lemma levels_length (gtype : string) (lower upper : R) (n : Z) :
  List.length (compute_levels gtype lower upper n) = Z.to_nat n.
Proof.
  unfold compute_levels, arithmetic_levels, geometric_levels.
  destruct (gtype =? "ARITHMETIC")%string; now rewrite length_map, range_length.
Qed.

End Levels.

Section LevelTheorems.
Import Py GridBot Obs.
Local Open Scope R_scope.

(** Scenario A of the level calculator, evaluated. *)
Lemma scenario_a_levels :
  compute_levels "ARITHMETIC" 40000 50000 5
  = [ {| level_price := 40000; order_type := "BUY";  level_number := 1 |};
      {| level_price := 42500; order_type := "BUY";  level_number := 2 |};
      {| level_price := 45000; order_type := "SELL"; level_number := 3 |};
      {| level_price := 47500; order_type := "SELL"; level_number := 4 |};
      {| level_price := 50000; order_type := "SELL"; level_number := 5 |} ].
Proof.
  unfold compute_levels, arithmetic_levels, range. simpl.
  repeat (f_equal; try lra).
Qed.

(** C4, as amended: the levels with index below [grid_count // 2] are tagged
    BUY and the others SELL; on Scenario A (count 5: five levels) the BUY
    levels are the first 2, and the third level is SELL. *)
Theorem grid_levels_tagging (gtype : string) (lower upper : R) (n : Z) (i : nat) :
  (i < Z.to_nat n)%nat ->
  nth i (tags (compute_levels gtype lower upper n)) ""
  = if (Z.of_nat i <? n / 2)%Z then "BUY" else "SELL".
Proof.
  intros Hi. unfold tags, compute_levels, arithmetic_levels, geometric_levels.
  destruct (gtype =? "ARITHMETIC")%string;
    rewrite map_map, nth_map_range by exact Hi; reflexivity.
Qed.

Lemma grid_levels_tagging_witness :
  nth 1 (tags (compute_levels "ARITHMETIC" 40000 50000 5)) "" = "BUY" /\
  nth 2 (tags (compute_levels "ARITHMETIC" 40000 50000 5)) "" = "SELL".
Proof.
  split.
  - exact (grid_levels_tagging "ARITHMETIC" 40000 50000 5 1 ltac:(simpl; lia)).
  - exact (grid_levels_tagging "ARITHMETIC" 40000 50000 5 2 ltac:(simpl; lia)).
Defined.

(** C4, as stated, fails on Scenario A: the third level (index 2, below
    [(5 + 1) / 2 = 3]) is tagged SELL, and only two levels are tagged BUY. *)
Lemma scenario_a_third_level_is_sell :
  let ts := tags (compute_levels "ARITHMETIC" 40000 50000 5) in
  (2 < (5 + 1) / 2)%Z /\
  nth 2 ts "" <> "BUY" /\
  ts = ["BUY"; "BUY"; "SELL"; "SELL"; "SELL"].
Proof.
  rewrite scenario_a_levels. cbn.
  repeat split; try reflexivity; discriminate.
Qed.

End LevelTheorems.

(** ** Capital ledger: create, stop, delete *)

Section Ledger.
Import Py Db GridBot Obs.
Local Open Scope R_scope.

Lemma next_id_fresh (ids : list Z) (x : Z) : In x ids -> (x < next_id ids)%Z.
Proof.
  unfold next_id. induction ids as [|y ids IH]; cbn [fold_right In]; [easy|].
  intros [-> | Hx]; [lia | specialize (IH Hx); lia].
Qed.

Lemma find_none_fresh {A : Type} (key : A -> Z) (q : A -> bool) (rows : list A) :
  (forall r, q r = true -> key r = next_id (map key rows)) -> find q rows = None.
Proof.
  intros Hq.
  destruct (find q rows) as [r|] eqn:Hf; [|reflexivity].
  apply find_some in Hf as [Hin Hr].
  pose proof (next_id_fresh (map key rows) (key r) (in_map key rows r Hin)).
  specialize (Hq r Hr). lia.
Qed.

Lemma find_app {A : Type} (p : A -> bool) (l1 l2 : list A) :
  find p (l1 ++ l2) = match find p l1 with Some x => Some x | None => find p l2 end.
Proof. induction l1 as [|x l1 IH]; simpl; [reflexivity|]. now destruct (p x). Qed.

Lemma find_map_stable {A : Type} (p : A -> bool) (f : A -> A) (l : list A) :
  (forall x, p (f x) = p x) -> find p (map f l) = option_map f (find p l).
Proof.
  intros Hp. induction l as [|x l IH]; simpl; [reflexivity|].
  rewrite Hp. now destruct (p x).
Qed.

Lemma balance_of_update (d : Db.t) (uid : Z) (b : R) :
  select_user d uid <> None -> balance_of (update_balance d uid b) uid = Some b.
Proof.
  unfold balance_of, select_user, update_balance. simpl.
  induction (users d) as [|u us IH]; simpl; [easy|].
  destruct (Z.eqb_spec (u_id u) uid) as [Heq | Hne]; simpl.
  - intros _. destruct (Z.eqb_spec (u_id u) uid); [reflexivity | contradiction].
  - destruct (Z.eqb_spec (u_id u) uid); [contradiction | exact IH].
Qed.

Lemma balance_of_credit (d : Db.t) (uid : Z) (amount b : R) :
  balance_of d uid = Some b ->
  balance_of (credit_balance d uid amount) uid = Some (b + amount).
Proof.
  unfold balance_of, select_user, credit_balance. simpl.
  induction (users d) as [|u us IH]; simpl; [easy|].
  destruct (Z.eqb_spec (u_id u) uid) as [Heq | Hne]; simpl.
  - intros [= <-]. destruct (Z.eqb_spec (u_id u) uid); [reflexivity | contradiction].
  - destruct (Z.eqb_spec (u_id u) uid); [contradiction | exact IH].
Qed.

(** Inserting levels touches the [grid_levels] table only. *)
Lemma insert_levels_frame (bot_id : Z) (ls : list level) (d : Db.t) :
  users (fold_left (insert_grid_level bot_id) ls d) = users d /\
  grid_bots (fold_left (insert_grid_level bot_id) ls d) = grid_bots d.
Proof. revert d. induction ls as [|l ls IH]; intros d; simpl; [easy|]. now rewrite !(proj1 (IH _)), !(proj2 (IH _)). Qed.

(** What a successful [create_grid_bot] did. *)
Lemma create_success_inv (d d' : Db.t) (c : config) (r : created) :
  create_grid_bot d c = (d', inr r) ->
  exists user,
    validate c = None /\
    select_user d (user_id c) = Some user /\
    investment_amount c <= u_balance user /\
    bot_id r = next_id (map gb_id (grid_bots d)) /\
    levels r = compute_levels (grid_type c) (lower_price c) (upper_price c) (grid_count c) /\
    new_balance r = u_balance user - investment_amount c /\
    d' = update_balance
           (fold_left (insert_grid_level (bot_id r)) (levels r) (fst (insert_grid_bot d c)))
           (user_id c) (new_balance r).
Proof.
  unfold create_grid_bot.
  destruct (validate c); [discriminate|].
  destruct (select_user d (user_id c)) as [user|]; [|discriminate].
  destruct (Rltb (u_balance user) (investment_amount c)) eqn:Hb; [discriminate|].
  simpl. intros [= <- <-]. exists user. simpl.
  apply Rltb_false in Hb. repeat split; try reflexivity. exact Hb.
Qed.

(** The bot written by [create_grid_bot] is the one [get_bot_details] finds. *)
Lemma created_bot_found (d : Db.t) (c : config) (ls : list level) (b : R) :
  let bid := snd (insert_grid_bot d c) in
  let d' := update_balance (fold_left (insert_grid_level bid) ls (fst (insert_grid_bot d c)))
                           (user_id c) b in
  exists dt, get_bot_details d' bid (user_id c) = Some dt /\
             gb_id (bot dt) = bid /\
             gb_investment_amount (bot dt) = investment_amount c /\
             gb_is_active (bot dt) = 1%Z.
Proof.
  intros bid d'. unfold get_bot_details.
  assert (Hbots : grid_bots d' = (grid_bots d ++ [ {|
          gb_id := bid;
          gb_user_id := user_id c;
          gb_symbol := symbol c;
          gb_lower_price := lower_price c;
          gb_upper_price := upper_price c;
          gb_grid_count := grid_count c;
          gb_investment_amount := investment_amount c;
          gb_grid_type := grid_type c;
          gb_quote_currency := quote_currency c;
          gb_trailing_up := if trailing_up c then 1%Z else 0%Z;
          gb_grid_trigger_price := grid_trigger_price c;
          gb_take_profit_pct := take_profit_pct c;
          gb_stop_loss_price := stop_loss_price c;
          gb_sell_all_on_stop := if sell_all_on_stop c then 1%Z else 0%Z;
          gb_is_active := 1%Z |} ])%list).
  { unfold d', update_balance. simpl. now rewrite (proj2 (insert_levels_frame _ _ _)). }
  rewrite Hbots. unfold bid. simpl.
  destruct (negb (user_id c =? 0)%Z); rewrite find_app.
  - rewrite (find_none_fresh gb_id)
      by (intros r Hr; apply andb_prop in Hr as [Hr _]; now apply Z.eqb_eq in Hr).
    simpl. rewrite !Z.eqb_refl. simpl. eexists. repeat split.
  - rewrite (find_none_fresh gb_id) by (intros r Hr; now apply Z.eqb_eq in Hr).
    simpl. rewrite !Z.eqb_refl. eexists. repeat split.
Qed.

Lemma validate_kind (c : config) (e : error) :
  validate c = Some e -> kind_of e = InvalidConfig.
Proof.
  unfold validate.
  repeat match goal with
         | |- context [if ?b then _ else _] => destruct b
         end; intros [= <-]; reflexivity.
Qed.

Lemma validate_rejects (c : config) :
  (grid_count c < 2)%Z \/ (grid_count c > 100)%Z \/ upper_price c <= lower_price c \/
  lower_price c <= 0 \/ upper_price c <= 0 \/ investment_amount c <= 0 \/
  (grid_type c <> "ARITHMETIC" /\ grid_type c <> "GEOMETRIC") ->
  validate c <> None.
Proof.
  intros H. unfold validate.
  destruct (Z.ltb_spec (grid_count c) 2) as [|Hlo]; [discriminate|].
  destruct (Z.ltb_spec 100 (grid_count c)) as [|Hhi]; [discriminate|].
  destruct (Rleb (upper_price c) (lower_price c)) eqn:H1; [discriminate|].
  apply Rleb_false in H1.
  destruct (Rleb (lower_price c) 0) eqn:H2; [discriminate|].
  apply Rleb_false in H2.
  destruct (Rleb (upper_price c) 0) eqn:H3; [discriminate|].
  apply Rleb_false in H3. cbn [orb].
  destruct (Rleb (investment_amount c) 0) eqn:H4; [discriminate|].
  apply Rleb_false in H4.
  destruct (String.eqb_spec (grid_type c) "ARITHMETIC") as [Ha | Ha];
    destruct (String.eqb_spec (grid_type c) "GEOMETRIC") as [Hg | Hg]; cbn [orb negb];
    try (exfalso; destruct H as [H | [H | [H | [H | [H | [H | [H H']]]]]]];
         solve [lia | lra | contradiction]).
  discriminate.
Qed.

(** The balance right after a successful create. *)
Lemma create_balance (d d1 : Db.t) (c : config) (r : created) (b0 : R) :
  balance_of d (user_id c) = Some b0 ->
  create_grid_bot d c = (d1, inr r) ->
  balance_of d1 (user_id c) = Some (b0 - investment_amount c) /\
  new_balance r = b0 - investment_amount c.
Proof.
  intros Hb0 Hc.
  apply create_success_inv in Hc as (user & _ & Hu & _ & Hid & _ & Hnb & ->).
  assert (Hbal : u_balance user = b0).
  { unfold balance_of in Hb0. rewrite Hu in Hb0. now injection Hb0. }
  rewrite Hnb, Hbal. split; [|reflexivity].
  apply balance_of_update. unfold select_user.
  rewrite (proj1 (insert_levels_frame _ _ _)). simpl.
  unfold select_user in Hu. now rewrite Hu.
Qed.

(** A stop of the bot that a create has just written succeeds and credits
    the investment. *)
Lemma stop_after_create (d d1 : Db.t) (c : config) (r : created) (b : R) :
  create_grid_bot d c = (d1, inr r) ->
  balance_of d1 (user_id c) = Some b ->
  exists d2,
    stop_grid_bot d1 (bot_id r) (user_id c) = (d2, inr (investment_amount c)) /\
    balance_of d2 (user_id c) = Some (b + investment_amount c).
Proof.
  intros Hc Hb.
  apply create_success_inv in Hc as (user & _ & _ & _ & Hid & _ & Hnb & ->).
  rewrite Hid in Hb |- *.
  unfold stop_grid_bot.
  destruct (created_bot_found d c (levels r) (new_balance r)) as (dt & Hdt & _ & Hinv & _).
  cbn zeta in Hdt. cbn [insert_grid_bot fst snd] in Hdt, Hb |- *.
  rewrite Hdt, Hinv. eexists. split; [reflexivity|].
  now apply balance_of_credit.
Qed.

(** [stop_grid_bot] does not look at [is_active]: a stop that succeeded
    succeeds again and credits the investment again. *)
Lemma stop_again (d d1 : Db.t) (bid uid : Z) (inv b : R) :
  stop_grid_bot d bid uid = (d1, inr inv) ->
  balance_of d1 uid = Some b ->
  exists d2,
    stop_grid_bot d1 bid uid = (d2, inr inv) /\
    balance_of d2 uid = Some (b + inv).
Proof.
  unfold stop_grid_bot, get_bot_details.
  set (p := fun b0 : grid_bot_row => (gb_id b0 =? bid)%Z && (gb_user_id b0 =? uid)%Z).
  set (q := fun b0 : grid_bot_row => (gb_id b0 =? bid)%Z).
  destruct (if negb (uid =? 0)%Z then find p (grid_bots d) else find q (grid_bots d))
    as [b0|] eqn:Hfound; [|discriminate].
  cbn [bot]. intros [= <- <-] Hb.
  cbn [grid_bots credit_balance deactivate set_users set_grid_bots].
  set (f := fun b1 : grid_bot_row => if (gb_id b1 =? bid)%Z then _ else b1).
  assert (Hp : forall x, p (f x) = p x).
  { intros x. unfold p, f. now destruct (gb_id x =? bid)%Z eqn:E; cbn; rewrite ?E. }
  assert (Hq : forall x, q (f x) = q x).
  { intros x. unfold q, f. now destruct (gb_id x =? bid)%Z eqn:E; cbn; rewrite ?E. }
  rewrite (find_map_stable p f _ Hp), (find_map_stable q f _ Hq).
  assert (Hf : (if negb (uid =? 0)%Z
                then option_map f (find p (grid_bots d))
                else option_map f (find q (grid_bots d))) = Some (f b0)).
  { destruct (negb (uid =? 0)%Z); now rewrite Hfound. }
  rewrite Hf. cbn [bot].
  assert (Hinv : gb_investment_amount (f b0) = gb_investment_amount b0).
  { unfold f. now destruct (gb_id b0 =? bid)%Z. }
  rewrite Hinv. eexists. split; [reflexivity|].
  now apply balance_of_credit.
Qed.

Import Fixtures.

Lemma scenario_a_valid : validate scenario_a = None.
Proof. unfold validate, scenario_a. cbn. rbool. reflexivity. Qed.

Lemma create_scenario_a_succeeds :
  exists d1 r, create_grid_bot db0 scenario_a = (d1, inr r).
Proof.
  unfold create_grid_bot. rewrite scenario_a_valid.
  cbn [select_user db0 set_users users empty_db find u_id scenario_a user_id Z.eqb Pos.eqb
       u_balance investment_amount].
  replace (Rltb 5000 1000) with false by (rbool; reflexivity).
  do 2 eexists. reflexivity.
Qed.

(** The store that the create of Scenario A leaves: the bot row, the five
    level rows and the reduced balance. *)
Lemma create_scenario_a_store :
  let d1 := fst (create_grid_bot db0 scenario_a) in
  grid_bots d1 = [ bot1 ] /\
  grid_levels d1 = rows1 /\
  balance_of d1 1 = Some (5000 - 1000).
Proof.
  destruct create_scenario_a_succeeds as (d1 & r & Hc). rewrite Hc. cbn [fst].
  apply create_success_inv in Hc as (user & _ & Hu & _ & Hid & Hl & Hnb & ->).
  injection Hu as <-.
  rewrite Hl, Hnb, Hid.
  cbn [scenario_a grid_type lower_price upper_price grid_count].
  rewrite scenario_a_levels.
  repeat split.
Qed.

(** C2, evaluated on the code: after the create of Scenario A, the first
    stop returns the investment and restores the balance of 5000; the second
    stop of the same bot succeeds again and credits another 1000. *)
Lemma second_stop_credits_again :
  exists d1 r d2 d3,
    create_grid_bot db0 scenario_a = (d1, inr r) /\
    stop_grid_bot d1 (bot_id r) 1 = (d2, inr 1000) /\
    balance_of d2 1 = Some 5000 /\
    stop_grid_bot d2 (bot_id r) 1 = (d3, inr 1000) /\
    balance_of d3 1 = Some 6000.
Proof.
  destruct create_scenario_a_succeeds as (d1 & r & Hc).
  destruct (create_balance db0 d1 scenario_a r 5000 eq_refl Hc) as [H1 _].
  destruct (stop_after_create db0 d1 scenario_a r _ Hc H1) as (d2 & Hs2 & H2).
  destruct (stop_again d1 d2 (bot_id r) 1 _ _ Hs2 H2) as (d3 & Hs3 & H3).
  exists d1, r, d2, d3. cbn in *.
  repeat split; try assumption.
  - rewrite H2. f_equal. lra.
  - rewrite H3. f_equal. lra.
Qed.

(** [delete_grid_bot] guards the credit with [is_active == 1]: deleting a
    bot that was stopped leaves the balance as it is. *)
Lemma delete_after_stop_no_credit (d d1 : Db.t) (bid uid : Z) (inv b : R) :
  stop_grid_bot d bid uid = (d1, inr inv) ->
  balance_of d1 uid = Some b ->
  exists d2, delete_grid_bot d1 bid uid = (d2, inr tt) /\ balance_of d2 uid = Some b.
Proof.
  unfold stop_grid_bot, delete_grid_bot, get_bot_details.
  set (p := fun b0 : grid_bot_row => (gb_id b0 =? bid)%Z && (gb_user_id b0 =? uid)%Z).
  set (q := fun b0 : grid_bot_row => (gb_id b0 =? bid)%Z).
  destruct (if negb (uid =? 0)%Z then find p (grid_bots d) else find q (grid_bots d))
    as [b0|] eqn:Hfound; [|discriminate].
  cbn [bot]. intros [= <- <-] Hb.
  cbn [grid_bots credit_balance deactivate set_users set_grid_bots].
  set (f := fun b1 : grid_bot_row => if (gb_id b1 =? bid)%Z then _ else b1).
  assert (Hp : forall x, p (f x) = p x).
  { intros x. unfold p, f. now destruct (gb_id x =? bid)%Z eqn:E; cbn; rewrite ?E. }
  assert (Hq : forall x, q (f x) = q x).
  { intros x. unfold q, f. now destruct (gb_id x =? bid)%Z eqn:E; cbn; rewrite ?E. }
  rewrite (find_map_stable p f _ Hp), (find_map_stable q f _ Hq).
  assert (Hid : gb_id b0 = bid).
  { destruct (negb (uid =? 0)%Z); apply find_some in Hfound as [_ Hb0]; unfold p, q in Hb0.
    - apply andb_prop in Hb0 as [Hb0 _]. now apply Z.eqb_eq.
    - now apply Z.eqb_eq. }
  assert (Hf : (if negb (uid =? 0)%Z
                then option_map f (find p (grid_bots d))
                else option_map f (find q (grid_bots d))) = Some (f b0)).
  { destruct (negb (uid =? 0)%Z); now rewrite Hfound. }
  rewrite Hf. cbn [bot].
  assert (Hact : gb_is_active (f b0) = 0%Z).
  { unfold f. rewrite Hid, Z.eqb_refl. reflexivity. }
  rewrite Hact. cbn [Z.eqb]. eexists. split; [reflexivity|]. exact Hb.
Qed.

(** C9: a create with an out-of-range count, an inverted or non-positive
    price range, a non-positive investment or an unsupported spacing mode
    returns an [InvalidConfig] error, a create for a user whose balance is
    below the investment returns an error ([InsufficientBalance] when the
    configuration is valid), and in both cases the store is left as it was:
    no bot, no level, no balance change. *)
Theorem rejected_create_leaves_no_trace (d : Db.t) (c : config) :
  ((grid_count c < 2)%Z \/ (grid_count c > 100)%Z \/ upper_price c <= lower_price c \/
   lower_price c <= 0 \/ upper_price c <= 0 \/ investment_amount c <= 0 \/
   (grid_type c <> "ARITHMETIC" /\ grid_type c <> "GEOMETRIC") ->
   exists e, create_grid_bot d c = (d, inl e) /\ kind_of e = InvalidConfig) /\
  (forall b, balance_of d (user_id c) = Some b -> b < investment_amount c ->
   exists e, create_grid_bot d c = (d, inl e) /\
             (kind_of e = InvalidConfig \/ kind_of e = InsufficientBalance) /\
             (validate c = None ->
              e = InsufficientBalanceError (investment_amount c) b)).
Proof.
  split.
  - intros Hbad. apply validate_rejects in Hbad.
    unfold create_grid_bot. destruct (validate c) as [e|] eqn:Hv; [|contradiction].
    exists e. split; [reflexivity | exact (validate_kind c e Hv)].
  - intros b Hb Hlt. unfold create_grid_bot.
    destruct (validate c) as [e|] eqn:Hv.
    + exists e. split; [reflexivity|]. split; [left; exact (validate_kind c e Hv) | discriminate].
    + unfold balance_of in Hb.
      destruct (select_user d (user_id c)) as [user|]; [|discriminate].
      injection Hb as Hb. rewrite Hb.
      apply Rltb_true in Hlt. rewrite Hlt.
      eexists. split; [reflexivity|]. split; [right; reflexivity | reflexivity].
Qed.

Lemma rejected_create_leaves_no_trace_witness :
  (exists e, create_grid_bot db0 scenario_a_count_1 = (db0, inl e) /\
             kind_of e = InvalidConfig) /\
  (exists e, create_grid_bot (set_users empty_db [ {| u_id := 1; u_balance := 500 |} ])
                             scenario_a
             = (set_users empty_db [ {| u_id := 1; u_balance := 500 |} ], inl e) /\
             e = InsufficientBalanceError 1000 500).
Proof.
  split.
  - apply (proj1 (rejected_create_leaves_no_trace db0 scenario_a_count_1)).
    left. cbn. lia.
  - destruct (proj2 (rejected_create_leaves_no_trace
                       (set_users empty_db [ {| u_id := 1; u_balance := 500 |} ])
                       scenario_a) 500 eq_refl ltac:(cbn; lra))
      as (e & He & _ & Hk).
    exists e. split; [exact He | exact (Hk scenario_a_valid)].
Defined.

End Ledger.

(** ** Order routing and the grid tick *)

Section Orders.
Import Py Db World Exchange OrderExecution Obs.
Local Open Scope R_scope.

Lemma place_market_order_db (w : World.t) (symbol side : string) (amount : R) :
  db (fst (place_market_order w symbol side amount)) = db w.
Proof.
  unfold place_market_order.
  repeat match goal with
         | |- context [if ?b then _ else _] => destruct b
         end; reflexivity.
Qed.

(** The order router writes to the trade log only: levels, bots and users
    are as before. *)
Lemma execute_order_frame (live : bool) (w : World.t) (uid acc : Z)
    (symbol side : string) (amount : R) (mode : option bool) (source : string) :
  let w' := fst (execute_market_order_for_account live w uid acc symbol side amount
                   mode source) in
  grid_levels (db w') = grid_levels (db w) /\
  grid_bots (db w') = grid_bots (db w) /\
  users (db w') = users (db w) /\
  dca_bots (db w') = dca_bots (db w).
Proof.
  unfold execute_market_order_for_account.
  destruct (get_exchange_account_by_id (db w) acc uid) as [account|]; [|easy].
  destruct (negb (from_option mode live)); [easy|].
  destruct (negb (create_exchange_client w (ea_exchange_name account))); [easy|].
  pose proof (place_market_order_db w symbol (lower side) amount) as Hdb.
  destruct (place_market_order w symbol (lower side) amount) as [w1 [o|]];
    [destruct (answer_error o) | ];
    cbn in Hdb |- *; now rewrite Hdb.
Qed.

Lemma level_state_ext (d d' : Db.t) (id : Z) :
  grid_levels d = grid_levels d' -> level_state d id = level_state d' id.
Proof. unfold level_state. now intros ->. Qed.

Lemma find_map_id (id lid : Z) (rows : list grid_level_row) :
  let f := fun l : grid_level_row =>
             if (gl_id l =? lid)%Z
             then {| gl_id := gl_id l; gl_bot_id := gl_bot_id l;
                     gl_level_price := gl_level_price l;
                     gl_order_type := gl_order_type l; gl_is_filled := 1 |}
             else l in
  find (fun l => (gl_id l =? id)%Z) (map f rows)
  = option_map f (find (fun l => (gl_id l =? id)%Z) rows).
Proof.
  intros f. induction rows as [|r rows IH]; [reflexivity|].
  cbn [map find].
  assert (Hid : gl_id (f r) = gl_id r) by (unfold f; now destruct (gl_id r =? lid)%Z).
  rewrite Hid. destruct (gl_id r =? id)%Z; [reflexivity | exact IH].
Qed.

Lemma level_state_mark_same (d : Db.t) (lid : Z) :
  level_state d lid <> None -> level_state (mark_filled d lid) lid = Some 1%Z.
Proof.
  unfold level_state, mark_filled. cbn [grid_levels set_grid_levels].
  rewrite find_map_id.
  destruct (find (fun l => (gl_id l =? lid)%Z) (grid_levels d)) as [r|] eqn:Hf; [|easy].
  intros _. apply find_some in Hf as [_ Hr]. cbn. now rewrite Hr.
Qed.

Lemma level_state_mark_other (d : Db.t) (lid id : Z) :
  id <> lid -> level_state (mark_filled d lid) id = level_state d id.
Proof.
  intros Hne. unfold level_state, mark_filled. cbn [grid_levels set_grid_levels].
  rewrite find_map_id.
  destruct (find (fun l => (gl_id l =? id)%Z) (grid_levels d)) as [r|] eqn:Hf; [|easy].
  apply find_some in Hf as [_ Hr]. apply Z.eqb_eq in Hr. cbn.
  destruct (Z.eqb_spec (gl_id r) lid); [congruence | reflexivity].
Qed.

Lemma level_state_mark_filled (d : Db.t) (lid id : Z) :
  level_state d id = Some 1%Z -> level_state (mark_filled d lid) id = Some 1%Z.
Proof.
  unfold level_state, mark_filled. cbn [grid_levels set_grid_levels].
  rewrite find_map_id.
  destruct (find (fun l => (gl_id l =? id)%Z) (grid_levels d)) as [r|]; [|easy].
  cbn. intros [= Hr]. destruct (gl_id r =? lid)%Z; cbn; [reflexivity | now rewrite Hr].
Qed.

(** Every row with a marked id is filled afterwards, and filled rows stay
    filled. *)
Lemma mark_filled_rows (d : Db.t) (lid : Z) (r : grid_level_row) :
  In r (grid_levels (mark_filled d lid)) ->
  (gl_id r = lid -> gl_is_filled r = 1%Z) /\
  exists r0, In r0 (grid_levels d) /\ gl_id r0 = gl_id r /\
             (gl_is_filled r0 = 1%Z -> gl_is_filled r = 1%Z).
Proof.
  unfold mark_filled. cbn [grid_levels set_grid_levels].
  intros Hin. apply in_map_iff in Hin as (r0 & <- & Hr0).
  destruct (Z.eqb_spec (gl_id r0) lid) as [Heq | Hne]; cbn.
  - split; [reflexivity|]. exists r0. now repeat split.
  - split; [intros; contradiction|]. exists r0. now repeat split.
Qed.

Section Step.
Variables (live : bool) (uid bid acc : Z) (sym : string) (cp amt : R).

Let step := level_step live uid bid acc sym cp amt.

Let order := level_order live uid bid acc sym amt.

Lemma step_filled (st : World.t * list executed) (l : grid_level_row) :
  gl_is_filled l = 1%Z -> step st l = st.
Proof. intros H. unfold step, level_step. destruct st. now rewrite H. Qed.

Lemma step_not_eligible (st : World.t * list executed) (l : grid_level_row) :
  should_execute (gl_order_type l) cp (gl_level_price l) = None -> step st l = st.
Proof.
  intros H. unfold step, level_step. destruct st. rewrite H.
  now destruct (gl_is_filled l =? 1)%Z.
Qed.

Lemma step_eligible (w : World.t) (ex : list executed) (l : grid_level_row)
    (side : string) :
  gl_is_filled l <> 1%Z ->
  should_execute (gl_order_type l) cp (gl_level_price l) = Some side ->
  step (w, ex) l
  = if success (snd (order w side))
    then (set_db (fst (order w side))
            (mark_filled (db (fst (order w side))) (gl_id l)),
          (ex ++ [entry l (snd (order w side))])%list)
    else (fst (order w side), ex).
Proof.
  intros Hf He. unfold step, level_step, order, level_order.
  destruct (Z.eqb_spec (gl_is_filled l) 1); [contradiction|].
  rewrite He.
  now destruct (execute_market_order_for_account live w uid acc sym side amt None
                  ("grid_bot_" ++ str_of_int bid)) as [w1 r].
Qed.

(** One iteration either changes no level and collects nothing, or it is a
    successful order for a pending, eligible level: that level is marked and
    collected. *)
Lemma step_cases (w : World.t) (ex : list executed) (l : grid_level_row) :
  (grid_levels (db (fst (step (w, ex) l))) = grid_levels (db w) /\
   snd (step (w, ex) l) = ex) \/
  (exists side r,
     gl_is_filled l <> 1%Z /\
     should_execute (gl_order_type l) cp (gl_level_price l) = Some side /\
     success r = true /\
     grid_levels (db (fst (step (w, ex) l)))
     = grid_levels (mark_filled (db w) (gl_id l)) /\
     snd (step (w, ex) l) = (ex ++ [entry l r])%list).
Proof.
  destruct (Z.eq_dec (gl_is_filled l) 1) as [Hf | Hf].
  { left. now rewrite step_filled. }
  destruct (should_execute (gl_order_type l) cp (gl_level_price l)) as [side|] eqn:He.
  2:{ left. now rewrite step_not_eligible. }
  rewrite (step_eligible w ex l side Hf He).
  pose proof (execute_order_frame live w uid acc sym side amt None
                ("grid_bot_" ++ str_of_int bid)) as (Hl & _).
  change (execute_market_order_for_account live w uid acc sym side amt None
            ("grid_bot_" ++ str_of_int bid)) with (order w side) in Hl.
  destruct (success (snd (order w side))) eqn:Hs.
  - right. exists side, (snd (order w side)).
    repeat split; try assumption.
    cbn [fst snd db set_db mark_filled grid_levels set_grid_levels]. now rewrite Hl.
  - left. now split.
Qed.

Let run (ls : list grid_level_row) (st : World.t * list executed) :=
  fold_left step ls st.

(** Levels with other ids do not touch the state of level [x], and do not
    add it to the collected list. *)
Lemma run_other (x : Z) (ls : list grid_level_row) (st : World.t * list executed) :
  ~ In x (map gl_id ls) ->
  level_state (db (fst (run ls st))) x = level_state (db (fst st)) x /\
  (In x (executed_ids (snd (run ls st))) -> In x (executed_ids (snd st))).
Proof.
  revert st. induction ls as [|l ls IH]; intros [w ex] Hx; [easy|].
  cbn [map In] in Hx. unfold run in *. cbn [fold_left].
  destruct (IH (step (w, ex) l)) as [IH1 IH2]; [tauto|].
  rewrite IH1. clear IH1.
  destruct (step_cases w ex l) as [[Hl He] | (side & r & _ & _ & _ & Hl & He)].
  - split; [now apply level_state_ext | now rewrite He in IH2].
  - split.
    + rewrite (level_state_ext _ _ x Hl). apply level_state_mark_other.
      intros ->. apply Hx. now left.
    + intros H. specialize (IH2 H). rewrite He in IH2.
      unfold executed_ids in IH2. rewrite map_app in IH2.
      apply in_app_or in IH2 as [H0 | [H0 | []]]; [exact H0|].
      cbn in H0. tauto.
Qed.

(** A filled level stays filled, and what was collected stays collected. *)
Lemma run_keeps (x : Z) (ls : list grid_level_row) (st : World.t * list executed) :
  (level_state (db (fst st)) x = Some 1%Z ->
   level_state (db (fst (run ls st))) x = Some 1%Z) /\
  incl (snd st) (snd (run ls st)).
Proof.
  revert st. induction ls as [|l ls IH]; intros [w ex]; [split; [easy | apply incl_refl]|].
  unfold run in *. cbn [fold_left].
  destruct (IH (step (w, ex) l)) as [IH1 IH2].
  destruct (step_cases w ex l) as [[Hl He] | (side & r & _ & _ & _ & Hl & He)].
  - split.
    + intros H. apply IH1. now rewrite (level_state_ext _ _ x Hl).
    + now rewrite He in IH2.
  - split.
    + intros H. apply IH1. rewrite (level_state_ext _ _ x Hl).
      now apply level_state_mark_filled.
    + rewrite He in IH2. intros e Hin. apply IH2. apply in_or_app. now left.
Qed.

(** Only successful orders are collected. *)
Lemma run_successes (ls : list grid_level_row) (st : World.t * list executed) :
  Forall (fun e => success (exec_result e) = true) (snd st) ->
  Forall (fun e => success (exec_result e) = true) (snd (run ls st)).
Proof.
  revert st. induction ls as [|l ls IH]; intros [w ex] H; [exact H|].
  unfold run in *. cbn [fold_left]. apply IH.
  destruct (step_cases w ex l) as [[_ He] | (side & r & _ & _ & Hs & _ & He)];
    rewrite He; [exact H|].
  apply Forall_app. split; [exact H|]. now repeat constructor.
Qed.

(** Every collected entry comes from a level of the list that was pending
    and eligible when the tick read it. *)
Lemma run_origin (ls : list grid_level_row) (st : World.t * list executed)
    (e : executed) :
  In e (snd (run ls st)) ->
  In e (snd st) \/
  exists l, In l ls /\ gl_id l = level_id e /\ gl_is_filled l <> 1%Z /\
            should_execute (gl_order_type l) cp (gl_level_price l) <> None.
Proof.
  revert st. induction ls as [|l ls IH]; intros [w ex] H; [now left|].
  unfold run in *. cbn [fold_left] in H.
  destruct (IH _ H) as [Hin | (l' & Hl' & Hrest)].
  2:{ right. exists l'. split; [now right | exact Hrest]. }
  destruct (step_cases w ex l) as [[_ He] | (side & r & Hf & Hs & _ & _ & He)];
    rewrite He in Hin; [now left|].
  apply in_app_or in Hin as [Hin | [<- | []]]; [now left|].
  right. exists l. repeat split; [now left | exact Hf | now rewrite Hs].
Qed.

Lemma run_collected_filled (ls : list grid_level_row) (st : World.t * list executed) :
  collected_filled st -> collected_filled (run ls st).
Proof.
  revert st. induction ls as [|l ls IH]; intros [w ex] H; [exact H|].
  unfold run in *. cbn [fold_left]. apply IH. clear IH.
  destruct (step_cases w ex l) as [[Hl He] | (side & r & _ & _ & _ & Hl & He)];
    unfold collected_filled in *; rewrite Hl, He; [exact H|].
  intros e r' He' Hr' Hid.
  destruct (mark_filled_rows _ _ _ Hr') as [Hsame (r0 & Hr0 & Hid0 & Hkeep)].
  apply in_app_or in He' as [He' | [<- | []]].
  - apply Hkeep. apply (H e r0 He' Hr0). cbn in *. congruence.
  - apply Hsame. exact Hid.
Qed.

End Step.

Lemma insert_by_price_in (l x : grid_level_row) (ls : list grid_level_row) :
  In x (GridBot.insert_by_price l ls) -> x = l \/ In x ls.
Proof.
  induction ls as [|h t IH]; cbn.
  - intros [<- | []]. now left.
  - destruct (Rltb (gl_level_price h) (gl_level_price l)); cbn.
    + intros [<- | H]; [right; now left|]. destruct (IH H); [now left | right; now right].
    + intros [<- | H]; [now left | now right].
Qed.

Lemma levels_for_bot_in (d : Db.t) (bid : Z) (x : grid_level_row) :
  In x (GridBot.get_levels_for_bot d bid) -> In x (grid_levels d).
Proof.
  unfold GridBot.get_levels_for_bot, GridBot.order_by_price.
  induction (grid_levels d) as [|h t IH]; cbn; [easy|].
  destruct (gl_bot_id h =? bid)%Z; cbn.
  - intros H. apply insert_by_price_in in H as [-> | H]; [now left | right; now apply IH].
  - intros H. right. now apply IH.
Qed.

Lemma should_execute_buy (cp lp : R) :
  should_execute "BUY" cp lp = if Rleb cp (lp * (101 / 100)) then Some "buy" else None.
Proof. unfold should_execute. cbn. now destruct (Rleb cp (lp * (101 / 100))). Qed.

Lemma should_execute_sell (cp lp : R) :
  should_execute "SELL" cp lp = if Rleb (lp * (99 / 100)) cp then Some "sell" else None.
Proof. unfold should_execute. cbn. now destruct (Rleb (lp * (99 / 100)) cp). Qed.

(** A failed order: without an account, in simulation mode it cannot
    happen, and without an exchange client the world is as before; once the
    client exists, the failure is one ERROR row with a message in the trade
    log. *)
Lemma failed_order_log (live : bool) (w : World.t) (uid acc : Z)
    (symbol side : string) (amount : R) (mode : option bool) (source : string) :
  let routed := execute_market_order_for_account live w uid acc symbol side amount mode
                  source in
  success (snd routed) = false ->
  match get_exchange_account_by_id (db w) acc uid with
  | None => fst routed = w
  | Some account =>
      from_option mode live = true /\
      if create_exchange_client w (ea_exchange_name account)
      then exists row,
             exchange_trade_logs (db (fst routed))
             = (exchange_trade_logs (db w) ++ [row])%list /\
             tl_status row = "ERROR" /\ tl_error_message row <> None /\
             tl_side row = upper side /\ tl_symbol row = symbol /\
             tl_amount row = amount /\ tl_trade_source row = source
      else fst routed = w
  end.
Proof.
  unfold execute_market_order_for_account.
  destruct (get_exchange_account_by_id (db w) acc uid) as [account|]; [|reflexivity].
  destruct (from_option mode live); cbn [negb]; [|discriminate].
  destruct (create_exchange_client w (ea_exchange_name account)); cbn [negb];
    [|intros _; now split].
  pose proof (place_market_order_db w symbol (lower side) amount) as Hdb.
  destruct (place_market_order w symbol (lower side) amount) as [w1 [o|]];
    [destruct (answer_error o) | ]; cbn in Hdb |- *; rewrite Hdb;
    try discriminate; intros _; (split; [reflexivity|]);
    eexists; (split; [reflexivity|]); cbn; repeat split; discriminate.
Qed.

End Orders.

Section OrderEquations.
Import Py Db World Exchange OrderExecution Obs Fixtures.
Local Open Scope R_scope.

(** The simulated branch of the router, as an equation. *)
Lemma execute_simulated (live : bool) (w : World.t) (uid acc : Z)
    (symbol side : string) (amount : R) (mode : option bool) (source : string)
    (account : exchange_account_row) :
  get_exchange_account_by_id (db w) acc uid = Some account ->
  from_option mode live = false ->
  let price := match PriceService.get_latest_price (db w) (replace symbol "/" "") with
               | Some p => ph_close_price p
               | None => 45000
               end in
  let logged := log_trade_execution (db w) uid acc symbol (upper side) amount price
                  "SIMULATED" (Some ("SIM_" ++ now w)) source 0 None in
  execute_market_order_for_account live w uid acc symbol side amount mode source
  = (set_db w (fst logged),
     Simulated (snd logged) price (amount * price) (ea_exchange_name account)).
Proof.
  intros Hacc Hmode price logged.
  unfold execute_market_order_for_account. rewrite Hacc, Hmode. reflexivity.
Qed.

(** The live branch of the router for a well-formed order, as an equation. *)
Lemma execute_live (live : bool) (w : World.t) (uid acc : Z)
    (symbol side : string) (amount : R) (mode : option bool) (source : string)
    (account : exchange_account_row) :
  get_exchange_account_by_id (db w) acc uid = Some account ->
  from_option mode live = true ->
  ex_connect w (ea_exchange_name account) = true ->
  symbol <> "" -> side = "buy" \/ side = "sell" -> 0 < amount ->
  let sent := create_market_order w symbol side amount in
  execute_market_order_for_account live w uid acc symbol side amount mode source
  = match snd sent with
    | None =>
        let logged := log_trade_execution (db w) uid acc symbol (upper side) amount 0
                        "ERROR" None source 0 (Some "Exchange rejected the order") in
        (set_db (fst sent) (fst logged),
         Failed "Order execution failed" (Some "LIVE") (Some (snd logged)))
    | Some o =>
        match answer_error o with
        | Some e =>
            let logged := log_trade_execution (db w) uid acc symbol (upper side) amount 0
                            "ERROR" None source 0 (Some e) in
            (set_db (fst sent) (fst logged), Failed e (Some "LIVE") None)
        | None =>
            let logged := log_trade_execution (db w) uid acc symbol (upper side)
                            (from_option (o_filled o) amount)
                            (from_option (get (o_average o)) 0)
                            (upper (from_option (get (o_status o)) "FILLED")) (o_id o)
                            source (fee_cost o) None in
            (set_db (fst sent) (fst logged),
             Live (o_id o) (snd logged) (get (o_average o)) (o_filled o)
                  (get (o_status o)) (ea_exchange_name account))
        end
    end.
Proof.
  intros Hacc Hmode Hconn Hsym Hside Hamt sent.
  unfold execute_market_order_for_account, create_exchange_client.
  rewrite Hacc, Hmode, Hconn. cbn [negb].
  assert (Hplace : place_market_order w symbol (lower side) amount = sent).
  { unfold place_market_order, sent.
    destruct (String.eqb_spec symbol "") as [|_]; [contradiction|].
    replace (Rtruthy amount) with true by (rbool; reflexivity).
    replace (Rleb amount 0) with false by (rbool; reflexivity).
    destruct Hside as [-> | ->]; reflexivity. }
  rewrite Hplace. unfold sent, create_market_order. cbn [fst snd db].
  destruct (ex_replies w) as [|[o|] rest]; reflexivity.
Qed.

(** The live branch for a well-formed order: the exchange receives exactly
    that order, and the trade log gets exactly one row for it, an ERROR row
    with a message when the router does not succeed. *)
Lemma live_order_effects (live : bool) (w : World.t) (uid acc : Z)
    (symbol side : string) (amount : R) (mode : option bool) (source : string)
    (account : exchange_account_row) :
  get_exchange_account_by_id (db w) acc uid = Some account ->
  from_option mode live = true ->
  ex_connect w (ea_exchange_name account) = true ->
  symbol <> "" -> side = "buy" \/ side = "sell" -> 0 < amount ->
  let routed := execute_market_order_for_account live w uid acc symbol side amount mode
                  source in
  ex_orders (fst routed)
  = (ex_orders w ++ [{| so_symbol := symbol; so_side := side; so_amount := amount |}])%list /\
  ex_replies (fst routed) = tl (ex_replies w) /\
  exists row,
    exchange_trade_logs (db (fst routed)) = (exchange_trade_logs (db w) ++ [row])%list /\
    tl_side row = upper side /\ tl_symbol row = symbol /\ tl_trade_source row = source /\
    tl_user_id row = uid /\ tl_exchange_account_id row = acc /\
    (success (snd routed) = false ->
     tl_status row = "ERROR" /\ tl_error_message row <> None).
Proof.
  intros Hacc Hmode Hconn Hsym Hside Hamt routed. unfold routed.
  rewrite (execute_live live w uid acc symbol side amount mode source account Hacc Hmode
             Hconn Hsym Hside Hamt).
  cbv zeta. unfold create_market_order. cbn [fst snd].
  destruct (ex_replies w) as [|[o|] rest]; [| destruct (answer_error o) |];
    cbn; (split; [reflexivity|]); (split; [reflexivity|]);
    eexists; (split; [reflexivity|]); cbn; repeat split; discriminate.
Qed.

Lemma fixture_order1 :
  level_order true 1 1 1 "BTC/USDT" (1000 / 5) world_tick "buy"
  = (world_tick_1, Failed "Order execution failed" (Some "LIVE") (Some 1%Z)).
Proof.
  unfold level_order.
  rewrite (execute_live true world_tick 1 1 "BTC/USDT" "buy" (1000 / 5) None _ account1);
    try reflexivity; try (now left); try discriminate; try lra.
  cbn. rbool. reflexivity.
Qed.

Lemma fixture_order2 :
  level_order true 1 1 1 "BTC/USDT" (1000 / 5) world_tick_1 "buy"
  = (world_tick_2, live_result).
Proof.
  unfold level_order.
  rewrite (execute_live true world_tick_1 1 1 "BTC/USDT" "buy" (1000 / 5) None _ account1);
    try reflexivity; try (now left); try discriminate; try lra.
  cbn. rbool. reflexivity.
Qed.

Lemma tick_levels_sorted : GridBot.get_levels_for_bot db_tick 1 = rows1.
Proof.
  unfold GridBot.get_levels_for_bot, GridBot.order_by_price.
  repeat (progress (cbn; rbool)). reflexivity.
Qed.

Lemma fixture_bot_details : GridBot.get_bot_details db_tick 1 1 = Some details1.
Proof.
  unfold GridBot.get_bot_details. rewrite tick_levels_sorted. reflexivity.
Qed.

Lemma fixture_eligible_1 :
  should_execute "BUY" (tick_price (db world_tick) bot1) 40000 = Some "buy".
Proof.
  rewrite should_execute_buy.
  change (tick_price (db world_tick) bot1) with 40000.
  rbool. reflexivity.
Qed.

Lemma fixture_eligible_2 :
  should_execute "BUY" (tick_price (db world_tick) bot1) 42500 = Some "buy".
Proof.
  rewrite should_execute_buy.
  change (tick_price (db world_tick) bot1) with 40000.
  rbool. reflexivity.
Qed.

Lemma fixture_not_eligible (p : R) :
  45000 <= p -> should_execute "SELL" (tick_price (db world_tick) bot1) p = None.
Proof.
  intros Hp. rewrite should_execute_sell.
  change (tick_price (db world_tick) bot1) with 40000.
  rbool. reflexivity.
Qed.

(** The loop of the tick up to and including level 1. *)
Lemma fixture_tick_prefix :
  run_levels true world_tick 1 1 1 bot1 [ level_row 1 40000 "BUY" ] None
  = (world_tick_1, []).
Proof.
  unfold run_levels. cbn [fold_left].
  rewrite (step_eligible _ _ _ _ _ _ _ world_tick [] _ "buy");
    [| cbn; lia | exact fixture_eligible_1].
  change (level_order true 1 1 1 (tick_symbol bot1) (tick_amount bot1 None) world_tick "buy")
    with (level_order true 1 1 1 "BTC/USDT" (1000 / 5) world_tick "buy").
  rewrite fixture_order1. reflexivity.
Qed.

(** The whole loop of the tick. *)
Lemma fixture_tick_run :
  run_levels true world_tick 1 1 1 bot1 rows1 None
  = (world_tick_end, [ entry (level_row 2 42500 "BUY") live_result ]).
Proof.
  unfold run_levels.
  change rows1 with ([ level_row 1 40000 "BUY" ] ++
                     [ level_row 2 42500 "BUY"; level_row 3 45000 "SELL";
                       level_row 4 47500 "SELL"; level_row 5 50000 "SELL" ])%list.
  rewrite fold_left_app.
  fold (run_levels true world_tick 1 1 1 bot1 [ level_row 1 40000 "BUY" ] None).
  rewrite fixture_tick_prefix. cbn [fold_left].
  rewrite (step_eligible _ _ _ _ _ _ _ world_tick_1 [] _ "buy");
    [| cbn; lia | exact fixture_eligible_2].
  change (level_order true 1 1 1 (tick_symbol bot1) (tick_amount bot1 None) world_tick_1
            "buy")
    with (level_order true 1 1 1 "BTC/USDT" (1000 / 5) world_tick_1 "buy").
  rewrite fixture_order2. cbn [success live_result fst snd].
  rewrite !step_not_eligible by (apply fixture_not_eligible; cbn; lra).
  reflexivity.
Qed.

(** The result of [execute_grid_bot_levels] never lists a level: the bot is
    not found, or building the result raises. *)
Lemma tick_outcome_reports_nothing (live : bool) (w : World.t) (uid bid acc : Z)
    (amount_per_order : option R) :
  reported (snd (execute_grid_bot_levels live w uid bid acc amount_per_order)) = [].
Proof.
  unfold execute_grid_bot_levels.
  destruct (GridBot.get_bot_details (db w) bid uid) as [dt|]; [|reflexivity].
  now destruct (run_levels live w uid bid acc (GridBot.bot dt) (GridBot.dlevels dt)
                  amount_per_order).
Qed.

(** C3, as stated, fails on a tick whose first eligible level is rejected by
    the exchange and whose second one is filled: the store ends as the
    claim says (level 1 pending, level 2 filled, an ERROR and a filled row
    in the trade log), but the failure of level 1 is reported neither by the
    outcome of the tick nor by a result built from what the loop
    collected. *)
Lemma tick_failure_not_reported :
  let out := execute_grid_bot_levels true world_tick 1 1 1 None in
  fst out = world_tick_end /\
  level_state (db (fst out)) 1 = Some 0%Z /\
  level_state (db (fst out)) 2 = Some 1%Z /\
  map tl_status (exchange_trade_logs (db (fst out))) = [ "ERROR"; "CLOSED" ] /\
  ~ In 1%Z (reported (snd out)) /\
  (forall mode, ~ In 1%Z (reported (tick_return mode 1 40000
                                      [ entry (level_row 2 42500 "BUY") live_result ]))).
Proof.
  assert (Hout : execute_grid_bot_levels true world_tick 1 1 1 None
                 = (world_tick_end,
                    tick_return None 1 40000
                      [ entry (level_row 2 42500 "BUY") live_result ])).
  { unfold execute_grid_bot_levels.
    change (db world_tick) with db_tick.
    rewrite fixture_bot_details. cbn [GridBot.bot GridBot.dlevels details1].
    rewrite fixture_tick_run. reflexivity. }
  cbv zeta. rewrite Hout. cbn [fst snd].
  repeat split; try reflexivity.
  - cbn. tauto.
  - intros [[|]|]; cbn; lia.
Qed.

(** [get_latest_price] returns a row of the symbol that no other row of the
    symbol is newer than. *)
Lemma newest_from (rows : list price_row) (best : option price_row) (r : price_row) :
  fold_left
    (fun best r =>
       match best with
       | None => Some r
       | Some b => if (ph_timestamp b <? ph_timestamp r)%Z then Some r else Some b
       end) rows best = Some r ->
  (best = Some r \/ In r rows) /\
  (forall r', best = Some r' \/ In r' rows -> (ph_timestamp r' <= ph_timestamp r)%Z).
Proof.
  revert best. induction rows as [|x rows IH]; intros best; cbn [fold_left].
  - intros ->. split; [now left|]. intros r' [[= ->] | []]. lia.
  - intros H. apply IH in H as [Hin Hmax]. split.
    + destruct Hin as [Hin | Hin]; [|right; now right].
      destruct best as [b|]; [|injection Hin as ->; right; now left].
      destruct (ph_timestamp b <? ph_timestamp x)%Z; injection Hin as ->;
        [right; now left | now left].
    + intros r' [Hr' | [-> | Hr']].
      * subst best. destruct (Z.ltb_spec (ph_timestamp r') (ph_timestamp x)).
        -- specialize (Hmax x (or_introl eq_refl)). lia.
        -- apply Hmax. now left.
      * destruct best as [b|]; [|apply Hmax; now left].
        destruct (Z.ltb_spec (ph_timestamp b) (ph_timestamp r')).
        -- apply Hmax. now left.
        -- specialize (Hmax b (or_introl eq_refl)). lia.
      * apply Hmax. now right.
Qed.

Lemma latest_price_is_newest (d : Db.t) (symbol : string) (r : price_row) :
  PriceService.get_latest_price d symbol = Some r ->
  In r (price_history d) /\ ph_symbol r = symbol /\
  forall r', In r' (price_history d) -> ph_symbol r' = symbol ->
             (ph_timestamp r' <= ph_timestamp r)%Z.
Proof.
  unfold PriceService.get_latest_price, PriceService.newest. intros H.
  apply newest_from in H as [[H | H] Hmax]; [discriminate|].
  apply filter_In in H as [Hin Hsym]. apply String.eqb_eq in Hsym.
  repeat split; try assumption.
  intros r' Hr' Hs. apply Hmax. right. apply filter_In. split; [exact Hr'|].
  now apply String.eqb_eq.
Qed.

(** C6, as amended: in simulated mode the router fails only when the
    exchange account is not found; otherwise it succeeds with the most
    recent known price of the symbol, or with the fallback price 45000 when
    no price is known, appends one trade-log row with status SIMULATED and
    the synthesized order id, whose total value is [amount * price] for a
    positive price, and sends nothing to the exchange. *)
Theorem simulated_execution (live : bool) (w : World.t) (uid acc : Z)
    (symbol side : string) (amount : R) (mode : option bool) (source : string) :
  from_option mode live = false ->
  let price := match PriceService.get_latest_price (db w) (replace symbol "/" "") with
               | Some p => ph_close_price p
               | None => 45000
               end in
  let out := execute_market_order_for_account live w uid acc symbol side amount mode
               source in
  match get_exchange_account_by_id (db w) acc uid with
  | None => out = (w, Failed "Exchange account not found or access denied" None None)
  | Some account =>
      snd out = Simulated (next_id (map tl_id (exchange_trade_logs (db w)))) price
                  (amount * price) (ea_exchange_name account) /\
      success (snd out) = true /\
      ex_orders (fst out) = ex_orders w /\
      ex_replies (fst out) = ex_replies w /\
      exists row,
        exchange_trade_logs (db (fst out)) = (exchange_trade_logs (db w) ++ [row])%list /\
        tl_status row = "SIMULATED" /\
        tl_exchange_order_id row = Some ("SIM_" ++ now w) /\
        tl_side row = upper side /\
        tl_amount row = amount /\
        tl_price row = price /\
        (0 < price -> tl_total_value row = amount * price)
  end.
Proof.
  intros Hmode price out.
  destruct (get_exchange_account_by_id (db w) acc uid) as [account|] eqn:Hacc.
  - unfold out. rewrite (execute_simulated live w uid acc symbol side amount mode source
                           account Hacc Hmode).
    fold price. cbn [fst snd success set_db db ex_orders ex_replies log_trade_execution
                     set_trade_logs exchange_trade_logs].
    repeat split. eexists. split; [reflexivity|].
    cbn [tl_status tl_exchange_order_id tl_side tl_amount tl_price tl_total_value].
    repeat split. intros Hpos. apply Rltb_true in Hpos. now rewrite Hpos.
  - unfold out, execute_market_order_for_account. now rewrite Hacc.
Qed.

Lemma simulated_execution_witness :
  let out := execute_market_order_for_account false (world_of db_sim []) 1 1
               "BTC/USDT" "buy" (1 / 100) None "grid_bot_1" in
  snd out = Simulated 1 42000 (1 / 100 * 42000) "binance" /\
  1 / 100 * 42000 = 420 /\
  exists row,
    exchange_trade_logs (db (fst out)) = [row] /\
    tl_status row = "SIMULATED" /\
    tl_exchange_order_id row = Some "SIM_20250101120000" /\
    tl_total_value row = 1 / 100 * 42000.
Proof.
  pose proof (simulated_execution false (world_of db_sim []) 1 1 "BTC/USDT" "buy"
                (1 / 100) None "grid_bot_1" eq_refl) as H.
  cbv zeta in H.
  change (get_exchange_account_by_id (db (world_of db_sim [])) 1 1)
    with (Some account1) in H.
  change (PriceService.get_latest_price (db (world_of db_sim []))
            (replace "BTC/USDT" "/" ""))
    with (Some {| ph_symbol := "BTCUSDT"; ph_timestamp := 1%Z; ph_close_price := 42000 |})
    in H.
  cbn [ph_close_price ea_exchange_name account1] in H.
  destruct H as (Hres & _ & _ & _ & row & Hlogs & Hstatus & Hid & _ & _ & _ & Htotal).
  split; [exact Hres|]. split; [lra|].
  exists row. repeat split; try assumption. apply Htotal. lra.
Defined.

(** C6, as stated, fails when no price is known for the symbol: the
    simulated order does not fail, it is filled at the fallback price. *)
Lemma simulated_without_price_succeeds :
  let w := world_of db_no_price [] in
  let out := execute_market_order_for_account false w 1 1 "BTC/USDT" "buy" (1 / 100)
               None "manual" in
  PriceService.get_latest_price (db w) "BTCUSDT" = None /\
  snd out = Simulated 1 45000 (1 / 100 * 45000) "binance" /\
  success (snd out) = true.
Proof.
  cbv zeta.
  rewrite (execute_simulated false (world_of db_no_price []) 1 1 "BTC/USDT" "buy"
             (1 / 100) None "manual" account1 eq_refl eq_refl).
  repeat split.
Qed.

End OrderEquations.

(** ** DCA: trend gating and the cycle *)

Section Dca.
Import Py Db World Exchange OrderExecution EmaContext DcaBot Obs Fixtures.
Local Open Scope R_scope.

(** C7, as amended: without trend data the gating permits (fail open);
    with trend data, BUY-side gating permits when a golden cross fires or
    the trend is a confirmed uptrend, whatever the other signals say;
    otherwise it suppresses when a death cross fires or the trend is a
    confirmed downtrend (Scenario C), and permits in the remaining, neutral
    case. *)
Theorem dca_buy_gating (c : ema_context) :
  (truthy (ctx_success c) = false ->
   forall side, fst (should_dca_bot_execute c side) = true) /\
  (truthy (ctx_success c) = true ->
   (truthy (golden_cross c) = true \/ trend_of c = "long_term_uptrend" ->
    fst (should_dca_bot_execute c "BUY") = true) /\
   (truthy (golden_cross c) = false -> trend_of c <> "long_term_uptrend" ->
    truthy (death_cross c) = true \/ trend_of c = "long_term_downtrend" ->
    fst (should_dca_bot_execute c "BUY") = false) /\
   (truthy (golden_cross c) = false -> trend_of c <> "long_term_uptrend" ->
    truthy (death_cross c) = false -> trend_of c <> "long_term_downtrend" ->
    fst (should_dca_bot_execute c "BUY") = true) /\
   (trend_of c = "long_term_downtrend" -> truthy (golden_cross c) = false ->
    fst (should_dca_bot_execute c "BUY") = false)).
Proof.
  unfold should_dca_bot_execute, trend_of. split.
  - intros ->. reflexivity.
  - intros ->. cbn [negb String.eqb Ascii.eqb Bool.eqb].
    destruct (truthy (golden_cross c)), (truthy (death_cross c));
      destruct (String.eqb_spec (from_option (trend_label c) "unknown") "long_term_uptrend")
        as [Hu | Hu];
      destruct (String.eqb_spec (from_option (trend_label c) "unknown")
                  "long_term_downtrend") as [Hd | Hd];
      cbn [fst]; repeat split; intros; try reflexivity; try congruence;
        try (rewrite Hu in Hd; discriminate);
        repeat match goal with
               | H : _ \/ _ |- _ => destruct H
               end; congruence.
Qed.

Lemma dca_buy_gating_witness :
  fst (should_dca_bot_execute downtrend_ctx "BUY") = false.
Proof.
  exact (proj2 (proj2 (proj2 (proj2 (dca_buy_gating downtrend_ctx) eq_refl)))
           eq_refl eq_refl).
Defined.

(** C7, as stated, fails when a death cross fires on a confirmed uptrend:
    the claim asks for a suppressed cycle whenever a death cross fires, the
    uptrend is checked first and the cycle is permitted; likewise a golden
    cross on a confirmed downtrend permits the cycle. *)
Lemma death_cross_on_uptrend_executes :
  (truthy (ctx_success uptrend_death_ctx) = true /\
   truthy (death_cross uptrend_death_ctx) = true /\
   should_dca_bot_execute uptrend_death_ctx "BUY" = (true, UptrendBuy)) /\
  (truthy (ctx_success downtrend_golden_ctx) = true /\
   trend_of downtrend_golden_ctx = "long_term_downtrend" /\
   should_dca_bot_execute downtrend_golden_ctx "BUY" = (true, GoldenCrossBuy)).
Proof. repeat split. Qed.

(** What a router call adds to the trade log and sends to the exchange
    carries the side it was called with. *)
Lemma execute_order_sides (live : bool) (w : World.t) (uid acc : Z)
    (symbol side : string) (amount : R) (mode : option bool) (source : string) :
  let out := execute_market_order_for_account live w uid acc symbol side amount mode
               source in
  (exists rows,
     exchange_trade_logs (db (fst out)) = (exchange_trade_logs (db w) ++ rows)%list /\
     Forall (fun r => tl_side r = upper side) rows) /\
  (exists sent,
     ex_orders (fst out) = (ex_orders w ++ sent)%list /\
     Forall (fun o => so_side o = lower (lower side)) sent).
Proof.
  assert (Hnil : forall w0 : World.t,
             (exists rows,
                exchange_trade_logs (db w0) = (exchange_trade_logs (db w0) ++ rows)%list /\
                Forall (fun r => tl_side r = upper side) rows) /\
             (exists sent,
                ex_orders w0 = (ex_orders w0 ++ sent)%list /\
                Forall (fun o => so_side o = lower (lower side)) sent)).
  { intros w0. split; exists []; now rewrite app_nil_r. }
  unfold execute_market_order_for_account.
  destruct (get_exchange_account_by_id (db w) acc uid) as [account|]; [|apply Hnil].
  destruct (negb (from_option mode live)).
  { cbn. split; [eexists; split; [reflexivity | now repeat constructor]|].
    exists []. now rewrite app_nil_r. }
  destruct (negb (create_exchange_client w (ea_exchange_name account))); [apply Hnil|].
  assert (Hplace :
    let p := place_market_order w symbol (lower side) amount in
    db (fst p) = db w /\
    exists sent, ex_orders (fst p) = (ex_orders w ++ sent)%list /\
                 Forall (fun o => so_side o = lower (lower side)) sent).
  { unfold place_market_order.
    repeat match goal with
           | |- context [if ?b then _ else _] => destruct b
           end; cbn; (split; [reflexivity|]);
      try (exists []; now rewrite app_nil_r).
    eexists. split; [reflexivity | now repeat constructor]. }
  destruct (place_market_order w symbol (lower side) amount) as [w1 [o|]];
    [destruct (answer_error o) | ];
    cbn in Hplace |- *; destruct Hplace as [-> Hsent];
    (split; [eexists; split; [reflexivity | now repeat constructor] | exact Hsent]).
Qed.

(** C10: the cycle of an active bot is one call of the order router with
    the side ['buy'], the symbol, [buy_amount] and the account of the bot,
    whatever the stored side of the bot is.  Whatever [run_dca_cycle] writes
    to the trade log has side BUY and whatever it sends to the exchange has
    side buy.  For an active bot with a usable account, the simulated cycle
    logs exactly one BUY order of [buy_amount], and the live cycle of a
    well-formed order sends exactly one buy order of [buy_amount] to the
    exchange and logs one BUY row. *)
Theorem dca_cycle_always_buys (live : bool) (w : World.t) (bid uid : Z) :
  let out := run_dca_cycle live w bid uid in
  (exists rows,
     exchange_trade_logs (db (fst out)) = (exchange_trade_logs (db w) ++ rows)%list /\
     Forall (fun r => tl_side r = "BUY") rows) /\
  (exists sent,
     ex_orders (fst out) = (ex_orders w ++ sent)%list /\
     Forall (fun o => so_side o = "buy") sent) /\
  (forall bot,
     get_dca_bot_details (db w) bid uid = Some bot ->
     dc_is_active bot <> 0%Z ->
     let routed := execute_market_order_for_account live w uid (dc_exchange_account_id bot)
                     (Obs2.exchange_symbol (dc_symbol bot)) "buy" (dc_buy_amount bot) None
                     ("dca_bot_" ++ str_of_int bid) in
     exists n, snd out = CycleOrder (snd routed) n /\
               ex_orders (fst out) = ex_orders (fst routed) /\
               exchange_trade_logs (db (fst out)) = exchange_trade_logs (db (fst routed))) /\
  (forall bot account,
     get_dca_bot_details (db w) bid uid = Some bot ->
     dc_is_active bot <> 0%Z ->
     get_exchange_account_by_id (db w) (dc_exchange_account_id bot) uid = Some account ->
     live = false ->
     exists row,
       exchange_trade_logs (db (fst out)) = (exchange_trade_logs (db w) ++ [row])%list /\
       tl_side row = "BUY" /\
       tl_amount row = dc_buy_amount bot /\
       tl_status row = "SIMULATED" /\
       tl_trade_source row = "dca_bot_" ++ str_of_int bid) /\
  (forall bot account,
     get_dca_bot_details (db w) bid uid = Some bot ->
     dc_is_active bot <> 0%Z ->
     get_exchange_account_by_id (db w) (dc_exchange_account_id bot) uid = Some account ->
     live = true ->
     ex_connect w (ea_exchange_name account) = true ->
     Obs2.exchange_symbol (dc_symbol bot) <> "" -> 0 < dc_buy_amount bot ->
     ex_orders (fst out)
     = (ex_orders w ++
        [{| so_symbol := Obs2.exchange_symbol (dc_symbol bot); so_side := "buy";
            so_amount := dc_buy_amount bot |}])%list /\
     exists row,
       exchange_trade_logs (db (fst out)) = (exchange_trade_logs (db w) ++ [row])%list /\
       tl_side row = "BUY" /\
       tl_symbol row = Obs2.exchange_symbol (dc_symbol bot) /\
       tl_trade_source row = "dca_bot_" ++ str_of_int bid).
Proof.
  intros out. unfold out, run_dca_cycle.
  destruct (get_dca_bot_details (db w) bid uid) as [bot|].
  2:{ cbn. split; [exists []; now rewrite app_nil_r|].
      split; [exists []; now rewrite app_nil_r|].
      split; [|split]; intros; discriminate. }
  destruct (Z.eqb_spec (dc_is_active bot) 0) as [Hz | Hnz].
  { cbn. split; [exists []; now rewrite app_nil_r|].
    split; [exists []; now rewrite app_nil_r|].
    split; [|split]; intros;
      match goal with H : Some _ = Some _ |- _ => injection H as <- end; contradiction. }
  fold (Obs2.exchange_symbol (dc_symbol bot)).
  set (sym := Obs2.exchange_symbol (dc_symbol bot)).
  set (routed := execute_market_order_for_account live w uid (dc_exchange_account_id bot) sym
                   "buy" (dc_buy_amount bot) None ("dca_bot_" ++ str_of_int bid)).
  pose proof (execute_order_sides live w uid (dc_exchange_account_id bot) sym "buy"
                (dc_buy_amount bot) None ("dca_bot_" ++ str_of_int bid)) as Hsides.
  cbv zeta in Hsides. change (upper "buy") with "BUY" in Hsides.
  change (lower (lower "buy")) with "buy" in Hsides. fold routed in Hsides.
  assert (Hout : exists n,
            (let '(w1, result) := routed in
             if success result
             then (set_db w1 (count_execution (db w1) bid),
                   CycleOrder result (Some (dc_execution_count bot + 1)%Z))
             else (w1, CycleOrder result None))
            = (if success (snd routed)
               then set_db (fst routed) (count_execution (db (fst routed)) bid)
               else fst routed,
               CycleOrder (snd routed) n)).
  { destruct routed as [w1 r]. cbn [fst snd]. destruct (success r); eexists; reflexivity. }
  destruct Hout as [n Hout]. rewrite Hout. cbn [fst snd].
  assert (Hord : ex_orders (if success (snd routed)
                            then set_db (fst routed) (count_execution (db (fst routed)) bid)
                            else fst routed) = ex_orders (fst routed))
    by now destruct (success (snd routed)).
  assert (Hlog : exchange_trade_logs
                   (db (if success (snd routed)
                        then set_db (fst routed) (count_execution (db (fst routed)) bid)
                        else fst routed)) = exchange_trade_logs (db (fst routed)))
    by now destruct (success (snd routed)).
  rewrite Hord, Hlog.
  split; [exact (proj1 Hsides)|]. split; [exact (proj2 Hsides)|].
  split; [|split].
  - intros b [= <-] _. exists n. now repeat split.
  - intros b account [= <-] _ Hacc ->. unfold routed.
    rewrite (execute_simulated false w uid (dc_exchange_account_id bot) sym "buy"
               (dc_buy_amount bot) None _ account Hacc eq_refl).
    cbn. eexists. split; [reflexivity|]. cbn. repeat split.
  - intros b account [= <-] _ Hacc -> Hconn Hsym Hamt.
    destruct (live_order_effects true w uid (dc_exchange_account_id bot) sym "buy"
                (dc_buy_amount bot) None ("dca_bot_" ++ str_of_int bid) account Hacc eq_refl
                Hconn Hsym (or_introl eq_refl) Hamt)
      as (Hsent & _ & row & Hrow & Hside & Hrsym & Hsrc & _).
    fold routed in Hsent, Hrow. split; [exact Hsent|].
    exists row. now repeat split.
Qed.

Lemma dca_cycle_always_buys_witness :
  dc_side dca_sell = "SELL" /\
  (exists row,
     exchange_trade_logs (db (fst (run_dca_cycle false (world_of db_dca []) 1 1))) = [row] /\
     tl_side row = "BUY" /\
     tl_amount row = 1 / 100 /\
     tl_status row = "SIMULATED" /\
     tl_trade_source row = "dca_bot_1") /\
  ex_orders (fst (run_dca_cycle true (world_of db_dca [ None ]) 1 1))
  = [{| so_symbol := "BTC/USDT"; so_side := "buy"; so_amount := 1 / 100 |}].
Proof.
  split; [reflexivity|]. split.
  - pose proof (dca_cycle_always_buys false (world_of db_dca []) 1 1) as H.
    cbv zeta in H. destruct H as (_ & _ & _ & Hsim & _).
    exact (Hsim dca_sell account1 eq_refl ltac:(cbn; lia) eq_refl eq_refl).
  - pose proof (dca_cycle_always_buys true (world_of db_dca [ None ]) 1 1) as H.
    cbv zeta in H. destruct H as (_ & _ & _ & _ & Hlive).
    destruct (Hlive dca_sell account1 eq_refl ltac:(cbn; lia) eq_refl eq_refl eq_refl
                ltac:(discriminate) ltac:(cbn; lra)) as (Hord & _).
    exact Hord.
Defined.

End Dca.

(** * Further properties *)

From Stdlib Require Import Permutation Sorted.

(** ** Grid bots: levels, details, create, stop, delete *)

Section GridMore.
Import Py Db GridBot Obs Obs2 Fixtures.
Local Open Scope R_scope.

Lemma insert_by_price_perm (l : grid_level_row) (ls : list grid_level_row) :
  Permutation (insert_by_price l ls) (l :: ls).
Proof.
  induction ls as [|h t IH]; cbn; [reflexivity|].
  destruct (Rltb (gl_level_price h) (gl_level_price l)); [|reflexivity].
  rewrite IH. apply perm_swap.
Qed.

Lemma order_by_price_perm (ls : list grid_level_row) :
  Permutation (order_by_price ls) ls.
Proof.
  induction ls as [|h t IH]; cbn; [reflexivity|].
  rewrite insert_by_price_perm. now constructor.
Qed.

Lemma insert_by_price_sorted (l : grid_level_row) (ls : list grid_level_row) :
  StronglySorted price_le ls -> StronglySorted price_le (insert_by_price l ls).
Proof.
  induction 1 as [|h t Hs IH Hall]; cbn.
  - repeat constructor.
  - destruct (Rltb (gl_level_price h) (gl_level_price l)) eqn:E.
    + apply Rltb_true in E. constructor; [exact IH|].
      rewrite Forall_forall. intros x Hx.
      apply insert_by_price_in in Hx as [-> | Hx].
      * unfold price_le. lra.
      * rewrite Forall_forall in Hall. now apply Hall.
    + apply Rltb_false in E. constructor; [now constructor|].
      constructor; [exact E|].
      rewrite Forall_forall in Hall |- *. intros x Hx.
      specialize (Hall x Hx). unfold price_le in *. lra.
Qed.

Lemma order_by_price_sorted (ls : list grid_level_row) :
  StronglySorted price_le (order_by_price ls).
Proof.
  induction ls as [|h t IH]; cbn; [constructor | now apply insert_by_price_sorted].
Qed.

(** [get_levels_for_bot] returns the level rows of the bot, each one once,
    in ascending price order; rows of other bots are left out. *)
Theorem levels_for_bot_sorted (d : Db.t) (bid : Z) :
  Permutation (get_levels_for_bot d bid)
              (filter (fun l => (gl_bot_id l =? bid)%Z) (grid_levels d)) /\
  StronglySorted (fun a b => gl_level_price a <= gl_level_price b)
                 (get_levels_for_bot d bid) /\
  (forall l, In l (get_levels_for_bot d bid) <->
             In l (grid_levels d) /\ gl_bot_id l = bid).
Proof.
  unfold get_levels_for_bot.
  pose proof (order_by_price_perm
                (filter (fun l => (gl_bot_id l =? bid)%Z) (grid_levels d))) as Hperm.
  split; [exact Hperm|]. split; [apply order_by_price_sorted|].
  intros l. split.
  - intros H. apply (Permutation_in _ Hperm) in H.
    apply filter_In in H as [Hin Hb]. split; [exact Hin | now apply Z.eqb_eq].
  - intros [Hin Hb]. apply (Permutation_in _ (Permutation_sym Hperm)).
    apply filter_In. split; [exact Hin | now apply Z.eqb_eq].
Qed.

Lemma find_none_forall {A : Type} (p : A -> bool) (l : list A) :
  (forall x, In x l -> p x = false) -> find p l = None.
Proof.
  intros H. destruct (find p l) as [x|] eqn:E; [|reflexivity].
  apply find_some in E as [Hin Hp]. rewrite (H x Hin) in Hp. discriminate.
Qed.

(** A bot that belongs to another user does not exist for this user: the
    details are not found, and stop, delete and tick fail without touching
    anything. *)
Theorem other_users_bot_untouched (live : bool) (w : World.t) (uid bid acc : Z)
    (amount_per_order : option R) :
  uid <> 0%Z ->
  (forall b, In b (grid_bots (World.db w)) -> gb_id b = bid -> gb_user_id b <> uid) ->
  get_bot_details (World.db w) bid uid = None /\
  stop_grid_bot (World.db w) bid uid = (World.db w, inl BotNotFound) /\
  delete_grid_bot (World.db w) bid uid = (World.db w, inl BotNotFound) /\
  OrderExecution.execute_grid_bot_levels live w uid bid acc amount_per_order
  = (w, OrderExecution.TickFailed "Grid bot not found or access denied").
Proof.
  intros Huid Hother.
  assert (Hnone : get_bot_details (World.db w) bid uid = None).
  { unfold get_bot_details.
    destruct (Z.eqb_spec uid 0) as [|_]; [contradiction|]. cbn [negb].
    rewrite find_none_forall; [reflexivity|].
    intros b Hb.
    destruct (Z.eqb_spec (gb_id b) bid) as [Hid|]; [|reflexivity].
    destruct (Z.eqb_spec (gb_user_id b) uid) as [Hu|]; [|reflexivity].
    now destruct (Hother b Hb Hid). }
  unfold stop_grid_bot, delete_grid_bot, OrderExecution.execute_grid_bot_levels.
  rewrite Hnone. repeat split.
Qed.

Lemma other_users_bot_untouched_witness :
  stop_grid_bot db_tick 1 2 = (db_tick, inl BotNotFound) /\
  delete_grid_bot db_tick 1 2 = (db_tick, inl BotNotFound).
Proof.
  pose proof (other_users_bot_untouched true world_tick 2 1 1 None ltac:(lia)) as H.
  destruct H as (_ & Hs & Hd & _).
  - intros b [<- | []] _. cbn. lia.
  - split; [exact Hs | exact Hd].
Defined.

(** The level rows written by STEP 4 of [create_grid_bot]. *)
Lemma insert_levels_rows (bid : Z) (ls : list level) (d : Db.t) :
  exists rows,
    grid_levels (fold_left (insert_grid_level bid) ls d) = (grid_levels d ++ rows)%list /\
    map gl_level_price rows = prices ls /\
    map gl_order_type rows = tags ls /\
    Forall (fun l => gl_bot_id l = bid /\ gl_is_filled l = 0%Z) rows /\
    Forall (fun l => forall l0, In l0 (grid_levels d) -> (gl_id l0 < gl_id l)%Z) rows /\
    NoDup (map gl_id rows).
Proof.
  revert d. induction ls as [|l ls IH]; intros d; cbn [fold_left].
  - exists []. rewrite app_nil_r. repeat split; constructor.
  - destruct (IH (insert_grid_level bid d l)) as (rows & Hrows & Hp & Ht & Hb & Hfresh & Hnd).
    cbn [insert_grid_level set_grid_levels grid_levels] in Hrows, Hfresh.
    set (row0 := {| gl_id := next_id (map gl_id (grid_levels d)); gl_bot_id := bid;
                    gl_level_price := level_price l; gl_order_type := order_type l;
                    gl_is_filled := 0 |}) in *.
    assert (Hrow0 : In row0 (grid_levels d ++ [row0])) by (apply in_or_app; right; now left).
    exists (row0 :: rows). rewrite Hrows, <- app_assoc. cbn [app].
    split; [reflexivity|]. cbn [map]. rewrite Hp, Ht.
    split; [reflexivity|]. split; [reflexivity|].
    rewrite Forall_forall in Hfresh.
    split; [constructor; [now split | exact Hb]|]. split.
    + constructor.
      * intros l0 Hl0. cbn. apply next_id_fresh. now apply in_map.
      * rewrite Forall_forall. intros x Hx l0 Hl0.
        apply (Hfresh x Hx). apply in_or_app. now left.
    + constructor; [|exact Hnd].
      intros Hin. apply in_map_iff in Hin as (x & Hid & Hx).
      pose proof (Hfresh x Hx row0 Hrow0) as Hlt. lia.
Qed.

Lemma balance_of_update_other (d : Db.t) (uid u : Z) (b : R) :
  u <> uid -> balance_of (update_balance d uid b) u = balance_of d u.
Proof.
  intros Hne. unfold balance_of, select_user, update_balance. cbn [users set_users].
  induction (users d) as [|x xs IH]; [reflexivity|]. cbn [map find].
  destruct (Z.eqb_spec (u_id x) uid) as [Hx | Hx]; cbn [u_id].
  - destruct (Z.eqb_spec (u_id x) u); [lia | exact IH].
  - destruct (Z.eqb_spec (u_id x) u); [reflexivity | exact IH].
Qed.

Lemma balance_of_credit_other (d : Db.t) (uid u : Z) (a : R) :
  u <> uid -> balance_of (credit_balance d uid a) u = balance_of d u.
Proof.
  intros Hne. unfold balance_of, select_user, credit_balance. cbn [users set_users].
  induction (users d) as [|x xs IH]; [reflexivity|]. cbn [map find].
  destruct (Z.eqb_spec (u_id x) uid) as [Hx | Hx]; cbn [u_id].
  - destruct (Z.eqb_spec (u_id x) u); [lia | exact IH].
  - destruct (Z.eqb_spec (u_id x) u); [reflexivity | exact IH].
Qed.

(** A successful [create_grid_bot] appends one active bot row with a fresh
    id and one pending level row per computed level, in order, with fresh
    and distinct ids; rows that were there stay, and the balance of every
    other user is as before. *)
Theorem create_persists_bot_and_levels (d d1 : Db.t) (c : config) (r : created) :
  create_grid_bot d c = (d1, inr r) ->
  (exists b,
     grid_bots d1 = (grid_bots d ++ [b])%list /\
     gb_id b = bot_id r /\ gb_user_id b = user_id c /\ gb_is_active b = 1%Z /\
     gb_investment_amount b = investment_amount c /\
     forall b0, In b0 (grid_bots d) -> gb_id b0 <> bot_id r) /\
  (exists rows,
     grid_levels d1 = (grid_levels d ++ rows)%list /\
     List.length rows = Z.to_nat (grid_count c) /\
     map gl_level_price rows = prices (levels r) /\
     map gl_order_type rows = tags (levels r) /\
     Forall (fun l => gl_bot_id l = bot_id r /\ gl_is_filled l = 0%Z) rows /\
     Forall (fun l => forall l0, In l0 (grid_levels d) -> gl_id l0 <> gl_id l) rows /\
     NoDup (map gl_id rows)) /\
  (forall u, u <> user_id c -> balance_of d1 u = balance_of d u).
Proof.
  intros Hc.
  apply create_success_inv in Hc as (user & _ & _ & _ & Hid & Hl & _ & ->).
  split; [|split].
  - eexists. cbn [update_balance set_users grid_bots].
    rewrite (proj2 (insert_levels_frame _ _ _)). cbn [insert_grid_bot fst set_grid_bots grid_bots].
    split; [reflexivity|]. cbn. rewrite Hid. repeat split.
    intros b0 Hb0 Heq.
    pose proof (next_id_fresh (map gb_id (grid_bots d)) (gb_id b0) (in_map _ _ _ Hb0)). lia.
  - destruct (insert_levels_rows (bot_id r) (levels r) (fst (insert_grid_bot d c)))
      as (rows & Hrows & Hp & Ht & Hb & Hfresh & Hnd).
    exists rows. cbn [update_balance set_users grid_levels].
    rewrite Hrows. cbn [insert_grid_bot fst set_grid_bots grid_levels].
    split; [reflexivity|]. split.
    + rewrite <- (length_map gl_level_price), Hp. unfold prices.
      rewrite length_map, Hl. apply levels_length.
    + repeat split; try assumption.
      rewrite Forall_forall in Hfresh |- *. intros x Hx l0 Hl0.
      specialize (Hfresh x Hx l0 Hl0). lia.
  - intros u Hu. rewrite balance_of_update_other by exact Hu.
    unfold balance_of, select_user. now rewrite (proj1 (insert_levels_frame _ _ _)).
Qed.

Lemma create_persists_bot_and_levels_witness :
  exists d1 rows,
    grid_levels d1 = rows /\ List.length rows = 5%nat /\
    Forall (fun l => gl_is_filled l = 0%Z) rows.
Proof.
  destruct create_scenario_a_succeeds as (d1 & r & Hc).
  destruct (create_persists_bot_and_levels db0 d1 scenario_a r Hc)
    as (_ & (rows & Hrows & Hlen & _ & _ & Hpend & _) & _).
  exists d1, rows. cbn in Hrows. split; [exact Hrows|]. split; [exact Hlen|].
  eapply Forall_impl; [|exact Hpend]. now intros l [_ H].
Defined.

Lemma details_after_delete (d : Db.t) (bid uid : Z) :
  get_bot_details (delete_bot_row d bid) bid uid = None.
Proof.
  unfold get_bot_details, delete_bot_row. cbn [grid_bots set_grid_bots set_grid_levels].
  assert (H : forall p : grid_bot_row -> bool,
             (forall b, p b = true -> gb_id b = bid) ->
             find p (filter (fun b => negb (gb_id b =? bid)%Z) (grid_bots d)) = None).
  { intros p Hp. apply find_none_forall. intros b Hb.
    apply filter_In in Hb as [_ Hb]. destruct (p b) eqn:E; [|reflexivity].
    apply Hp in E. rewrite E, Z.eqb_refl in Hb. discriminate. }
  destruct (negb (uid =? 0)%Z); rewrite H; try reflexivity.
  - intros b Hb. apply andb_prop in Hb as [Hb _]. now apply Z.eqb_eq.
  - intros b Hb. now apply Z.eqb_eq.
Qed.

Lemma levels_after_delete (d : Db.t) (bid bid' : Z) :
  get_levels_for_bot (delete_bot_row d bid) bid' = get_levels_for_bot d bid'.
Proof. reflexivity. Qed.

(** Scenario E on the code: a delete that succeeds credits the investment
    when the bot was active (and nothing when it was stopped) and removes
    the bot row, so that nobody finds the bot and a further stop or delete
    fails and changes nothing; the level rows of the bot are not removed:
    the table of levels is as before, [get_levels_for_bot] and
    [get_grid_statistics] still answer for the deleted bot as they did. *)
Theorem delete_removes_the_bot_row_only (d d1 : Db.t) (bid uid : Z) (b0 : R) :
  delete_grid_bot d bid uid = (d1, inr tt) ->
  balance_of d uid = Some b0 ->
  (exists dt,
     get_bot_details d bid uid = Some dt /\
     balance_of d1 uid
     = Some (if (gb_is_active (bot dt) =? 1)%Z
             then b0 + gb_investment_amount (bot dt) else b0)) /\
  (forall uid', get_bot_details d1 bid uid' = None) /\
  grid_levels d1 = grid_levels d /\
  (forall bid', get_levels_for_bot d1 bid' = get_levels_for_bot d bid') /\
  GridStats.get_grid_statistics d1 bid = GridStats.get_grid_statistics d bid /\
  stop_grid_bot d1 bid uid = (d1, inl BotNotFound) /\
  delete_grid_bot d1 bid uid = (d1, inl BotNotFound).
Proof.
  unfold delete_grid_bot at 1.
  destruct (get_bot_details d bid uid) as [dt|] eqn:Hdt; [|discriminate].
  intros [= <-] Hb.
  assert (Hlevels : grid_levels
                      (delete_bot_row
                         (if (gb_is_active (bot dt) =? 1)%Z
                          then credit_balance d uid (gb_investment_amount (bot dt))
                          else d) bid) = grid_levels d)
    by now destruct (gb_is_active (bot dt) =? 1)%Z.
  split; [|split; [|split; [|split; [|split]]]].
  - exists dt. split; [reflexivity|].
    destruct (gb_is_active (bot dt) =? 1)%Z.
    + change (balance_of (credit_balance d uid (gb_investment_amount (bot dt))) uid
              = Some (b0 + gb_investment_amount (bot dt))).
      now apply balance_of_credit.
    + exact Hb.
  - intros uid'. apply details_after_delete.
  - exact Hlevels.
  - intros bid'. unfold get_levels_for_bot. now rewrite Hlevels.
  - unfold GridStats.get_grid_statistics, get_levels_for_bot. now rewrite Hlevels.
  - unfold stop_grid_bot, delete_grid_bot. rewrite details_after_delete. now split.
Qed.

Lemma delete_removes_the_bot_row_only_witness :
  exists d1,
    delete_grid_bot db_tick 1 1 = (d1, inr tt) /\
    balance_of d1 1 = Some (4000 + 1000) /\
    get_bot_details d1 1 1 = None /\
    get_levels_for_bot d1 1 = rows1 /\
    delete_grid_bot d1 1 1 = (d1, inl BotNotFound).
Proof.
  assert (Hdel : delete_grid_bot db_tick 1 1
                 = (delete_bot_row (credit_balance db_tick 1 1000) 1, inr tt)).
  { unfold delete_grid_bot. rewrite fixture_bot_details. reflexivity. }
  destruct (delete_removes_the_bot_row_only db_tick _ 1 1 4000 Hdel eq_refl)
    as ((dt & Hdt & Hbal) & Hgone & _ & Hlev & _ & _ & Hagain).
  rewrite fixture_bot_details in Hdt. injection Hdt as <-.
  eexists. split; [exact Hdel|]. split; [exact Hbal|]. split; [apply Hgone|].
  split; [|exact Hagain].
  rewrite Hlev. exact tick_levels_sorted.
Defined.

(** What [stop_grid_bot] does to the store. *)
Lemma stop_inv (d d1 : Db.t) (bid uid : Z) (res : error + R) :
  stop_grid_bot d bid uid = (d1, res) ->
  match res with
  | inl _ => d1 = d
  | inr inv =>
      grid_levels d1 = grid_levels d /\
      price_history d1 = price_history d /\
      exchange_accounts d1 = exchange_accounts d /\
      exchange_trade_logs d1 = exchange_trade_logs d /\
      (forall u, u <> uid -> balance_of d1 u = balance_of d u) /\
      exists dt dt',
        get_bot_details d bid uid = Some dt /\
        get_bot_details d1 bid uid = Some dt' /\
        gb_is_active (bot dt') = 0%Z /\
        gb_investment_amount (bot dt') = inv /\
        gb_investment_amount (bot dt) = inv /\
        gb_symbol (bot dt') = gb_symbol (bot dt) /\
        gb_grid_count (bot dt') = gb_grid_count (bot dt) /\
        dlevels dt' = dlevels dt
  end.
Proof.
  unfold stop_grid_bot.
  destruct (get_bot_details d bid uid) as [dt|] eqn:Hdt; intros [= <- <-]; [|reflexivity].
  do 4 (split; [reflexivity|]). split.
  - intros u Hu. rewrite balance_of_credit_other by exact Hu. reflexivity.
  - exists dt. revert Hdt. unfold get_bot_details.
    set (p := fun b0 : grid_bot_row => (gb_id b0 =? bid)%Z && (gb_user_id b0 =? uid)%Z).
    set (q := fun b0 : grid_bot_row => (gb_id b0 =? bid)%Z).
    destruct (if negb (uid =? 0)%Z then find p (grid_bots d) else find q (grid_bots d))
      as [b0|] eqn:Hfound; [|discriminate].
    intros [= <-]. cbn [bot dlevels].
    cbn [grid_bots credit_balance deactivate set_users set_grid_bots].
    set (f := fun b1 : grid_bot_row => if (gb_id b1 =? bid)%Z then _ else b1).
    assert (Hp : forall x, p (f x) = p x).
    { intros x. unfold p, f. now destruct (gb_id x =? bid)%Z eqn:E; cbn; rewrite ?E. }
    assert (Hq : forall x, q (f x) = q x).
    { intros x. unfold q, f. now destruct (gb_id x =? bid)%Z eqn:E; cbn; rewrite ?E. }
    rewrite (find_map_stable p f _ Hp), (find_map_stable q f _ Hq).
    assert (Hid : gb_id b0 = bid).
    { destruct (negb (uid =? 0)%Z); apply find_some in Hfound as [_ Hb0]; unfold p, q in Hb0.
      - apply andb_prop in Hb0 as [Hb0 _]. now apply Z.eqb_eq.
      - now apply Z.eqb_eq. }
    assert (Hf : (if negb (uid =? 0)%Z
                  then option_map f (find p (grid_bots d))
                  else option_map f (find q (grid_bots d))) = Some (f b0)).
    { destruct (negb (uid =? 0)%Z); now rewrite Hfound. }
    rewrite Hf. eexists. split; [reflexivity|]. split; [reflexivity|].
    cbn [bot dlevels]. unfold f. rewrite Hid, Z.eqb_refl. cbn. repeat split.
Qed.

(** A stop that fails leaves the store as it is; a stop that succeeds
    leaves the bot in place and inactive, touches no level row (nothing is
    cancelled or filled) and no balance of another user. *)
Theorem stop_deactivates_only (d d1 : Db.t) (bid uid : Z) (res : error + R) :
  stop_grid_bot d bid uid = (d1, res) ->
  match res with
  | inl _ => d1 = d
  | inr inv =>
      grid_levels d1 = grid_levels d /\
      (forall u, u <> uid -> balance_of d1 u = balance_of d u) /\
      exists dt dt',
        get_bot_details d bid uid = Some dt /\
        get_bot_details d1 bid uid = Some dt' /\
        gb_is_active (bot dt') = 0%Z /\
        gb_investment_amount (bot dt') = inv /\
        gb_investment_amount (bot dt) = inv /\
        dlevels dt' = dlevels dt
  end.
Proof.
  intros H. apply stop_inv in H. destruct res as [e | inv]; [exact H|].
  destruct H as (Hl & _ & _ & _ & Hu & dt & dt' & H1 & H2 & H3 & H4 & H5 & _ & _ & H6).
  split; [exact Hl|]. split; [exact Hu|]. exists dt, dt'. repeat split; assumption.
Qed.

Lemma stop_deactivates_only_witness :
  exists d1 dt',
    stop_grid_bot db_tick 1 1 = (d1, inr 1000) /\
    grid_levels d1 = rows1 /\
    get_bot_details d1 1 1 = Some dt' /\ gb_is_active (bot dt') = 0%Z.
Proof.
  assert (Hstop : stop_grid_bot db_tick 1 1
                  = (credit_balance (deactivate db_tick 1) 1 1000, inr 1000)).
  { unfold stop_grid_bot. rewrite fixture_bot_details. reflexivity. }
  destruct (stop_deactivates_only db_tick _ 1 1 _ Hstop)
    as (Hl & _ & dt & dt' & _ & Hdt' & Hact & _).
  exists (credit_balance (deactivate db_tick 1) 1 1000), dt'.
  repeat split; assumption.
Defined.

Lemma filter_length_le {A : Type} (p : A -> bool) (l : list A) :
  (List.length (filter p l) <= List.length l)%nat.
Proof.
  induction l as [|x l IH]; cbn; [lia|]. destruct (p x); cbn; lia.
Qed.

Lemma filter_disjoint_length {A : Type} (p q : A -> bool) (l : list A) :
  (forall x, p x = true -> q x = false) ->
  (List.length (filter p l) + List.length (filter q l) <= List.length l)%nat.
Proof.
  intros H. induction l as [|x l IH]; cbn; [lia|].
  destruct (p x) eqn:Ep.
  - rewrite (H x Ep). cbn. lia.
  - destruct (q x); cbn; lia.
Qed.

(** [get_grid_statistics] answers [None] exactly when the store has no
    level row of the bot; otherwise filled and pending add up to the total,
    the filled BUY and SELL levels are among the filled ones, and the
    completion is a percentage between 0 and 100 that is 100 exactly when
    nothing is pending. *)
Theorem grid_statistics_consistent (d : Db.t) (bid : Z) :
  match GridStats.get_grid_statistics d bid with
  | None => forall l, In l (grid_levels d) -> gl_bot_id l <> bid
  | Some s =>
      GridStats.gs_total_levels s
      = List.length (filter (fun l => (gl_bot_id l =? bid)%Z) (grid_levels d)) /\
      (0 < GridStats.gs_total_levels s)%nat /\
      (GridStats.gs_filled_count s + GridStats.gs_pending_count s
       = GridStats.gs_total_levels s)%nat /\
      (GridStats.gs_buy_filled s + GridStats.gs_sell_filled s
       <= GridStats.gs_filled_count s)%nat /\
      0 <= GridStats.gs_completion_pct s <= 100 /\
      (GridStats.gs_completion_pct s = 100 <-> GridStats.gs_pending_count s = 0%nat)
  end.
Proof.
  unfold GridStats.get_grid_statistics.
  pose proof (order_by_price_perm
                (filter (fun l => (gl_bot_id l =? bid)%Z) (grid_levels d))) as Hperm.
  fold (get_levels_for_bot d bid) in Hperm.
  destruct (get_levels_for_bot d bid) as [|l0 ls] eqn:Hlevels.
  - apply Permutation_nil in Hperm. intros l Hl Hb.
    assert (Hin : In l (filter (fun l => (gl_bot_id l =? bid)%Z) (grid_levels d))).
    { apply filter_In. split; [exact Hl | now apply Z.eqb_eq]. }
    now rewrite Hperm in Hin.
  - set (levels := l0 :: ls) in *.
    set (filled := filter (fun l => (gl_is_filled l =? 1)%Z) levels).
    cbn [GridStats.gs_total_levels GridStats.gs_filled_count GridStats.gs_pending_count
         GridStats.gs_buy_filled GridStats.gs_sell_filled GridStats.gs_completion_pct].
    pose proof (filter_length_le (fun l => (gl_is_filled l =? 1)%Z) levels) as Hle.
    fold filled in Hle.
    assert (Hpos : (0 < List.length levels)%nat) by (cbn; lia).
    split; [now apply Permutation_length|].
    split; [exact Hpos|]. split; [lia|]. split.
    { apply filter_disjoint_length. intros x Hx.
      apply String.eqb_eq in Hx. now rewrite Hx. }
    destruct (Nat.ltb_spec 0 (List.length levels)) as [_|]; [|lia].
    assert (Ht : 0 < INR (List.length levels)) by (apply lt_0_INR; exact Hpos).
    assert (Hf : 0 <= INR (List.length filled) <= INR (List.length levels)).
    { split; [apply pos_INR | now apply le_INR]. }
    assert (Hq : 0 <= INR (List.length filled) / INR (List.length levels) <= 1).
    { split.
      - apply Rmult_le_pos; [lra|]. left. now apply Rinv_0_lt_compat.
      - apply Rmult_le_reg_r with (INR (List.length levels)); [exact Ht|].
        unfold Rdiv. rewrite Rmult_assoc, Rinv_l by lra. lra. }
    split; [lra|]. split.
    + intros H.
      assert (Heq : INR (List.length filled) = INR (List.length levels)).
      { assert (H1 : INR (List.length filled) / INR (List.length levels) = 1) by lra.
        apply (f_equal (fun x => x * INR (List.length levels))) in H1.
        unfold Rdiv in H1. rewrite Rmult_assoc, Rinv_l in H1 by lra. lra. }
      apply INR_eq in Heq. lia.
    + intros H. assert (Heq : List.length filled = List.length levels) by lia.
      rewrite Heq. field. lra.
Qed.

(** The grid delete route never deletes.  It subscripts the result of
    [get_bot_details] with ['is_active'], a key that this dictionary does
    not have, so it answers 500 for every bot that is found and 404
    otherwise, and the store is as before: the bot is still found, and
    neither its levels nor any balance has changed. *)
Theorem grid_delete_route_never_deletes (d : Db.t) (bid uid : Z) :
  let out := GridRoutes.api_delete_grid_bot d bid uid in
  fst out = d /\
  snd out <> GridRoutes.Deleted /\
  (get_bot_details d bid uid = None -> snd out = GridRoutes.NotFound) /\
  (get_bot_details d bid uid <> None -> snd out = GridRoutes.ServerError "'is_active'").
Proof.
  intros out. unfold out, GridRoutes.api_delete_grid_bot.
  destruct (get_bot_details d bid uid) as [dt|]; cbn.
  - repeat split; try discriminate.
  - repeat split; try discriminate. intros H. now destruct H.
Qed.

Lemma grid_delete_route_never_deletes_witness :
  GridRoutes.api_delete_grid_bot db_tick 1 1 = (db_tick, GridRoutes.ServerError "'is_active'").
Proof.
  destruct (grid_delete_route_never_deletes db_tick 1 1) as (H1 & _ & _ & H2).
  rewrite (surjective_pairing (GridRoutes.api_delete_grid_bot db_tick 1 1)), H1, H2.
  - reflexivity.
  - rewrite fixture_bot_details. discriminate.
Defined.

End GridMore.

(** ** The order router and the grid tick, continued *)

Section TickMore.
Import Py Db World Exchange OrderExecution Obs Obs2 Fixtures Fixtures2.
Local Open Scope R_scope.

Lemma same_or_filled_refl (ls : list grid_level_row) : Forall2 same_or_filled ls ls.
Proof. induction ls; constructor; [|assumption]. unfold same_or_filled. tauto. Qed.

Lemma same_or_filled_trans (l1 l2 l3 : list grid_level_row) :
  Forall2 same_or_filled l1 l2 -> Forall2 same_or_filled l2 l3 ->
  Forall2 same_or_filled l1 l3.
Proof.
  intros H12. revert l3. induction H12 as [|x y l l' Hxy _ IH]; intros l3 H23.
  - inversion H23. constructor.
  - inversion H23 as [|y' z l2' l3' Hyz Hrest]; subst. constructor; [|now apply IH].
    unfold same_or_filled in *.
    destruct Hxy as (? & ? & ? & ? & Hf1), Hyz as (? & ? & ? & ? & Hf2).
    repeat split; try congruence.
    destruct Hf2 as [Hf2 | Hf2]; [|now right].
    destruct Hf1 as [Hf1 | Hf1]; [left | right]; congruence.
Qed.

Lemma mark_filled_same_or_filled (d : Db.t) (lid : Z) :
  Forall2 same_or_filled (grid_levels d) (grid_levels (mark_filled d lid)).
Proof.
  unfold mark_filled. cbn [grid_levels set_grid_levels].
  induction (grid_levels d) as [|l ls IH]; cbn [map]; constructor; [|exact IH].
  unfold same_or_filled. destruct (gl_id l =? lid)%Z; cbn; tauto.
Qed.

Lemma tick_changes_refl (w : World.t) : tick_changes w w.
Proof.
  constructor; try reflexivity; try (exists []; now rewrite app_nil_r).
  apply same_or_filled_refl.
Qed.

Lemma tick_changes_trans (w1 w2 w3 : World.t) :
  tick_changes w1 w2 -> tick_changes w2 w3 -> tick_changes w1 w3.
Proof.
  intros [U1 B1 D1 P1 A1 L1 [r1 R1] [s1 S1]] [U2 B2 D2 P2 A2 L2 [r2 R2] [s2 S2]].
  constructor; try congruence.
  - eapply same_or_filled_trans; eassumption.
  - exists (r1 ++ r2)%list. now rewrite R2, R1, app_assoc.
  - exists (s1 ++ s2)%list. now rewrite S2, S1, app_assoc.
Qed.

(** What a call of the router changes. *)
Lemma execute_order_changes (live : bool) (w : World.t) (uid acc : Z)
    (symbol side : string) (amount : R) (mode : option bool) (source : string) :
  tick_changes w (fst (execute_market_order_for_account live w uid acc symbol side amount
                         mode source)).
Proof.
  pose proof (execute_order_sides live w uid acc symbol side amount mode source)
    as [(rows & Hrows & _) (sent & Hsent & _)].
  pose proof (execute_order_frame live w uid acc symbol side amount mode source)
    as (Hl & Hb & Hu & Hd).
  assert (Hrest :
    price_history (db (fst (execute_market_order_for_account live w uid acc symbol side
                              amount mode source))) = price_history (db w) /\
    exchange_accounts (db (fst (execute_market_order_for_account live w uid acc symbol
                                  side amount mode source))) = exchange_accounts (db w)).
  { unfold execute_market_order_for_account.
    destruct (get_exchange_account_by_id (db w) acc uid) as [account|]; [|easy].
    destruct (negb (from_option mode live)); [easy|].
    destruct (negb (create_exchange_client w (ea_exchange_name account))); [easy|].
    pose proof (place_market_order_db w symbol (lower side) amount) as Hdb.
    destruct (place_market_order w symbol (lower side) amount) as [w1 [o|]];
    [destruct (answer_error o) | ];
      cbn in Hdb |- *; now rewrite Hdb. }
  destruct Hrest as [Hp Ha].
  constructor; try assumption.
  - rewrite Hl. apply same_or_filled_refl.
  - now exists rows.
  - now exists sent.
Qed.

Lemma mark_changes (w : World.t) (lid : Z) :
  tick_changes w (set_db w (mark_filled (db w) lid)).
Proof.
  constructor; try reflexivity; try (exists []; now rewrite app_nil_r).
  apply mark_filled_same_or_filled.
Qed.

Lemma level_step_changes (live : bool) (uid bid acc : Z) (sym : string) (cp amt : R)
    (w : World.t) (ex : list executed) (l : grid_level_row) :
  tick_changes w (fst (level_step live uid bid acc sym cp amt (w, ex) l)).
Proof.
  unfold level_step.
  destruct (gl_is_filled l =? 1)%Z; [apply tick_changes_refl|].
  destruct (should_execute (gl_order_type l) cp (gl_level_price l)) as [side|];
    [|apply tick_changes_refl].
  pose proof (execute_order_changes live w uid acc sym side amt None
                ("grid_bot_" ++ str_of_int bid)) as Hc.
  destruct (execute_market_order_for_account live w uid acc sym side amt None
              ("grid_bot_" ++ str_of_int bid)) as [w1 r].
  cbn [fst] in Hc. destruct (success r); cbn [fst]; [|exact Hc].
  eapply tick_changes_trans; [exact Hc | apply mark_changes].
Qed.

Lemma fold_step_changes (live : bool) (uid bid acc : Z) (sym : string) (cp amt : R)
    (ls : list grid_level_row) (st : World.t * list executed) :
  tick_changes (fst st)
    (fst (fold_left (level_step live uid bid acc sym cp amt) ls st)).
Proof.
  revert st. induction ls as [|l ls IH]; intros [w ex]; cbn [fold_left].
  - apply tick_changes_refl.
  - pose proof (level_step_changes live uid bid acc sym cp amt w ex l) as Hstep.
    destruct (level_step live uid bid acc sym cp amt (w, ex) l) as [w1 ex1] eqn:E.
    cbn [fst] in Hstep |- *.
    eapply tick_changes_trans; [exact Hstep | exact (IH (w1, ex1))].
Qed.

(** A tick fills levels and appends to the trade log, nothing else: users
    and their balances, bots, prices and accounts are as before, every level
    row keeps its id, bot, price and tag, no filled level becomes pending
    again, and no row of the trade log is changed or dropped. *)
Theorem tick_only_fills_levels (live : bool) (w : World.t) (uid bid acc : Z)
    (amount_per_order : option R) :
  tick_changes w (fst (execute_grid_bot_levels live w uid bid acc amount_per_order)).
Proof.
  unfold execute_grid_bot_levels.
  destruct (GridBot.get_bot_details (db w) bid uid) as [dt|]; [|apply tick_changes_refl].
  pose proof (fold_step_changes live uid bid acc (tick_symbol (GridBot.bot dt))
                (tick_price (db w) (GridBot.bot dt))
                (tick_amount (GridBot.bot dt) amount_per_order)
                (GridBot.dlevels dt) (w, [])) as H.
  fold (run_levels live w uid bid acc (GridBot.bot dt) (GridBot.dlevels dt)
          amount_per_order) in H.
  now destruct (run_levels live w uid bid acc (GridBot.bot dt) (GridBot.dlevels dt)
                  amount_per_order).
Qed.

(** *** Simulated mode: every due level is filled, once *)

Lemma account_stable (w w' : World.t) (acc uid : Z) :
  tick_changes w w' ->
  get_exchange_account_by_id (db w') acc uid = get_exchange_account_by_id (db w) acc uid.
Proof. intros H. unfold get_exchange_account_by_id. now rewrite (tc_accounts _ _ H). Qed.

Lemma tick_price_stable (w w' : World.t) (b : grid_bot_row) :
  tick_changes w w' -> tick_price (db w') b = tick_price (db w) b.
Proof.
  intros H. unfold tick_price, PriceService.get_latest_price.
  now rewrite (tc_prices _ _ H).
Qed.

Lemma levels_for_bot_iff (d : Db.t) (bid : Z) (l : grid_level_row) :
  In l (GridBot.get_levels_for_bot d bid) <-> In l (grid_levels d) /\ gl_bot_id l = bid.
Proof.
  unfold GridBot.get_levels_for_bot.
  pose proof (order_by_price_perm
                (filter (fun l => (gl_bot_id l =? bid)%Z) (grid_levels d))) as Hperm.
  split.
  - intros H. apply (Permutation_in _ Hperm) in H.
    apply filter_In in H as [Hin Hb]. split; [exact Hin | now apply Z.eqb_eq].
  - intros [Hin Hb]. apply (Permutation_in _ (Permutation_sym Hperm)).
    apply filter_In. split; [exact Hin | now apply Z.eqb_eq].
Qed.

Lemma details_inv (d : Db.t) (bid uid : Z) (dt : GridBot.details) :
  GridBot.get_bot_details d bid uid = Some dt ->
  GridBot.dlevels dt = GridBot.get_levels_for_bot d bid /\
  In (GridBot.bot dt) (grid_bots d) /\ gb_id (GridBot.bot dt) = bid.
Proof.
  unfold GridBot.get_bot_details.
  destruct (negb (uid =? 0)%Z);
    match goal with
    | |- context [find ?p ?l] => destruct (find p l) as [b|] eqn:E
    end; try discriminate; intros [= <-]; cbn;
    apply find_some in E as [Hin Hp]; repeat split; try assumption.
  - apply andb_prop in Hp as [Hp _]. now apply Z.eqb_eq.
  - now apply Z.eqb_eq.
Qed.

Lemma details_stable (d d' : Db.t) (bid uid : Z) (dt : GridBot.details) :
  grid_bots d' = grid_bots d ->
  GridBot.get_bot_details d bid uid = Some dt ->
  exists dt', GridBot.get_bot_details d' bid uid = Some dt' /\
              GridBot.bot dt' = GridBot.bot dt /\
              GridBot.dlevels dt' = GridBot.get_levels_for_bot d' bid.
Proof.
  unfold GridBot.get_bot_details. intros ->.
  destruct (if negb (uid =? 0)%Z
            then find (fun b => (gb_id b =? bid)%Z && (gb_user_id b =? uid)%Z) (grid_bots d)
            else find (fun b => (gb_id b =? bid)%Z) (grid_bots d)) as [b|]; [|discriminate].
  intros [= <-]. eexists. split; [reflexivity|]. now split.
Qed.

Lemma step_not_due (live : bool) (uid bid acc : Z) (sym : string) (cp amt : R)
    (st : World.t * list executed) (l : grid_level_row) :
  due cp l = false -> level_step live uid bid acc sym cp amt st l = st.
Proof.
  unfold due. intros H.
  destruct (Z.eqb_spec (gl_is_filled l) 1) as [Hf | Hf].
  - now apply step_filled.
  - cbn [negb andb] in H. apply step_not_eligible.
    now destruct (should_execute (gl_order_type l) cp (gl_level_price l)).
Qed.

Lemma run_not_due (live : bool) (uid bid acc : Z) (sym : string) (cp amt : R)
    (ls : list grid_level_row) (st : World.t * list executed) :
  Forall (fun l => due cp l = false) ls ->
  fold_left (level_step live uid bid acc sym cp amt) ls st = st.
Proof.
  induction 1 as [|l ls Hl _ IH]; cbn [fold_left]; [reflexivity|].
  now rewrite step_not_due.
Qed.

(** In simulated mode, with the account at hand, the step of a due level
    succeeds: one SIMULATED row is logged, the level is marked and
    collected. *)
Lemma sim_step_due (uid bid acc : Z) (sym : string) (cp amt : R)
    (w : World.t) (ex : list executed) (l : grid_level_row)
    (account : exchange_account_row) :
  get_exchange_account_by_id (db w) acc uid = Some account ->
  due cp l = true ->
  exists r row,
    snd (level_step false uid bid acc sym cp amt (w, ex) l) = (ex ++ [entry l r])%list /\
    exchange_trade_logs (db (fst (level_step false uid bid acc sym cp amt (w, ex) l)))
    = (exchange_trade_logs (db w) ++ [row])%list /\
    tl_status row = "SIMULATED".
Proof.
  intros Hacc Hdue. unfold due in Hdue. apply andb_prop in Hdue as [Hf He].
  destruct (Z.eqb_spec (gl_is_filled l) 1) as [|Hf']; [discriminate|].
  destruct (should_execute (gl_order_type l) cp (gl_level_price l)) as [side|] eqn:Hs;
    [|discriminate].
  rewrite (step_eligible false uid bid acc sym cp amt w ex l side Hf' Hs).
  unfold level_order.
  rewrite (execute_simulated false w uid acc sym side amt None _ account Hacc eq_refl).
  cbn. eexists. eexists. repeat split.
Qed.

Lemma sim_run (uid bid acc : Z) (sym : string) (cp amt : R)
    (ls : list grid_level_row) (w : World.t) (ex : list executed)
    (account : exchange_account_row) :
  get_exchange_account_by_id (db w) acc uid = Some account ->
  let final := fold_left (level_step false uid bid acc sym cp amt) ls (w, ex) in
  executed_ids (snd final) = (executed_ids ex ++ map gl_id (filter (due cp) ls))%list /\
  exists rows,
    exchange_trade_logs (db (fst final)) = (exchange_trade_logs (db w) ++ rows)%list /\
    List.length rows = List.length (filter (due cp) ls) /\
    Forall (fun r => tl_status r = "SIMULATED") rows.
Proof.
  revert w ex. induction ls as [|l ls IH]; intros w ex Hacc; cbn [fold_left filter].
  - cbn. rewrite app_nil_r. split; [reflexivity|]. exists []. now rewrite app_nil_r.
  - pose proof (level_step_changes false uid bid acc sym cp amt w ex l) as Hch.
    destruct (due cp l) eqn:Hdue.
    + destruct (sim_step_due uid bid acc sym cp amt w ex l account Hacc Hdue)
        as (r & row & Hex & Hlog & Hst).
      destruct (level_step false uid bid acc sym cp amt (w, ex) l) as [w1 ex1].
      cbn [fst snd] in Hex, Hlog, Hch. subst ex1.
      rewrite <- (account_stable w w1 acc uid Hch) in Hacc.
      destruct (IH w1 (ex ++ [entry l r])%list Hacc) as (Hids & rows & Hrows & Hlen & Hall).
      split.
      * rewrite Hids. unfold executed_ids. rewrite map_app, <- app_assoc. reflexivity.
      * exists (row :: rows). rewrite Hrows, Hlog, <- app_assoc.
        split; [reflexivity|]. split; [cbn; now rewrite Hlen|]. now constructor.
    + rewrite step_not_due by exact Hdue. now apply IH.
Qed.

(** The simulated tick, level by level. *)
Lemma sim_tick_core (w : World.t) (uid bid acc : Z)
    (amount_per_order : option R) (account : exchange_account_row)
    (dt : GridBot.details) :
  get_exchange_account_by_id (db w) acc uid = Some account ->
  GridBot.get_bot_details (db w) bid uid = Some dt ->
  let cp := tick_price (db w) (GridBot.bot dt) in
  let final := run_levels false w uid bid acc (GridBot.bot dt) (GridBot.dlevels dt)
                 amount_per_order in
  fst (execute_grid_bot_levels false w uid bid acc amount_per_order) = fst final /\
  executed_ids (snd final) = map gl_id (filter (due cp) (GridBot.dlevels dt)) /\
  (exists rows,
     exchange_trade_logs (db (fst final)) = (exchange_trade_logs (db w) ++ rows)%list /\
     List.length rows = List.length (filter (due cp) (GridBot.dlevels dt)) /\
     Forall (fun r => tl_status r = "SIMULATED") rows) /\
  (forall l r, In l (GridBot.dlevels dt) -> due cp l = true ->
               In r (grid_levels (db (fst final))) -> gl_id r = gl_id l ->
               gl_is_filled r = 1%Z).
Proof.
  intros Hacc Hdt cp final.
  pose proof (sim_run uid bid acc (tick_symbol (GridBot.bot dt)) cp
                (tick_amount (GridBot.bot dt) amount_per_order) (GridBot.dlevels dt) w []
                account Hacc) as Hrun.
  cbv zeta in Hrun.
  change (fold_left
            (level_step false uid bid acc (tick_symbol (GridBot.bot dt)) cp
               (tick_amount (GridBot.bot dt) amount_per_order))
            (GridBot.dlevels dt) (w, [])) with final in Hrun.
  destruct Hrun as (Hids & Hrows). cbn [executed_ids map app] in Hids.
  split; [|split; [exact Hids | split; [exact Hrows|]]].
  - unfold execute_grid_bot_levels. rewrite Hdt. fold final. now destruct final.
  - intros l r Hl Hdue Hr Hid.
    assert (Hin : In (gl_id l) (executed_ids (snd final))).
    { rewrite Hids. apply in_map. apply filter_In. now split. }
    apply in_map_iff in Hin as (e & He & Hin).
    assert (Hinv : collected_filled final).
    { unfold final, run_levels. apply run_collected_filled. intros e0 r0 []. }
    apply (Hinv e r Hin Hr). congruence.
Qed.

(** In simulated mode, for a user with an active exchange account, a tick
    executes exactly the levels that are pending and eligible at the tick
    price, in the order read: their ids are what is collected, one
    SIMULATED row is logged for each, and each of them is filled in the
    store afterwards. *)
Theorem sim_tick_fills_due_levels (w : World.t) (uid bid acc : Z)
    (amount_per_order : option R) (account : exchange_account_row)
    (dt : GridBot.details) :
  get_exchange_account_by_id (db w) acc uid = Some account ->
  GridBot.get_bot_details (db w) bid uid = Some dt ->
  let cp := tick_price (db w) (GridBot.bot dt) in
  let final := run_levels false w uid bid acc (GridBot.bot dt) (GridBot.dlevels dt)
                 amount_per_order in
  fst (execute_grid_bot_levels false w uid bid acc amount_per_order) = fst final /\
  executed_ids (snd final) = map gl_id (filter (due cp) (GridBot.dlevels dt)) /\
  (exists rows,
     exchange_trade_logs (db (fst final)) = (exchange_trade_logs (db w) ++ rows)%list /\
     List.length rows = List.length (filter (due cp) (GridBot.dlevels dt)) /\
     Forall (fun r => tl_status r = "SIMULATED") rows) /\
  (forall l r, In l (GridBot.dlevels dt) -> due cp l = true ->
               In r (grid_levels (db (fst final))) -> gl_id r = gl_id l ->
               gl_is_filled r = 1%Z).
Proof. exact (sim_tick_core w uid bid acc amount_per_order account dt). Qed.

Lemma sim_tick_fills_due_levels_witness :
  let final := run_levels false world_tick 1 1 1 bot1 rows1 None in
  executed_ids (snd final) = map gl_id (filter (due 40000) rows1).
Proof.
  exact (proj1 (proj2 (sim_tick_fills_due_levels world_tick 1 1 1 None account1 details1
                         eq_refl fixture_bot_details))).
Defined.

Lemma Forall2_in_r {A B : Type} (R : A -> B -> Prop) (l : list A) (l' : list B) (y : B) :
  Forall2 R l l' -> In y l' -> exists x, In x l /\ R x y.
Proof.
  induction 1 as [|a b l l' Hab _ IH]; [easy|].
  intros [<- | Hy]; [exists a; split; [now left | exact Hab]|].
  destruct (IH Hy) as (x & Hx & Hr). exists x. split; [now right | exact Hr].
Qed.

(** After a simulated tick no level of the bot is due at the same price. *)
Lemma sim_tick_leaves_nothing_due (w : World.t) (uid bid acc : Z)
    (amount_per_order : option R) (account : exchange_account_row)
    (dt : GridBot.details) :
  get_exchange_account_by_id (db w) acc uid = Some account ->
  GridBot.get_bot_details (db w) bid uid = Some dt ->
  let final := run_levels false w uid bid acc (GridBot.bot dt) (GridBot.dlevels dt)
                 amount_per_order in
  Forall (fun l => due (tick_price (db w) (GridBot.bot dt)) l = false)
         (GridBot.get_levels_for_bot (db (fst final)) bid).
Proof.
  intros Hacc Hdt final. set (cp := tick_price (db w) (GridBot.bot dt)).
  assert (Hch : tick_changes w (fst final)).
  { unfold final, run_levels.
    exact (fold_step_changes false uid bid acc _ _ _ (GridBot.dlevels dt) (w, [])). }
  pose proof (sim_run uid bid acc (tick_symbol (GridBot.bot dt)) cp
                (tick_amount (GridBot.bot dt) amount_per_order) (GridBot.dlevels dt) w []
                account Hacc) as Hrun.
  cbv zeta in Hrun.
  change (fold_left
            (level_step false uid bid acc (tick_symbol (GridBot.bot dt)) cp
               (tick_amount (GridBot.bot dt) amount_per_order))
            (GridBot.dlevels dt) (w, [])) with final in Hrun.
  destruct Hrun as (Hids & _). cbn [executed_ids map app] in Hids.
  assert (Hinv : collected_filled final).
  { unfold final, run_levels. apply run_collected_filled. intros e0 r0 []. }
  destruct (details_inv _ _ _ _ Hdt) as (Hlevels & _).
  rewrite Forall_forall. intros l2 Hl2.
  apply levels_for_bot_iff in Hl2 as [Hl2 Hbot].
  destruct (due cp l2) eqn:Hdue; [|reflexivity]. exfalso.
  destruct (Forall2_in_r _ _ _ _ (tc_levels _ _ Hch) Hl2)
    as (l0 & Hl0 & Hid & Hb & Hp & Ht & Hflag).
  unfold due in Hdue. apply andb_prop in Hdue as [Hpend Helig].
  destruct (Z.eqb_spec (gl_is_filled l2) 1) as [|Hpend2]; [discriminate|].
  destruct Hflag as [Hflag | Hflag]; [|contradiction].
  assert (Hdue0 : due cp l0 = true).
  { unfold due. rewrite <- Hflag, <- Hp, <- Ht.
    destruct (Z.eqb_spec (gl_is_filled l2) 1); [contradiction|]. exact Helig. }
  assert (Hin0 : In l0 (GridBot.dlevels dt)).
  { rewrite Hlevels. apply levels_for_bot_iff. split; [exact Hl0 | congruence]. }
  assert (Hin : In (gl_id l0) (executed_ids (snd final))).
  { rewrite Hids. apply in_map. apply filter_In. now split. }
  apply in_map_iff in Hin as (e & He & Hin).
  apply Hpend2. apply (Hinv e l2 Hin Hl2). congruence.
Qed.

(** In simulated mode a second tick at an unchanged price does nothing:
    it collects no level and leaves the world as the first tick left it. *)
Theorem sim_tick_idempotent (w : World.t) (uid bid acc : Z)
    (amount_per_order : option R) (account : exchange_account_row)
    (dt : GridBot.details) :
  get_exchange_account_by_id (db w) acc uid = Some account ->
  GridBot.get_bot_details (db w) bid uid = Some dt ->
  let w1 := fst (execute_grid_bot_levels false w uid bid acc amount_per_order) in
  fst (execute_grid_bot_levels false w1 uid bid acc amount_per_order) = w1 /\
  exists dt1,
    GridBot.get_bot_details (db w1) bid uid = Some dt1 /\
    run_levels false w1 uid bid acc (GridBot.bot dt1) (GridBot.dlevels dt1) amount_per_order
    = (w1, []).
Proof.
  intros Hacc Hdt w1.
  set (final := run_levels false w uid bid acc (GridBot.bot dt) (GridBot.dlevels dt)
                  amount_per_order).
  assert (Hw1 : w1 = fst final).
  { unfold w1, execute_grid_bot_levels. rewrite Hdt. fold final. now destruct final. }
  assert (Hch : tick_changes w w1).
  { rewrite Hw1. unfold final, run_levels.
    exact (fold_step_changes false uid bid acc _ _ _ (GridBot.dlevels dt) (w, [])). }
  destruct (details_stable (db w) (db w1) bid uid dt (tc_grid_bots _ _ Hch) Hdt)
    as (dt1 & Hdt1 & Hbot & Hlev).
  assert (Hrun : run_levels false w1 uid bid acc (GridBot.bot dt1) (GridBot.dlevels dt1)
                   amount_per_order = (w1, [])).
  { unfold run_levels. apply run_not_due.
    rewrite Hbot, Hlev, (tick_price_stable w w1 _ Hch), Hw1.
    exact (sim_tick_leaves_nothing_due w uid bid acc amount_per_order account dt Hacc Hdt). }
  split; [|exists dt1; now split].
  unfold execute_grid_bot_levels. rewrite Hdt1, Hrun. reflexivity.
Qed.

Lemma sim_tick_idempotent_witness :
  let w1 := fst (execute_grid_bot_levels false world_tick 1 1 1 None) in
  fst (execute_grid_bot_levels false w1 1 1 1 None) = w1.
Proof.
  exact (proj1 (sim_tick_idempotent world_tick 1 1 1 None account1 details1
                  eq_refl fixture_bot_details)).
Defined.

(** [execute_grid_bot_levels] never reads [is_active]: after a successful
    stop, a simulated tick still executes every level of the bot that is
    pending and eligible, logs one SIMULATED order for each and fills it. *)
Theorem stopped_bot_still_trades (w : World.t) (uid bid acc : Z)
    (amount_per_order : option R) (account : exchange_account_row)
    (dt : GridBot.details) (d1 : Db.t) (inv : R) :
  get_exchange_account_by_id (db w) acc uid = Some account ->
  GridBot.get_bot_details (db w) bid uid = Some dt ->
  GridBot.stop_grid_bot (db w) bid uid = (d1, inr inv) ->
  let cp := tick_price (db w) (GridBot.bot dt) in
  let after := fst (execute_grid_bot_levels false (set_db w d1) uid bid acc
                      amount_per_order) in
  (exists dt', GridBot.get_bot_details d1 bid uid = Some dt' /\
               gb_is_active (GridBot.bot dt') = 0%Z) /\
  (exists rows,
     exchange_trade_logs (db after) = (exchange_trade_logs (db w) ++ rows)%list /\
     List.length rows = List.length (filter (due cp) (GridBot.dlevels dt)) /\
     Forall (fun r => tl_status r = "SIMULATED") rows) /\
  (forall l r, In l (GridBot.dlevels dt) -> due cp l = true ->
               In r (grid_levels (db after)) -> gl_id r = gl_id l ->
               gl_is_filled r = 1%Z).
Proof.
  intros Hacc Hdt Hstop cp after.
  apply stop_inv in Hstop.
  destruct Hstop as (Hl & Hp & Ha & Hlog & _ & dt0 & dt' & Hdt0 & Hdt' & Hact & _ & _ &
                     Hsym & _ & Hlev).
  rewrite Hdt in Hdt0. injection Hdt0 as <-.
  assert (Hacc' : get_exchange_account_by_id (db (set_db w d1)) acc uid = Some account).
  { unfold get_exchange_account_by_id in *. cbn [db set_db]. now rewrite Ha. }
  assert (Hcp : tick_price (db (set_db w d1)) (GridBot.bot dt') = cp).
  { unfold cp, tick_price, PriceService.get_latest_price. cbn [db set_db].
    now rewrite Hp, Hsym. }
  pose proof (sim_tick_core (set_db w d1) uid bid acc amount_per_order account dt'
                Hacc' Hdt') as Hsim.
  cbv zeta in Hsim. rewrite Hcp, Hlev in Hsim.
  destruct Hsim as (Hworld & _ & Hrows & Hfilled).
  fold after in Hworld. rewrite <- Hworld in Hrows, Hfilled.
  cbn [db set_db] in Hrows. rewrite Hlog in Hrows.
  split; [exists dt'; now split|]. split; [exact Hrows | exact Hfilled].
Qed.

Lemma stopped_bot_still_trades_witness :
  exists d1 dt',
    GridBot.stop_grid_bot db_tick 1 1 = (d1, inr 1000) /\
    GridBot.get_bot_details d1 1 1 = Some dt' /\
    gb_is_active (GridBot.bot dt') = 0%Z /\
    exists rows,
      exchange_trade_logs
        (db (fst (execute_grid_bot_levels false (set_db world_tick d1) 1 1 1 None)))
      = rows /\
      List.length rows = List.length (filter (due 40000) rows1).
Proof.
  assert (Hstop : GridBot.stop_grid_bot db_tick 1 1
                  = (credit_balance (GridBot.deactivate db_tick 1) 1 1000, inr 1000)).
  { unfold GridBot.stop_grid_bot. rewrite fixture_bot_details. reflexivity. }
  destruct (stopped_bot_still_trades world_tick 1 1 1 None account1 details1 _ _
              eq_refl fixture_bot_details Hstop)
    as ((dt' & Hdt' & Hact) & (rows & Hrows & Hlen & _) & _).
  eexists. exists dt'. split; [exact Hstop|]. split; [exact Hdt'|]. split; [exact Hact|].
  exists rows. split; [exact Hrows | exact Hlen].
Defined.




(** What the router sends to the exchange: at most one order per call,
    none in simulated mode, and never one with an empty symbol, a side
    other than buy or sell, or an amount that is not positive. *)
Theorem orders_sent_are_well_formed (live : bool) (w : World.t) (uid acc : Z)
    (symbol side : string) (amount : R) (mode : option bool) (source : string) :
  let out := execute_market_order_for_account live w uid acc symbol side amount mode
               source in
  exists sent,
    ex_orders (fst out) = (ex_orders w ++ sent)%list /\
    (List.length sent <= 1)%nat /\
    Forall well_formed sent /\
    Forall (fun o => so_symbol o = symbol /\ so_amount o = amount) sent /\
    (from_option mode live = false -> sent = []).
Proof.
  assert (Hnil : forall w0 : World.t,
             exists sent,
               ex_orders w0 = (ex_orders w0 ++ sent)%list /\
               (List.length sent <= 1)%nat /\ Forall well_formed sent /\
               Forall (fun o => so_symbol o = symbol /\ so_amount o = amount) sent /\
               (from_option mode live = false -> sent = [])).
  { intros w0. exists []. rewrite app_nil_r.
    repeat split; try (cbn; lia); constructor. }
  unfold execute_market_order_for_account.
  destruct (get_exchange_account_by_id (db w) acc uid) as [account|]; [|apply Hnil].
  destruct (from_option mode live) eqn:Hmode; cbn [negb].
  2:{ cbn. exists []. rewrite app_nil_r. repeat split; try (cbn; lia); constructor. }
  destruct (negb (create_exchange_client w (ea_exchange_name account))); [apply Hnil|].
  assert (Hplace :
    let p := place_market_order w symbol (lower side) amount in
    exists sent,
      ex_orders (fst p) = (ex_orders w ++ sent)%list /\
      (List.length sent <= 1)%nat /\ Forall well_formed sent /\
      Forall (fun o => so_symbol o = symbol /\ so_amount o = amount) sent).
  { assert (Hno : exists sent,
               ex_orders w = (ex_orders w ++ sent)%list /\
               (List.length sent <= 1)%nat /\ Forall well_formed sent /\
               Forall (fun o => so_symbol o = symbol /\ so_amount o = amount) sent).
    { exists []. rewrite app_nil_r. repeat split; try (cbn; lia); constructor. }
    unfold place_market_order.
    destruct (String.eqb_spec symbol "") as [|Hsym]; [exact Hno|].
    destruct ((lower side =? "")%string); [exact Hno|].
    destruct (Rtruthy amount); [|exact Hno].
    cbn [orb negb].
    destruct (negb ((lower (lower side) =? "buy")%string
                    || (lower (lower side) =? "sell")%string)) eqn:Hside; [exact Hno|].
    destruct (Rleb amount 0) eqn:Hamt; [exact Hno|].
    apply Rleb_false in Hamt. apply negb_false_iff, orb_prop in Hside.
    cbn. eexists. split; [reflexivity|]. split; [cbn; lia|].
    split.
    - constructor; [|constructor]. unfold well_formed. cbn.
      split; [exact Hsym|]. split; [|exact Hamt].
      destruct Hside as [H | H]; apply String.eqb_eq in H; tauto.
    - constructor; [|constructor]. now split. }
  destruct (place_market_order w symbol (lower side) amount) as [w1 [o|]];
    [destruct (answer_error o) | ];
    cbn in Hplace |- *; destruct Hplace as (sent & Hs & Hlen & Hwf & Hsame);
    exists sent; repeat split; try assumption; discriminate.
Qed.

(** An exchange account that is not the user's own active account cannot
    trade: the router fails without logging or sending anything, a tick
    executes no level and leaves the world as it is, and so does a DCA
    cycle. *)
Theorem no_account_no_trade (live : bool) (w : World.t) (uid acc : Z) :
  (forall a, In a (exchange_accounts (db w)) -> ea_id a = acc ->
             ea_user_id a <> uid \/ ea_is_active a <> 1%Z) ->
  (forall symbol side amount mode source,
     execute_market_order_for_account live w uid acc symbol side amount mode source
     = (w, Failed "Exchange account not found or access denied" None None)) /\
  (forall bid amount_per_order,
     fst (execute_grid_bot_levels live w uid bid acc amount_per_order) = w) /\
  (forall bid bot,
     DcaBot.get_dca_bot_details (db w) bid uid = Some bot ->
     dc_exchange_account_id bot = acc ->
     fst (DcaBot.run_dca_cycle live w bid uid) = w).
Proof.
  intros Hother.
  assert (Hnone : get_exchange_account_by_id (db w) acc uid = None).
  { unfold get_exchange_account_by_id. apply find_none_forall. intros a Ha.
    destruct (Z.eqb_spec (ea_id a) acc) as [Hid|]; [|reflexivity].
    destruct (Z.eqb_spec (ea_user_id a) uid) as [Hu|]; [|reflexivity].
    destruct (Z.eqb_spec (ea_is_active a) 1) as [Hact|]; [|reflexivity].
    destruct (Hother a Ha Hid); contradiction. }
  assert (Hfail : forall symbol side amount mode source,
             execute_market_order_for_account live w uid acc symbol side amount mode source
             = (w, Failed "Exchange account not found or access denied" None None)).
  { intros. unfold execute_market_order_for_account. now rewrite Hnone. }
  split; [exact Hfail|]. split.
  - intros bid apo. unfold execute_grid_bot_levels.
    destruct (GridBot.get_bot_details (db w) bid uid) as [dt|]; [|reflexivity].
    assert (Hrun : forall ls,
               fold_left (level_step live uid bid acc (tick_symbol (GridBot.bot dt))
                            (tick_price (db w) (GridBot.bot dt))
                            (tick_amount (GridBot.bot dt) apo)) ls (w, []) = (w, [])).
    { induction ls as [|l ls IH]; [reflexivity|]. cbn [fold_left].
      assert (Hstep : level_step live uid bid acc (tick_symbol (GridBot.bot dt))
                        (tick_price (db w) (GridBot.bot dt))
                        (tick_amount (GridBot.bot dt) apo) (w, []) l = (w, [])).
      { unfold level_step. destruct (gl_is_filled l =? 1)%Z; [reflexivity|].
        destruct (should_execute (gl_order_type l) (tick_price (db w) (GridBot.bot dt))
                    (gl_level_price l)); [|reflexivity].
        now rewrite Hfail. }
      now rewrite Hstep. }
    unfold run_levels. now rewrite Hrun.
  - intros bid bot Hbot Hacc. unfold DcaBot.run_dca_cycle. rewrite Hbot.
    destruct (dc_is_active bot =? 0)%Z; [reflexivity|].
    rewrite Hacc, Hfail. reflexivity.
Qed.

Lemma no_account_no_trade_witness :
  fst (execute_grid_bot_levels false (world_of db_tick_no_account []) 1 1 1 None)
  = world_of db_tick_no_account [] /\
  fst (DcaBot.run_dca_cycle false (world_of db_tick_no_account []) 1 1)
  = world_of db_tick_no_account [].
Proof.
  destruct (no_account_no_trade false (world_of db_tick_no_account []) 1 1) as (_ & Ht & Hd).
  - intros a [<- | []] _. right. cbn. lia.
  - split; [apply Ht | apply (Hd 1%Z dca_sell eq_refl eq_refl)].
Defined.

(** The grid run route never runs a tick.  It subscripts the result of
    [get_bot_details] with ['symbol'], a key that this dictionary does not
    have, so for every bot that is found it answers 500 before the trend
    gate and before [execute_grid_bot_levels]; otherwise it answers 400
    (no exchange account in the request) or 404.  The world is never
    changed: no level is filled, nothing is logged, no order is sent. *)
Theorem grid_run_route_never_ticks (live : bool)
    (ema_context_of : GridRoutes.details_value -> EmaContext.ema_context) (w : World.t)
    (bid uid : Z) (acc : option Z) (amount_per_order : option R) :
  let out := GridRoutes.api_run_grid_bot live ema_context_of w bid uid acc
               amount_per_order in
  fst out = w /\
  (forall a dt, acc = Some a -> a <> 0%Z ->
                GridBot.get_bot_details (db w) bid uid = Some dt ->
                snd out = GridRoutes.ServerError "'symbol'") /\
  (forall r why, snd out <> GridRoutes.Ticked r why) /\
  (forall why, snd out <> GridRoutes.Paused why).
Proof.
  intros out. unfold out, GridRoutes.api_run_grid_bot.
  destruct acc as [a|]; [|repeat split; intros; discriminate].
  destruct (Z.eqb_spec a 0) as [-> | Ha].
  { repeat split; intros; try discriminate. congruence. }
  destruct (GridBot.get_bot_details (db w) bid uid) as [dt|];
    [|repeat split; intros; discriminate].
  cbn. repeat split; intros; discriminate.
Qed.

Lemma grid_run_route_never_ticks_witness :
  snd (GridRoutes.api_run_grid_bot false (fun _ => downtrend_ctx) world_tick 1 1 (Some 1%Z)
         None)
  = GridRoutes.ServerError "'symbol'".
Proof.
  refine (proj1 (proj2 (grid_run_route_never_ticks false (fun _ => downtrend_ctx)
                          world_tick 1 1 (Some 1%Z) None)) 1%Z details1 eq_refl _ _).
  - lia.
  - exact fixture_bot_details.
Defined.

End TickMore.

(** ** A tick with a failing and a succeeding level *)

Section PartialBatch.
Import Py Db World Exchange OrderExecution Obs Obs2 Fixtures.
Local Open Scope R_scope.

(** C3, as amended: in a tick, the order of a pending, eligible level is
    followed by the remaining levels whether it fails or not; when it fails
    the level keeps its state and is not collected, when it succeeds the
    level is marked filled and collected in [executed_levels]; only
    successes are collected (there is no list of failures).  A failure
    leaves one row with status ERROR and an error message in the trade log,
    which is still there at the end of the tick, when the exchange client
    had been created; a failure before that (no such account, no client)
    leaves the world as it was, without any record. *)
Theorem tick_partial_batch (live : bool) (w : World.t) (uid bid acc : Z)
    (amount_per_order : option R) (dt : GridBot.details)
    (pre post : list grid_level_row) (l : grid_level_row) (side : string) :
  GridBot.get_bot_details (db w) bid uid = Some dt ->
  GridBot.dlevels dt = (pre ++ l :: post)%list ->
  gl_is_filled l <> 1%Z ->
  should_execute (gl_order_type l) (tick_price (db w) (GridBot.bot dt)) (gl_level_price l)
  = Some side ->
  ~ In (gl_id l) (map gl_id (pre ++ post)) ->
  let b := GridBot.bot dt in
  let step := level_step live uid bid acc (tick_symbol b) (tick_price (db w) b)
                (tick_amount b amount_per_order) in
  let before := run_levels live w uid bid acc b pre amount_per_order in
  let order := level_order live uid bid acc (tick_symbol b)
                 (tick_amount b amount_per_order) (fst before) side in
  let final := run_levels live w uid bid acc b (GridBot.dlevels dt) amount_per_order in
  fst (execute_grid_bot_levels live w uid bid acc amount_per_order) = fst final /\
  final = fold_left step post (step before l) /\
  (success (snd order) = false ->
   level_state (db (fst final)) (gl_id l) = level_state (db w) (gl_id l) /\
   ~ In (gl_id l) (executed_ids (snd final))) /\
  (success (snd order) = true ->
   level_state (db w) (gl_id l) <> None ->
   level_state (db (fst final)) (gl_id l) = Some 1%Z /\
   In (entry l (snd order)) (snd final)) /\
  Forall (fun e => success (exec_result e) = true) (snd final) /\
  (success (snd order) = false ->
   match get_exchange_account_by_id (db (fst before)) acc uid with
   | None => fst order = fst before
   | Some account =>
       live = true /\
       if create_exchange_client (fst before) (ea_exchange_name account)
       then exists row,
              exchange_trade_logs (db (fst order))
              = (exchange_trade_logs (db (fst before)) ++ [row])%list /\
              tl_status row = "ERROR" /\ tl_error_message row <> None /\
              tl_side row = upper side /\
              tl_symbol row = tick_symbol b /\
              tl_trade_source row = "grid_bot_" ++ str_of_int bid /\
              In row (exchange_trade_logs (db (fst final)))
       else fst order = fst before
   end).
Proof.
  intros Hdt Hlevels Hpending Hside Hfresh b step before order final.
  assert (Hworld : fst (execute_grid_bot_levels live w uid bid acc amount_per_order)
                   = fst final).
  { unfold execute_grid_bot_levels. rewrite Hdt. fold b. fold final.
    now destruct final. }
  split; [exact Hworld|]. clear Hworld.
  unfold final. rewrite Hlevels. clear final.
  set (final := run_levels live w uid bid acc b (pre ++ l :: post) amount_per_order).
  assert (Hfinal : final = fold_left step post (step before l)).
  { unfold final, before, run_levels. now rewrite fold_left_app. }
  assert (Hpre : ~ In (gl_id l) (map gl_id pre) /\ ~ In (gl_id l) (map gl_id post)).
  { rewrite map_app in Hfresh. split; intros H; apply Hfresh, in_or_app; tauto. }
  destruct Hpre as [Hpre Hpost].
  destruct (run_other live uid bid acc (tick_symbol b) (tick_price (db w) b)
              (tick_amount b amount_per_order) (gl_id l) pre (w, []) Hpre)
    as [Hpre1 Hpre2].
  fold (run_levels live w uid bid acc b pre amount_per_order) in Hpre1, Hpre2.
  fold before in Hpre1, Hpre2. cbn [fst snd] in Hpre1, Hpre2.
  destruct (run_other live uid bid acc (tick_symbol b) (tick_price (db w) b)
              (tick_amount b amount_per_order) (gl_id l) post (step before l) Hpost)
    as [Hpost1 Hpost2].
  destruct (run_keeps live uid bid acc (tick_symbol b) (tick_price (db w) b)
              (tick_amount b amount_per_order) (gl_id l) post (step before l))
    as [Hkeep1 Hkeep2].
  pose proof (fold_step_changes live uid bid acc (tick_symbol b) (tick_price (db w) b)
                (tick_amount b amount_per_order) post (step before l)) as Hgrow.
  fold step in Hpost1, Hpost2, Hkeep1, Hkeep2, Hgrow.
  rewrite <- Hfinal in Hpost1, Hpost2, Hkeep1, Hkeep2, Hgrow.
  assert (Hstep : step before l
                  = if success (snd order)
                    then (set_db (fst order) (mark_filled (db (fst order)) (gl_id l)),
                          (snd before ++ [entry l (snd order)])%list)
                    else (fst order, snd before)).
  { unfold step. destruct before as [wb exb]. now apply step_eligible. }
  pose proof (execute_order_frame live (fst before) uid acc (tick_symbol b) side
                (tick_amount b amount_per_order) None ("grid_bot_" ++ str_of_int bid))
    as (Hframe & _).
  change (execute_market_order_for_account live (fst before) uid acc (tick_symbol b) side
            (tick_amount b amount_per_order) None ("grid_bot_" ++ str_of_int bid))
    with order in Hframe.
  split; [exact Hfinal|]. split; [|split; [|split]].
  - intros Hfail. rewrite Hfail in Hstep. rewrite Hstep in Hpost1, Hpost2.
    cbn [fst snd] in Hpost1, Hpost2. split.
    + rewrite Hpost1, (level_state_ext _ _ _ Hframe). exact Hpre1.
    + intros H. exact (Hpre2 (Hpost2 H)).
  - intros Hok Hexists. rewrite Hok in Hstep. rewrite Hstep in Hkeep1, Hkeep2.
    cbn [fst snd db set_db] in Hkeep1, Hkeep2. split.
    + apply Hkeep1. apply level_state_mark_same.
      rewrite (level_state_ext _ _ _ Hframe), Hpre1. exact Hexists.
    + apply Hkeep2. apply in_or_app. right. now left.
  - unfold final, run_levels. apply run_successes. constructor.
  - intros Hfail. rewrite Hfail in Hstep. rewrite Hstep in Hgrow. cbn [fst] in Hgrow.
    pose proof (failed_order_log live (fst before) uid acc (tick_symbol b) side
                  (tick_amount b amount_per_order) None ("grid_bot_" ++ str_of_int bid))
      as Hlog.
    cbv zeta in Hlog.
    change (execute_market_order_for_account live (fst before) uid acc (tick_symbol b) side
              (tick_amount b amount_per_order) None ("grid_bot_" ++ str_of_int bid))
      with order in Hlog.
    specialize (Hlog Hfail).
    destruct (get_exchange_account_by_id (db (fst before)) acc uid) as [account|];
      [|exact Hlog].
    destruct Hlog as [Hlive Hlog]. cbn [from_option] in Hlive. split; [exact Hlive|].
    destruct (create_exchange_client (fst before) (ea_exchange_name account));
      [|exact Hlog].
    destruct Hlog as (row & Hrow & Hst & Hmsg & Hsd & Hsym & _ & Hsrc).
    exists row. repeat split; try assumption.
    destruct (tc_logs _ _ Hgrow) as [rows Hrows].
    rewrite Hrows, Hrow. apply in_or_app. left. apply in_or_app. right. now left.
Qed.

Lemma tick_partial_batch_witness :
  let out := execute_grid_bot_levels true world_tick 1 1 1 None in
  let final := run_levels true world_tick 1 1 1 bot1 rows1 None in
  fst out = fst final /\
  (level_state (db (fst final)) 1 = Some 0%Z /\ ~ In 1%Z (executed_ids (snd final))) /\
  (level_state (db (fst final)) 2 = Some 1%Z /\
   In (entry (level_row 2 42500 "BUY") live_result) (snd final)) /\
  (exists row,
     In row (exchange_trade_logs (db (fst final))) /\
     tl_status row = "ERROR" /\ tl_error_message row <> None /\ tl_side row = "BUY").
Proof.
  pose proof (tick_partial_batch true world_tick 1 1 1 None details1 []
                [ level_row 2 42500 "BUY"; level_row 3 45000 "SELL";
                  level_row 4 47500 "SELL"; level_row 5 50000 "SELL" ]
                (level_row 1 40000 "BUY") "buy"
                fixture_bot_details eq_refl ltac:(cbn; lia) fixture_eligible_1
                ltac:(cbn; lia))
    as (Hworld & _ & Hfail & _ & _ & Hlog).
  pose proof (tick_partial_batch true world_tick 1 1 1 None details1
                [ level_row 1 40000 "BUY" ]
                [ level_row 3 45000 "SELL"; level_row 4 47500 "SELL";
                  level_row 5 50000 "SELL" ]
                (level_row 2 42500 "BUY") "buy"
                fixture_bot_details eq_refl ltac:(cbn; lia) fixture_eligible_2
                ltac:(cbn; lia))
    as (_ & _ & _ & Hok & _).
  cbn [GridBot.bot GridBot.dlevels details1] in Hworld, Hfail, Hok, Hlog.
  assert (Hfailed : success (snd (level_order true 1 1 1 (tick_symbol bot1)
                                    (tick_amount bot1 None)
                                    (fst (run_levels true world_tick 1 1 1 bot1 [] None))
                                    "buy")) = false)
    by exact (f_equal (fun p => success (snd p)) fixture_order1).
  split; [exact Hworld|]. split; [|split].
  - apply Hfail. exact Hfailed.
  - rewrite fixture_tick_prefix in Hok. cbn [fst] in Hok.
    change (level_order true 1 1 1 (tick_symbol bot1) (tick_amount bot1 None)
              world_tick_1 "buy")
      with (level_order true 1 1 1 "BTC/USDT" (1000 / 5) world_tick_1 "buy") in Hok.
    rewrite fixture_order2 in Hok.
    apply Hok; [reflexivity | cbn; discriminate].
  - specialize (Hlog Hfailed).
    change (get_exchange_account_by_id
              (db (fst (run_levels true world_tick 1 1 1 bot1 [] None))) 1 1)
      with (Some account1) in Hlog.
    destruct Hlog as (_ & row & _ & Hst & Hmsg & Hsd & _ & _ & Hin).
    exists row. now repeat split.
Defined.

End PartialBatch.

(** ** Trend gating, prices and AI trades *)

Section GateMore.
Import Py Db World Exchange OrderExecution EmaContext Obs Obs2 Fixtures.
Local Open Scope R_scope.

(** The grid gate pauses a tick exactly when trend data is available, the
    signal is not HOLD, the confidence is at least 60, and a golden cross,
    a death cross, a BUY or a SELL signal is present; in every other case,
    also without trend data, the tick may run. *)
Theorem grid_gate_pauses_on_strong_trend_only (c : ema_context) :
  let signal := from_option (overall_signal c) "HOLD" in
  let conf := from_option (confidence c) 0%Z in
  fst (GridGate.should_grid_bot_execute c) = false <->
  truthy (ctx_success c) = true /\ signal <> "HOLD" /\ (60 <= conf)%Z /\
  (truthy (golden_cross c) = true \/ truthy (death_cross c) = true \/
   signal = "BUY" \/ signal = "SELL").
Proof.
  intros signal conf. unfold GridGate.should_grid_bot_execute.
  fold signal. fold conf.
  destruct (truthy (ctx_success c)); cbn [negb fst].
  2:{ split; [discriminate | intros [H _]; discriminate]. }
  destruct (String.eqb_spec signal "HOLD") as [Hh | Hh]; cbn [fst].
  { split; [discriminate | intros (_ & H & _); contradiction]. }
  destruct (Z.ltb_spec conf 60) as [Hc | Hc]; cbn [fst].
  { split; [discriminate | intros (_ & _ & H & _); lia]. }
  destruct (truthy (golden_cross c)); cbn [fst]; [tauto|].
  destruct (truthy (death_cross c)); cbn [fst]; [tauto|].
  destruct (Z.leb_spec 60 conf) as [_ | ?]; [|lia]. rewrite !andb_true_r.
  destruct (String.eqb_spec signal "BUY") as [Hb | Hb]; cbn [fst]; [tauto|].
  destruct (String.eqb_spec signal "SELL") as [Hs | Hs]; cbn [fst]; [tauto|].
  split; [discriminate|]. intros (_ & _ & _ & [H | [H | [H | H]]]); congruence.
Qed.

Lemma grid_gate_pauses_on_strong_trend_only_witness :
  fst (GridGate.should_grid_bot_execute downtrend_ctx) = false /\
  fst (GridGate.should_grid_bot_execute uptrend_death_ctx) = true.
Proof.
  split.
  - apply (proj2 (grid_gate_pauses_on_strong_trend_only downtrend_ctx)).
    cbn. repeat split; try discriminate; try lia. right. right. now right.
  - destruct (fst (GridGate.should_grid_bot_execute uptrend_death_ctx)) eqn:E;
      [reflexivity|].
    apply (proj1 (grid_gate_pauses_on_strong_trend_only uptrend_death_ctx)) in E.
    destruct E as (_ & H & _). now destruct H.
Defined.

(** SELL-side DCA gating is the mirror image of BUY-side gating: it decides
    on a trend context as the BUY side decides on the context with golden
    and death cross, uptrend and downtrend exchanged.  A side that is
    neither ['BUY'] nor ['SELL'] (the test is case sensitive) is never
    gated. *)
Theorem dca_sell_gating_mirrors_buy (c : ema_context) (side : string) :
  fst (should_dca_bot_execute c "SELL") = fst (should_dca_bot_execute (mirror c) "BUY") /\
  (side <> "BUY" -> side <> "SELL" -> fst (should_dca_bot_execute c side) = true).
Proof.
  split.
  - unfold should_dca_bot_execute, mirror.
    cbn [ctx_success trend_label golden_cross death_cross String.eqb Ascii.eqb Bool.eqb].
    destruct (truthy (ctx_success c)); cbn [negb]; [|reflexivity].
    destruct (truthy (death_cross c)); [reflexivity|].
    destruct (trend_label c) as [t|]; cbn [mirror_trend from_option].
    + destruct (String.eqb_spec t "long_term_uptrend") as [-> | Hu]; cbn.
      * now destruct (truthy (golden_cross c)).
      * destruct (String.eqb_spec t "long_term_downtrend") as [-> | Hd]; cbn;
          [reflexivity|].
        destruct (String.eqb_spec t "long_term_uptrend"); [contradiction|].
        destruct (String.eqb_spec t "long_term_downtrend"); [contradiction|].
        now destruct (truthy (golden_cross c)).
    + cbn. now destruct (truthy (golden_cross c)).
  - intros Hb Hs. unfold should_dca_bot_execute.
    destruct (negb (truthy (ctx_success c))); [reflexivity|].
    destruct (String.eqb_spec side "BUY"); [contradiction|].
    destruct (String.eqb_spec side "SELL"); [contradiction|]. reflexivity.
Qed.

Lemma dca_sell_gating_mirrors_buy_witness :
  fst (should_dca_bot_execute downtrend_ctx "buy") = true.
Proof.
  exact (proj2 (dca_sell_gating_mirrors_buy downtrend_ctx "buy")
           ltac:(discriminate) ltac:(discriminate)).
Defined.

Lemma newest_some (rows : list price_row) (best : price_row) :
  fold_left
    (fun best r =>
       match best with
       | None => Some r
       | Some b => if (ph_timestamp b <? ph_timestamp r)%Z then Some r else Some b
       end) rows (Some best) <> None.
Proof.
  revert best. induction rows as [|r rows IH]; intros best; cbn [fold_left]; [discriminate|].
  destruct (ph_timestamp best <? ph_timestamp r)%Z; apply IH.
Qed.

(** [get_latest_price] answers [None] exactly when the store has no price
    row of the symbol; otherwise it answers a row of the symbol that no
    other row of the symbol is newer than. *)
Theorem latest_price_is_the_newest_row (d : Db.t) (symbol : string) :
  match PriceService.get_latest_price d symbol with
  | None => forall r, In r (price_history d) -> ph_symbol r <> symbol
  | Some r =>
      In r (price_history d) /\ ph_symbol r = symbol /\
      forall r', In r' (price_history d) -> ph_symbol r' = symbol ->
                 (ph_timestamp r' <= ph_timestamp r)%Z
  end.
Proof.
  destruct (PriceService.get_latest_price d symbol) as [r|] eqn:E.
  - now apply latest_price_is_newest.
  - unfold PriceService.get_latest_price, PriceService.newest in E.
    intros r Hr Hs.
    assert (Hin : In r (filter (fun r => (ph_symbol r =? symbol)%string) (price_history d))).
    { apply filter_In. split; [exact Hr | now apply String.eqb_eq]. }
    destruct (filter (fun r => (ph_symbol r =? symbol)%string) (price_history d))
      as [|x xs]; [exact Hin|].
    cbn [fold_left] in E. exact (newest_some xs x E).
Qed.

Lemma dict_get_set_same (k : string) (v : R) (dct : list (string * R)) :
  Prices.dict_get k (Prices.dict_set k v dct) = Some v.
Proof.
  induction dct as [|[k' v'] rest IH]; cbn.
  - now rewrite String.eqb_refl.
  - destruct (String.eqb_spec k' k) as [-> | Hne]; cbn.
    + now rewrite String.eqb_refl.
    + destruct (String.eqb_spec k' k); [contradiction | exact IH].
Qed.

Lemma dict_get_set_other (k k0 : string) (v : R) (dct : list (string * R)) :
  k0 <> k -> Prices.dict_get k0 (Prices.dict_set k v dct) = Prices.dict_get k0 dct.
Proof.
  intros Hne. induction dct as [|[k' v'] rest IH]; cbn.
  - destruct (String.eqb_spec k k0); [congruence | reflexivity].
  - destruct (String.eqb_spec k' k) as [-> | Hk]; cbn.
    + destruct (String.eqb_spec k k0); [congruence | reflexivity].
    + destruct (String.eqb_spec k' k0); [reflexivity | exact IH].
Qed.

(** [get_current_prices] has one entry for each requested symbol and no
    other: the latest close price of the symbol when the store has one,
    else the default of the table, which is 0 for a symbol that the table
    does not list. *)
Theorem current_prices_cover_the_request (d : Db.t) (symbols : list string) (s : string) :
  (In s symbols ->
   Prices.dict_get s (Prices.get_current_prices d symbols)
   = Some match PriceService.get_latest_price d s with
          | Some p => ph_close_price p
          | None => Prices.default_price s
          end) /\
  (~ In s symbols -> Prices.dict_get s (Prices.get_current_prices d symbols) = None) /\
  (s <> "BTCUSDT" -> s <> "ETHUSDT" -> s <> "BNBUSDT" -> s <> "SOLUSDT" ->
   s <> "ADAUSDT" -> Prices.default_price s = 0).
Proof.
  set (value := fun s => match PriceService.get_latest_price d s with
                         | Some p => ph_close_price p
                         | None => Prices.default_price s
                         end).
  assert (Hstep : forall prices symbol,
             match PriceService.get_latest_price d symbol with
             | Some price_data =>
                 Prices.dict_set symbol (ph_close_price price_data) prices
             | None => Prices.dict_set symbol (Prices.default_price symbol) prices
             end = Prices.dict_set symbol (value symbol) prices).
  { intros prices symbol. unfold value.
    now destruct (PriceService.get_latest_price d symbol). }
  assert (Hfold : forall syms acc,
             Prices.dict_get s
               (fold_left (fun prices symbol =>
                             match PriceService.get_latest_price d symbol with
                             | Some price_data =>
                                 Prices.dict_set symbol (ph_close_price price_data) prices
                             | None =>
                                 Prices.dict_set symbol (Prices.default_price symbol) prices
                             end) syms acc)
             = if in_dec string_dec s syms then Some (value s) else Prices.dict_get s acc).
  { induction syms as [|x syms IH]; intros acc; [reflexivity|].
    cbn [fold_left]. rewrite IH, Hstep.
    destruct (in_dec string_dec s syms) as [Hin | Hnin].
    - destruct (in_dec string_dec s (x :: syms)) as [|Hno]; [reflexivity|].
      exfalso. apply Hno. now right.
    - destruct (string_dec x s) as [-> | Hne].
      + rewrite dict_get_set_same.
        destruct (in_dec string_dec s (s :: syms)) as [|Hno]; [reflexivity|].
        exfalso. apply Hno. now left.
      + rewrite dict_get_set_other by congruence.
        destruct (in_dec string_dec s (x :: syms)) as [[|]|]; [congruence | contradiction |].
        reflexivity. }
  unfold Prices.get_current_prices. rewrite Hfold.
  split; [|split].
  - intros Hin. destruct (in_dec string_dec s symbols); [reflexivity | contradiction].
  - intros Hnin. destruct (in_dec string_dec s symbols); [contradiction | reflexivity].
  - intros H1 H2 H3 H4 H5. unfold Prices.default_price.
    repeat match goal with
           | |- context [String.eqb ?a ?b] => destruct (String.eqb_spec a b); [contradiction|]
           end. reflexivity.
Qed.

Lemma current_prices_cover_the_request_witness :
  Prices.dict_get "BTCUSDT" (Prices.get_current_prices db_sim ["BTCUSDT"; "DOGEUSDT"])
  = Some 42000 /\
  Prices.default_price "DOGEUSDT" = 0.
Proof.
  destruct (current_prices_cover_the_request db_sim ["BTCUSDT"; "DOGEUSDT"] "BTCUSDT")
    as (H & _ & _).
  destruct (current_prices_cover_the_request db_sim [] "DOGEUSDT") as (_ & _ & H0).
  split.
  - apply H. now left.
  - apply H0; discriminate.
Defined.

(** [execute_ai_trade] does nothing without a prediction; with one, it
    makes exactly one call of the router, with the side buy when the
    predicted direction is ['UP'] and sell for every other direction, the
    amount and the symbol of the request and the source ['ai_prediction'],
    and hands the prediction back with the result of that call.  For a
    usable account, the call in simulation mode succeeds and leaves one
    SIMULATED row of that side and amount while the exchange receives
    nothing; the live call of a well-formed request sends exactly one order
    of that side and amount to the exchange and leaves one row of that
    side. *)
Theorem ai_trade_follows_the_prediction (predict : string -> option AiTrade.prediction)
    (live : bool) (w : World.t) (uid acc : Z) (symbol : string) (amount : R) :
  let out := AiTrade.execute_ai_trade predict live w uid acc symbol amount in
  match predict (replace symbol "/" "") with
  | None => out = (w, AiTrade.AiFailed "Failed to get AI prediction")
  | Some p =>
      let up := (AiTrade.direction p =? "UP")%string in
      let side := if up then "buy" else "sell" in
      let routed := execute_market_order_for_account live w uid acc symbol side amount None
                      "ai_prediction" in
      out = (fst routed, AiTrade.AiOrder (snd routed) p) /\
      (exists rows,
         exchange_trade_logs (db (fst out)) = (exchange_trade_logs (db w) ++ rows)%list /\
         Forall (fun r => tl_side r = if up then "BUY" else "SELL") rows /\
         Forall (fun r => tl_trade_source r = "ai_prediction") rows) /\
      (exists sent,
         ex_orders (fst out) = (ex_orders w ++ sent)%list /\
         Forall (fun o => so_side o = if up then "buy" else "sell") sent) /\
      (forall account,
         get_exchange_account_by_id (db w) acc uid = Some account ->
         live = false ->
         success (snd routed) = true /\
         ex_orders (fst out) = ex_orders w /\
         exists row,
           exchange_trade_logs (db (fst out)) = (exchange_trade_logs (db w) ++ [row])%list /\
           tl_side row = (if up then "BUY" else "SELL") /\
           tl_symbol row = symbol /\ tl_amount row = amount /\
           tl_status row = "SIMULATED" /\ tl_trade_source row = "ai_prediction") /\
      (forall account,
         get_exchange_account_by_id (db w) acc uid = Some account ->
         live = true ->
         ex_connect w (ea_exchange_name account) = true ->
         symbol <> "" -> 0 < amount ->
         ex_orders (fst out)
         = (ex_orders w ++
            [{| so_symbol := symbol; so_side := side; so_amount := amount |}])%list /\
         exists row,
           exchange_trade_logs (db (fst out)) = (exchange_trade_logs (db w) ++ [row])%list /\
           tl_side row = (if up then "BUY" else "SELL") /\
           tl_symbol row = symbol /\ tl_trade_source row = "ai_prediction")
  end.
Proof.
  intros out. unfold out, AiTrade.execute_ai_trade.
  destruct (predict (replace symbol "/" "")) as [p|]; [|reflexivity].
  cbv zeta.
  set (up := (AiTrade.direction p =? "UP")%string).
  set (side := if up then "buy" else "sell").
  set (routed := execute_market_order_for_account live w uid acc symbol side amount None
                   "ai_prediction").
  assert (Hout : (let '(w1, result) := routed in (w1, AiTrade.AiOrder result p))
                 = (fst routed, AiTrade.AiOrder (snd routed) p))
    by now destruct routed.
  rewrite Hout. cbn [fst snd]. split; [reflexivity|].
  assert (Hupper : upper side = if up then "BUY" else "SELL")
    by (unfold side; now destruct up).
  pose proof (execute_order_sides live w uid acc symbol side amount None "ai_prediction")
    as [(rows & Hrows & Hside) (sent & Hsent & Hsides)].
  fold routed in Hrows, Hsent.
  assert (Hsrc : exists rows',
             exchange_trade_logs (db (fst routed))
             = (exchange_trade_logs (db w) ++ rows')%list /\
             Forall (fun r => tl_trade_source r = "ai_prediction") rows').
  { unfold routed, execute_market_order_for_account.
    destruct (get_exchange_account_by_id (db w) acc uid) as [account|];
      [|exists []; rewrite app_nil_r; split; [reflexivity | constructor]].
    destruct (negb (from_option None live)).
    { cbn. eexists. split; [reflexivity | now repeat constructor]. }
    destruct (negb (create_exchange_client w (ea_exchange_name account)));
      [exists []; rewrite app_nil_r; split; [reflexivity | constructor]|].
    pose proof (place_market_order_db w symbol (lower side) amount) as Hdb.
    destruct (place_market_order w symbol (lower side) amount) as [w1 [o|]];
    [destruct (answer_error o) | ];
      cbn in Hdb |- *; rewrite Hdb; eexists; (split; [reflexivity | now repeat constructor]). }
  destruct Hsrc as (rows' & Hrows' & Hsrc).
  assert (rows' = rows) as -> by (rewrite Hrows in Hrows'; now apply app_inv_head in Hrows').
  split; [|split; [|split]].
  - exists rows. split; [exact Hrows|]. split; [|exact Hsrc].
    eapply Forall_impl; [|exact Hside]. intros a ->. exact Hupper.
  - exists sent. split; [exact Hsent|].
    eapply Forall_impl; [|exact Hsides]. intros a ->. unfold side.
    now destruct up.
  - intros account Hacc ->. unfold routed.
    rewrite (execute_simulated false w uid acc symbol side amount None "ai_prediction"
               account Hacc eq_refl).
    cbn. split; [reflexivity|]. split; [reflexivity|].
    eexists. split; [reflexivity|]. cbn. now repeat split.
  - intros account Hacc -> Hconn Hsym Hamt.
    assert (Hs : side = "buy" \/ side = "sell") by (unfold side; destruct up; tauto).
    destruct (live_order_effects true w uid acc symbol side amount None "ai_prediction"
                account Hacc eq_refl Hconn Hsym Hs Hamt)
      as (Hord & _ & row & Hlog & Hrs & Hrsym & Hrsrc & _).
    fold routed in Hord, Hlog. split; [exact Hord|].
    exists row. rewrite <- Hupper. now repeat split.
Qed.

Lemma ai_trade_follows_the_prediction_witness :
  let up := fun _ : string => Some {| AiTrade.direction := "UP"; AiTrade.confidence_pct := 80 |} in
  let down := fun _ : string => Some {| AiTrade.direction := "DOWN"; AiTrade.confidence_pct := 80 |} in
  (exists row,
     exchange_trade_logs
       (db (fst (AiTrade.execute_ai_trade up false (world_of db_dca []) 1 1 "BTC/USDT" 2)))
     = [row] /\
     tl_side row = "BUY" /\ tl_symbol row = "BTC/USDT" /\ tl_amount row = 2 /\
     tl_status row = "SIMULATED" /\ tl_trade_source row = "ai_prediction") /\
  ex_orders (fst (AiTrade.execute_ai_trade down true Fixtures2.world_dca_live 1 1 "BTC/USDT" 2))
  = [{| so_symbol := "BTC/USDT"; so_side := "sell"; so_amount := 2 |}].
Proof.
  intros up down. split.
  - pose proof (ai_trade_follows_the_prediction up false (world_of db_dca []) 1 1
                  "BTC/USDT" 2) as H.
    cbv zeta in H. cbn [up] in H. destruct H as (_ & _ & _ & Hsim & _).
    destruct (Hsim account1 eq_refl eq_refl) as (_ & _ & Hrow). exact Hrow.
  - pose proof (ai_trade_follows_the_prediction down true Fixtures2.world_dca_live 1 1
                  "BTC/USDT" 2) as H.
    cbv zeta in H. cbn [down] in H. destruct H as (_ & _ & _ & _ & Hlive).
    destruct (Hlive account1 eq_refl eq_refl eq_refl ltac:(discriminate) ltac:(lra))
      as (Hord & _).
    exact Hord.
Defined.

End GateMore.

(** ** DCA bots: creation, cycle, stop and delete *)

Section DcaMore.
Import Py Db World Exchange OrderExecution EmaContext DcaBot Obs Obs2 Fixtures Fixtures2.
Local Open Scope R_scope.

Lemma validate_acceptable (c : DcaAdmin.config) :
  DcaAdmin.validate c = None <-> acceptable c.
Proof.
  unfold DcaAdmin.validate, acceptable, DcaAdmin.not_in_percent, DcaAdmin.outside,
    when_given.
  destruct (Rleb (DcaAdmin.buy_amount c) 0) eqn:E1;
    [apply Rleb_true in E1; split; [discriminate | intros (H & _); lra]|].
  apply Rleb_false in E1.
  destruct (String.eqb_spec (DcaAdmin.symbol c) "") as [E2 | E2];
    [split; [discriminate | intros (_ & H & _); contradiction]|].
  destruct (String.eqb_spec (DcaAdmin.side c) "BUY") as [E3 | E3];
    destruct (String.eqb_spec (DcaAdmin.side c) "SELL") as [E3' | E3'];
    cbn [orb negb];
    try (split; [discriminate | intros (_ & _ & [H | H] & _); contradiction]).
  all: destruct (Rleb (DcaAdmin.price_deviation_pct c) 0) eqn:E4;
    [apply Rleb_true in E4; split; [discriminate | intros (_ & _ & _ & H & _); lra]|];
    apply Rleb_false in E4;
    destruct (Rltb 100 (DcaAdmin.price_deviation_pct c)) eqn:E4';
    [apply Rltb_true in E4'; split; [discriminate | intros (_ & _ & _ & H & _); lra]|];
    apply Rltb_false in E4'; cbn [orb].
  all: assert (Htp : (match DcaAdmin.take_profit_pct c with
                      | Some v => Rleb v 0 || Rltb 1000 v
                      | None => false
                      end = false) <->
                     match DcaAdmin.take_profit_pct c with
                     | Some v => 0 < v <= 1000
                     | None => True
                     end)
    by (destruct (DcaAdmin.take_profit_pct c) as [v|]; [|tauto];
        rewrite orb_false_iff, Rleb_false, Rltb_false; tauto).
  all: assert (Hsl : (match DcaAdmin.stop_loss_pct c with
                      | Some v => Rleb v 0 || Rltb 100 v
                      | None => false
                      end = false) <->
                     match DcaAdmin.stop_loss_pct c with
                     | Some v => 0 < v <= 100
                     | None => True
                     end)
    by (destruct (DcaAdmin.stop_loss_pct c) as [v|]; [|tauto];
        rewrite orb_false_iff, Rleb_false, Rltb_false; tauto).
  all: assert (Hpm : (match DcaAdmin.price_deviation_multiplier c with
                      | Some v => Rltb v (1 / 10) || Rltb 10 v
                      | None => false
                      end = false) <->
                     match DcaAdmin.price_deviation_multiplier c with
                     | Some v => 1 / 10 <= v <= 10
                     | None => True
                     end)
    by (destruct (DcaAdmin.price_deviation_multiplier c) as [v|]; [|tauto];
        rewrite orb_false_iff, !Rltb_false; tauto).
  all: assert (Hsm : (match DcaAdmin.dca_order_size_multiplier c with
                      | Some v => Rltb v (1 / 10) || Rltb 10 v
                      | None => false
                      end = false) <->
                     match DcaAdmin.dca_order_size_multiplier c with
                     | Some v => 1 / 10 <= v <= 10
                     | None => True
                     end)
    by (destruct (DcaAdmin.dca_order_size_multiplier c) as [v|]; [|tauto];
        rewrite orb_false_iff, !Rltb_false; tauto).
  all: destruct (match DcaAdmin.take_profit_pct c with
                 | Some v => Rleb v 0 || Rltb 1000 v
                 | None => false
                 end);
    [split; [discriminate | intros (_ & _ & _ & _ & H & _); apply Htp in H; discriminate]|].
  all: destruct (Z.ltb_spec (DcaAdmin.max_dca_orders c) 1) as [E5 | E5];
    [split; [discriminate | intros (_ & _ & _ & _ & _ & H & _); lia]|];
    destruct (Z.ltb_spec 100 (DcaAdmin.max_dca_orders c)) as [E5' | E5'];
    [split; [discriminate | intros (_ & _ & _ & _ & _ & H & _); lia]|]; cbn [orb].
  all: destruct (match DcaAdmin.stop_loss_pct c with
                 | Some v => Rleb v 0 || Rltb 100 v
                 | None => false
                 end);
    [split; [discriminate
            | intros (_ & _ & _ & _ & _ & _ & H & _); apply Hsl in H; discriminate]|].
  all: destruct (match DcaAdmin.price_deviation_multiplier c with
                 | Some v => Rltb v (1 / 10) || Rltb 10 v
                 | None => false
                 end);
    [split; [discriminate
            | intros (_ & _ & _ & _ & _ & _ & _ & H & _); apply Hpm in H; discriminate]|].
  all: destruct (match DcaAdmin.dca_order_size_multiplier c with
                 | Some v => Rltb v (1 / 10) || Rltb 10 v
                 | None => false
                 end);
    [split; [discriminate
            | intros (_ & _ & _ & _ & _ & _ & _ & _ & H); apply Hsm in H; discriminate]|].
  all: split; [intros _ | reflexivity].
  all: repeat split; try lra; try lia; try assumption; try tauto;
    try (now apply Htp); try (now apply Hsl); try (now apply Hpm); try (now apply Hsm).
Qed.

Lemma dca_config_acceptable : acceptable dca_config /\ acceptable dca_config_no_account.
Proof.
  split; unfold acceptable, when_given; cbn; repeat split;
    try lra; try lia; try discriminate; now left.
Qed.

(** The row that [create_dca_bot] inserts for an accepted call. *)
Lemma create_accepted (d : Db.t) (c : DcaAdmin.config) :
  acceptable c ->
  DcaAdmin.create_dca_bot d c
  = (set_dca_bots d
       (dca_bots d ++
        [{| dc_id := next_id (map dc_id (dca_bots d));
            dc_user_id := DcaAdmin.user_id c;
            dc_exchange_account_id := DcaAdmin.exchange_account_id c;
            dc_symbol := DcaAdmin.symbol c;
            dc_buy_amount := DcaAdmin.buy_amount c;
            dc_interval_description :=
              if (DcaAdmin.interval_description c =? "")%string then "Weekly"
              else DcaAdmin.interval_description c;
            dc_side := DcaAdmin.side c;
            dc_is_active := 1;
            dc_execution_count := 0 |}]),
     inr {| DcaAdmin.bot_id := next_id (map dc_id (dca_bots d));
            DcaAdmin.interval :=
              if (DcaAdmin.interval_description c =? "")%string then "Weekly"
              else DcaAdmin.interval_description c;
            DcaAdmin.base_size :=
              from_option (DcaAdmin.base_order_size c) (DcaAdmin.buy_amount c);
            DcaAdmin.dca_size :=
              from_option (DcaAdmin.dca_order_size c) (DcaAdmin.buy_amount c) |}).
Proof.
  intros Hok. apply validate_acceptable in Hok.
  unfold DcaAdmin.create_dca_bot. now rewrite Hok.
Qed.

(** [create_dca_bot] accepts exactly the calls whose arguments lie in the
    ranges that its error messages name.  An accepted call appends one
    active row with a fresh id and no execution, with ['Weekly'] for an
    empty interval and [buy_amount] for an order size that is left out; a
    refused call leaves the store as it was. *)
Theorem dca_create_checks_the_ranges (d : Db.t) (c : DcaAdmin.config) :
  (acceptable c ->
   exists d1 r row,
     DcaAdmin.create_dca_bot d c = (d1, inr r) /\
     dca_bots d1 = (dca_bots d ++ [row])%list /\
     (forall b, In b (dca_bots d) -> dc_id b <> DcaAdmin.bot_id r) /\
     dc_id row = DcaAdmin.bot_id r /\ dc_user_id row = DcaAdmin.user_id c /\
     dc_symbol row = DcaAdmin.symbol c /\ dc_side row = DcaAdmin.side c /\
     dc_buy_amount row = DcaAdmin.buy_amount c /\
     dc_is_active row = 1%Z /\ dc_execution_count row = 0%Z /\
     (DcaAdmin.interval_description c = "" -> dc_interval_description row = "Weekly") /\
     (DcaAdmin.base_order_size c = None -> DcaAdmin.base_size r = DcaAdmin.buy_amount c) /\
     (DcaAdmin.dca_order_size c = None -> DcaAdmin.dca_size r = DcaAdmin.buy_amount c) /\
     users d1 = users d /\ exchange_trade_logs d1 = exchange_trade_logs d /\
     exchange_accounts d1 = exchange_accounts d /\ grid_bots d1 = grid_bots d) /\
  (~ acceptable c -> exists e, DcaAdmin.create_dca_bot d c = (d, inl e)).
Proof.
  split.
  - intros Hok. rewrite (create_accepted d c Hok).
    eexists _, _, _. split; [reflexivity|].
    cbn [dca_bots set_dca_bots DcaAdmin.bot_id DcaAdmin.base_size DcaAdmin.dca_size
         dc_id dc_user_id dc_symbol dc_side dc_buy_amount dc_is_active dc_execution_count
         dc_interval_description users exchange_trade_logs exchange_accounts grid_bots].
    split; [reflexivity|]. split.
    { intros b Hb Heq.
      pose proof (next_id_fresh (map dc_id (dca_bots d)) (dc_id b)
                    (in_map dc_id _ _ Hb)). lia. }
    repeat split; try reflexivity.
    + now intros ->.
    + now intros ->.
    + now intros ->.
  - intros Hno. unfold DcaAdmin.create_dca_bot.
    destruct (DcaAdmin.validate c) as [e|] eqn:E; [now exists e|].
    exfalso. apply Hno. now apply validate_acceptable.
Qed.

Lemma dca_create_checks_the_ranges_witness :
  exists d1 r row,
    DcaAdmin.create_dca_bot db_dca dca_config = (d1, inr r) /\
    dca_bots d1 = [dca_sell; row] /\ dc_id row = 2%Z /\ dc_is_active row = 1%Z.
Proof.
  destruct (proj1 (dca_create_checks_the_ranges db_dca dca_config)
              (proj1 dca_config_acceptable))
    as (d1 & r & row & Hc & Hrows & _ & Hid & _ & _ & _ & _ & Hact & _).
  exists d1, r, row. split; [exact Hc|]. split; [exact Hrows|]. split; [|exact Hact].
  rewrite Hid. rewrite (create_accepted db_dca dca_config (proj1 dca_config_acceptable)) in Hc.
  injection Hc as _ <-. reflexivity.
Defined.

Lemma details_map (p q : dca_bot_row -> bool) (f : dca_bot_row -> dca_bot_row)
    (l : list dca_bot_row) :
  (forall x, p (f x) = p x) -> (forall x, q (f x) = q x) ->
  find p (filter q (map f l)) = option_map f (find p (filter q l)).
Proof.
  intros Hp Hq. induction l as [|x l IH]; [reflexivity|].
  cbn [map filter]. rewrite Hq. destruct (q x); [|exact IH].
  cbn [find]. rewrite Hp. now destruct (p x).
Qed.

Lemma details_filter (p q keep : dca_bot_row -> bool) (l : list dca_bot_row) :
  (forall x, p x = true -> keep x = true) ->
  find p (filter q (filter keep l)) = find p (filter q l).
Proof.
  intros Hk. induction l as [|x l IH]; [reflexivity|].
  cbn [filter]. destruct (keep x) eqn:Ek; cbn [filter].
  - destruct (q x); [|exact IH]. cbn [find]. now rewrite IH.
  - destruct (q x); [|exact IH]. cbn [find].
    destruct (p x) eqn:Ep; [|exact IH]. rewrite (Hk x Ep) in Ek. discriminate.
Qed.

Lemma owned_pair (bid uid bid' uid' : Z) (x : dca_bot_row) :
  (bid', uid') <> (bid, uid) ->
  (dc_id x =? bid')%Z && (dc_user_id x =? uid')%Z = true ->
  DcaAdmin.owned bid uid x = false.
Proof.
  intros Hne Hp. apply andb_prop in Hp as [H1 H2].
  apply Z.eqb_eq in H1, H2. unfold DcaAdmin.owned.
  destruct (Z.eqb_spec (dc_id x) bid) as [E1|]; [|reflexivity].
  destruct (Z.eqb_spec (dc_user_id x) uid) as [E2|]; [|reflexivity].
  exfalso. apply Hne. congruence.
Qed.

Lemma rowcount_positive (d : Db.t) (bid uid : Z) :
  (0 <? List.length (filter (DcaAdmin.owned bid uid) (dca_bots d)))%nat = true
  <-> dca_row_exists d bid uid.
Proof.
  unfold dca_row_exists. split.
  - intros H. destruct (filter (DcaAdmin.owned bid uid) (dca_bots d)) as [|b rest] eqn:E;
      [discriminate|].
    assert (Hin : In b (filter (DcaAdmin.owned bid uid) (dca_bots d)))
      by (rewrite E; now left).
    apply filter_In in Hin as [Hin Ho]. apply andb_prop in Ho as [H1 H2].
    exists b. split; [exact Hin|]. split; now apply Z.eqb_eq.
  - intros (b & Hin & H1 & H2).
    assert (Hf : In b (filter (DcaAdmin.owned bid uid) (dca_bots d))).
    { apply filter_In. split; [exact Hin|]. unfold DcaAdmin.owned.
      now rewrite H1, H2, !Z.eqb_refl. }
    destruct (filter (DcaAdmin.owned bid uid) (dca_bots d)); [destruct Hf | reflexivity].
Qed.

(** [get_dca_bot_details] joins the bot with its exchange account, so a bot
    that was created with the id of an account that does not exist is
    stored, and can be stopped, but is never found: its cycle reports that
    the bot does not exist.  With any existing account id, also one of
    another user, the new bot is found as created. *)
Theorem dca_bot_without_account_is_invisible (live : bool) (w : World.t)
    (c : DcaAdmin.config) (d1 : Db.t) (r : DcaAdmin.created) :
  DcaAdmin.create_dca_bot (db w) c = (d1, inr r) ->
  let bid := DcaAdmin.bot_id r in
  let uid := DcaAdmin.user_id c in
  ((forall a, In a (exchange_accounts (db w)) -> ea_id a <> DcaAdmin.exchange_account_id c) ->
   get_dca_bot_details d1 bid uid = None /\
   run_dca_cycle live (set_db w d1) bid uid
   = (set_db w d1, CycleFailed "DCA bot not found or access denied") /\
   DcaAdmin.get_dca_statistics d1 bid uid = None /\
   snd (DcaAdmin.stop_dca_bot d1 bid uid) = inr tt) /\
  ((exists a, In a (exchange_accounts (db w)) /\ ea_id a = DcaAdmin.exchange_account_id c) ->
   exists row,
     get_dca_bot_details d1 bid uid = Some row /\
     dc_id row = bid /\ dc_is_active row = 1%Z /\ dc_execution_count row = 0%Z /\
     dc_side row = DcaAdmin.side c /\ dc_buy_amount row = DcaAdmin.buy_amount c).
Proof.
  intros Hc bid uid.
  assert (Hok : acceptable c).
  { apply validate_acceptable. unfold DcaAdmin.create_dca_bot in Hc.
    now destruct (DcaAdmin.validate c). }
  rewrite (create_accepted (db w) c Hok) in Hc. injection Hc as <- <-.
  subst bid uid. cbn [DcaAdmin.bot_id].
  set (bid := next_id (map dc_id (dca_bots (db w)))).
  set (row := {| dc_id := bid; dc_user_id := DcaAdmin.user_id c;
                 dc_exchange_account_id := DcaAdmin.exchange_account_id c;
                 dc_symbol := DcaAdmin.symbol c; dc_buy_amount := DcaAdmin.buy_amount c;
                 dc_interval_description :=
                   if (DcaAdmin.interval_description c =? "")%string then "Weekly"
                   else DcaAdmin.interval_description c;
                 dc_side := DcaAdmin.side c; dc_is_active := 1;
                 dc_execution_count := 0 |}).
  assert (Hold : forall q,
             find (fun b => (dc_id b =? bid)%Z && (dc_user_id b =? DcaAdmin.user_id c)%Z)
               (filter q (dca_bots (db w))) = None).
  { intros q. apply find_none_forall. intros x Hx. apply filter_In in Hx as [Hx _].
    pose proof (next_id_fresh (map dc_id (dca_bots (db w))) (dc_id x)
                  (in_map dc_id _ _ Hx)) as Hlt. fold bid in Hlt.
    destruct (Z.eqb_spec (dc_id x) bid); [lia | reflexivity]. }
  assert (Hdet : get_dca_bot_details
                   (set_dca_bots (db w) (dca_bots (db w) ++ [row])) bid (DcaAdmin.user_id c)
                 = if existsb (fun a => (ea_id a =? DcaAdmin.exchange_account_id c)%Z)
                        (exchange_accounts (db w))
                   then Some row else None).
  { unfold get_dca_bot_details. cbn [dca_bots exchange_accounts set_dca_bots].
    rewrite filter_app, find_app, Hold. cbn [filter dc_exchange_account_id row].
    destruct (existsb (fun a => (ea_id a =? DcaAdmin.exchange_account_id c)%Z)
                (exchange_accounts (db w))); [|reflexivity].
    cbn [find dc_id dc_user_id row]. now rewrite !Z.eqb_refl. }
  split.
  - intros Hnone.
    assert (Hex : existsb (fun a => (ea_id a =? DcaAdmin.exchange_account_id c)%Z)
                    (exchange_accounts (db w)) = false).
    { destruct (existsb _ _) eqn:E; [|reflexivity].
      apply existsb_exists in E as (a & Ha & Heq). apply Z.eqb_eq in Heq.
      now destruct (Hnone a Ha). }
    rewrite Hex in Hdet. split; [exact Hdet|]. split; [|split].
    + unfold run_dca_cycle. cbn [db set_db]. now rewrite Hdet.
    + unfold DcaAdmin.get_dca_statistics. now rewrite Hdet.
    + unfold DcaAdmin.stop_dca_bot.
      assert (Hrc : (0 <? List.length
                            (filter (DcaAdmin.owned bid (DcaAdmin.user_id c))
                               (dca_bots (set_dca_bots (db w) (dca_bots (db w) ++ [row])))))%nat
                    = true).
      { apply rowcount_positive. exists row. cbn [dca_bots set_dca_bots].
        split; [apply in_or_app; right; now left | now split]. }
      now rewrite Hrc.
  - intros (a & Ha & Heq).
    assert (Hex : existsb (fun a => (ea_id a =? DcaAdmin.exchange_account_id c)%Z)
                    (exchange_accounts (db w)) = true).
    { apply existsb_exists. exists a. split; [exact Ha | now apply Z.eqb_eq]. }
    rewrite Hex in Hdet. exists row. now repeat split.
Qed.

Lemma dca_bot_without_account_is_invisible_witness :
  let d1 := fst (DcaAdmin.create_dca_bot db_dca dca_config_no_account) in
  get_dca_bot_details d1 2 1 = None /\
  snd (DcaAdmin.stop_dca_bot d1 2 1) = inr tt.
Proof.
  pose proof (create_accepted db_dca dca_config_no_account (proj2 dca_config_acceptable))
    as Hc.
  destruct (proj1 (dca_bot_without_account_is_invisible false (world_of db_dca [])
                     dca_config_no_account _ _ Hc)) as (H1 & _ & _ & H2).
  { cbn. intros a [<- | []]. cbn. lia. }
  cbv zeta. rewrite Hc. split; [exact H1 | exact H2].
Defined.


Lemma details_ext (d d' : Db.t) (bid uid : Z) :
  dca_bots d' = dca_bots d -> exchange_accounts d' = exchange_accounts d ->
  get_dca_bot_details d' bid uid = get_dca_bot_details d bid uid.
Proof. unfold get_dca_bot_details. now intros -> ->. Qed.

Lemma details_found (d : Db.t) (bid uid : Z) (b : dca_bot_row) :
  get_dca_bot_details d bid uid = Some b ->
  In b (dca_bots d) /\ dc_id b = bid /\ dc_user_id b = uid.
Proof.
  unfold get_dca_bot_details. intros H. apply find_some in H as [Hin Hp].
  apply filter_In in Hin as [Hin _]. apply andb_prop in Hp as [H1 H2].
  split; [exact Hin|]. split; now apply Z.eqb_eq.
Qed.

(** The bot details after the UPDATE of [run_dca_cycle]. *)
Lemma details_after_count (d : Db.t) (bid bid' uid' : Z) :
  get_dca_bot_details (count_execution d bid) bid' uid'
  = option_map
      (fun b =>
         if (dc_id b =? bid)%Z
         then {| dc_id := dc_id b; dc_user_id := dc_user_id b;
                 dc_exchange_account_id := dc_exchange_account_id b;
                 dc_symbol := dc_symbol b; dc_buy_amount := dc_buy_amount b;
                 dc_interval_description := dc_interval_description b;
                 dc_side := dc_side b; dc_is_active := dc_is_active b;
                 dc_execution_count := (dc_execution_count b + 1)%Z |}
         else b)
      (get_dca_bot_details d bid' uid').
Proof.
  unfold get_dca_bot_details, count_execution.
  cbn [dca_bots exchange_accounts set_dca_bots].
  apply details_map; intros x; now destruct (dc_id x =? bid)%Z.
Qed.


(** What the router keeps of the tables that the DCA service reads. *)
Lemma execute_order_keeps_dca (live : bool) (w : World.t) (uid acc : Z)
    (symbol side : string) (amount : R) (mode : option bool) (source : string) :
  let w' := fst (execute_market_order_for_account live w uid acc symbol side amount
                   mode source) in
  dca_bots (db w') = dca_bots (db w) /\
  exchange_accounts (db w') = exchange_accounts (db w).
Proof.
  cbv zeta. split.
  - apply execute_order_frame.
  - unfold execute_market_order_for_account.
    destruct (get_exchange_account_by_id (db w) acc uid) as [account|]; [|easy].
    destruct (negb (from_option mode live)); [easy|].
    destruct (negb (create_exchange_client w (ea_exchange_name account))); [easy|].
    pose proof (place_market_order_db w symbol (lower side) amount) as Hdb.
    destruct (place_market_order w symbol (lower side) amount) as [w1 [o|]];
    [destruct (answer_error o) | ];
      cbn in Hdb |- *; now rewrite Hdb.
Qed.

(** The simulated cycle of an active bot with a usable account, as an
    equation. *)
Lemma cycle_simulated (w : World.t) (bid uid : Z) (bot : dca_bot_row)
    (account : exchange_account_row) :
  get_dca_bot_details (db w) bid uid = Some bot ->
  dc_is_active bot <> 0%Z ->
  get_exchange_account_by_id (db w) (dc_exchange_account_id bot) uid = Some account ->
  let sym := exchange_symbol (dc_symbol bot) in
  let price := match PriceService.get_latest_price (db w) (replace sym "/" "") with
               | Some p => ph_close_price p
               | None => 45000
               end in
  let logged := log_trade_execution (db w) uid (dc_exchange_account_id bot) sym "BUY"
                  (dc_buy_amount bot) price "SIMULATED" (Some ("SIM_" ++ now w))
                  ("dca_bot_" ++ str_of_int bid) 0 None in
  run_dca_cycle false w bid uid
  = (set_db w (count_execution (fst logged) bid),
     CycleOrder (Simulated (snd logged) price (dc_buy_amount bot * price)
                   (ea_exchange_name account))
       (Some (dc_execution_count bot + 1)%Z)).
Proof.
  intros Hd Hact Hacc sym price logged. unfold run_dca_cycle. rewrite Hd.
  destruct (Z.eqb_spec (dc_is_active bot) 0) as [|_]; [contradiction|].
  fold (exchange_symbol (dc_symbol bot)). fold sym.
  rewrite (execute_simulated false w uid (dc_exchange_account_id bot) sym "buy"
             (dc_buy_amount bot) None ("dca_bot_" ++ str_of_int bid) account Hacc eq_refl).
  reflexivity.
Qed.


(** [run_dca_cycle] counts exactly the successful cycles: after a
    successful order the details of the bot show one execution more, which
    is the count that the result reports, and the bot is as active as
    before; after a failed order no bot row has changed; an early error
    changes nothing at all.  The details of every other bot stay as they
    were.  In simulation mode the cycle of an active bot with a usable
    exchange account always succeeds. *)
Theorem dca_cycle_counts_successes (live : bool) (w : World.t) (bid uid : Z) :
  let out := run_dca_cycle live w bid uid in
  match snd out with
  | CycleFailed _ => fst out = w
  | CycleOrder r None => success r = false /\ dca_bots (db (fst out)) = dca_bots (db w)
  | CycleOrder r (Some n) =>
      success r = true /\
      exists bot bot',
        get_dca_bot_details (db w) bid uid = Some bot /\
        get_dca_bot_details (db (fst out)) bid uid = Some bot' /\
        n = (dc_execution_count bot + 1)%Z /\ dc_execution_count bot' = n /\
        dc_is_active bot' = dc_is_active bot
  end /\
  (forall bid' uid', bid' <> bid ->
     get_dca_bot_details (db (fst out)) bid' uid' = get_dca_bot_details (db w) bid' uid') /\
  (live = false ->
   forall bot account,
     get_dca_bot_details (db w) bid uid = Some bot -> dc_is_active bot <> 0%Z ->
     get_exchange_account_by_id (db w) (dc_exchange_account_id bot) uid = Some account ->
     exists r, snd out = CycleOrder r (Some (dc_execution_count bot + 1)%Z)).
Proof.
  intros out. split; [|split].
  - unfold out, run_dca_cycle.
    destruct (get_dca_bot_details (db w) bid uid) as [bot|] eqn:Hd; [|reflexivity].
    destruct (dc_is_active bot =? 0)%Z; [reflexivity|].
    pose proof (execute_order_keeps_dca live w uid (dc_exchange_account_id bot)
                  (if negb (contains "/" (dc_symbol bot))
                   then replace (dc_symbol bot) "USDT" "/USDT" else dc_symbol bot)
                  "buy" (dc_buy_amount bot) None ("dca_bot_" ++ str_of_int bid))
      as [Hbots Haccs].
    destruct (execute_market_order_for_account live w uid (dc_exchange_account_id bot)
                (if negb (contains "/" (dc_symbol bot))
                 then replace (dc_symbol bot) "USDT" "/USDT" else dc_symbol bot)
                "buy" (dc_buy_amount bot) None ("dca_bot_" ++ str_of_int bid)) as [w1 r].
    cbn [fst] in Hbots, Haccs.
    destruct (success r) eqn:Hs; cbn [fst snd]; [|split; [exact Hs | exact Hbots]].
    split; [exact Hs|].
    destruct (details_found _ _ _ _ Hd) as (_ & Hid & _).
    eexists bot, _. split; [reflexivity|]. cbn [db set_db].
    rewrite details_after_count, (details_ext (db w) (db w1) bid uid Hbots Haccs), Hd.
    cbn [option_map]. rewrite Hid, Z.eqb_refl. now repeat split.
  - intros bid' uid' Hne. unfold out, run_dca_cycle.
    destruct (get_dca_bot_details (db w) bid uid) as [bot|] eqn:Hd; [|reflexivity].
    destruct (dc_is_active bot =? 0)%Z; [reflexivity|].
    pose proof (execute_order_keeps_dca live w uid (dc_exchange_account_id bot)
                  (if negb (contains "/" (dc_symbol bot))
                   then replace (dc_symbol bot) "USDT" "/USDT" else dc_symbol bot)
                  "buy" (dc_buy_amount bot) None ("dca_bot_" ++ str_of_int bid))
      as [Hbots Haccs].
    destruct (execute_market_order_for_account live w uid (dc_exchange_account_id bot)
                (if negb (contains "/" (dc_symbol bot))
                 then replace (dc_symbol bot) "USDT" "/USDT" else dc_symbol bot)
                "buy" (dc_buy_amount bot) None ("dca_bot_" ++ str_of_int bid)) as [w1 r].
    cbn [fst] in Hbots, Haccs.
    destruct (success r); cbn [fst snd db set_db].
    + rewrite details_after_count, (details_ext (db w) (db w1) bid' uid' Hbots Haccs).
      destruct (get_dca_bot_details (db w) bid' uid') as [b|] eqn:Hb; [|reflexivity].
      destruct (details_found _ _ _ _ Hb) as (_ & Hid & _). cbn [option_map].
      destruct (Z.eqb_spec (dc_id b) bid); [congruence | reflexivity].
    + apply details_ext; assumption.
  - intros -> bot account Hd Hact Hacc. unfold out.
    rewrite (cycle_simulated w bid uid bot account Hd Hact Hacc). cbn [snd].
    eexists. reflexivity.
Qed.

Lemma dca_cycle_counts_successes_witness :
  exists r, snd (run_dca_cycle false (world_of db_dca []) 1 1) = CycleOrder r (Some 1%Z).
Proof.
  refine (proj2 (proj2 (dca_cycle_counts_successes false (world_of db_dca []) 1 1))
            eq_refl dca_sell account1 eq_refl _ eq_refl).
  cbn. lia.
Defined.

Lemma stop_map_idem (bid uid : Z) (l : list dca_bot_row) :
  let f := fun b =>
             if DcaAdmin.owned bid uid b
             then {| dc_id := dc_id b; dc_user_id := dc_user_id b;
                     dc_exchange_account_id := dc_exchange_account_id b;
                     dc_symbol := dc_symbol b; dc_buy_amount := dc_buy_amount b;
                     dc_interval_description := dc_interval_description b;
                     dc_side := dc_side b; dc_is_active := 0;
                     dc_execution_count := dc_execution_count b |}
             else b in
  map f (map f l) = map f l /\
  List.length (filter (DcaAdmin.owned bid uid) (map f l))
  = List.length (filter (DcaAdmin.owned bid uid) l).
Proof.
  intros f. induction l as [|x l [IH1 IH2]]; [now split|].
  cbn [map filter]. rewrite IH1.
  assert (Ho : DcaAdmin.owned bid uid (f x) = DcaAdmin.owned bid uid x).
  { unfold f. destruct (DcaAdmin.owned bid uid x) eqn:E; [|exact E]. exact E. }
  assert (Hf : f (f x) = f x).
  { unfold f at 1. rewrite Ho. unfold f.
    destruct (DcaAdmin.owned bid uid x) eqn:E; [|reflexivity]. reflexivity. }
  rewrite Hf, Ho. split; [reflexivity|].
  destruct (DcaAdmin.owned bid uid x); cbn [List.length]; now rewrite IH2.
Qed.

(** [stop_dca_bot] succeeds exactly when the user has a bot of this id.
    Afterwards a cycle of the bot fails before any order and changes
    nothing; the details of every other bot, and of the same id seen by
    another user, are as before; trade log and balances are untouched; and
    stopping again gives the same answer and the same store. *)
Theorem dca_stop_blocks_the_cycle (live : bool) (w : World.t) (bid uid : Z) :
  let out := DcaAdmin.stop_dca_bot (db w) bid uid in
  let w1 := set_db w (fst out) in
  (snd out = inr tt <-> dca_row_exists (db w) bid uid) /\
  (exists e, run_dca_cycle live w1 bid uid = (w1, CycleFailed e)) /\
  (forall bid' uid', (bid', uid') <> (bid, uid) ->
     get_dca_bot_details (fst out) bid' uid' = get_dca_bot_details (db w) bid' uid') /\
  exchange_trade_logs (fst out) = exchange_trade_logs (db w) /\
  users (fst out) = users (db w) /\
  DcaAdmin.stop_dca_bot (fst out) bid uid = out.
Proof.
  intros out w1.
  set (f := fun b =>
              if DcaAdmin.owned bid uid b
              then {| dc_id := dc_id b; dc_user_id := dc_user_id b;
                      dc_exchange_account_id := dc_exchange_account_id b;
                      dc_symbol := dc_symbol b; dc_buy_amount := dc_buy_amount b;
                      dc_interval_description := dc_interval_description b;
                      dc_side := dc_side b; dc_is_active := 0;
                      dc_execution_count := dc_execution_count b |}
              else b).
  assert (Hfst : fst out = set_dca_bots (db w) (map f (dca_bots (db w)))).
  { unfold out, DcaAdmin.stop_dca_bot.
    now destruct (0 <? List.length (filter (DcaAdmin.owned bid uid) (dca_bots (db w))))%nat. }
  assert (Hsnd : snd out
                 = if (0 <? List.length (filter (DcaAdmin.owned bid uid)
                                            (dca_bots (db w))))%nat
                   then inr tt else inl DcaAdmin.BotNotFound).
  { unfold out, DcaAdmin.stop_dca_bot.
    now destruct (0 <? List.length (filter (DcaAdmin.owned bid uid) (dca_bots (db w))))%nat. }
  assert (Hdet : forall bid' uid',
             get_dca_bot_details (fst out) bid' uid'
             = option_map f (get_dca_bot_details (db w) bid' uid')).
  { intros bid' uid'. rewrite Hfst. unfold get_dca_bot_details.
    cbn [dca_bots exchange_accounts set_dca_bots].
    apply details_map; intros x; unfold f; now destruct (DcaAdmin.owned bid uid x). }
  split; [|split; [|split; [|split; [|split]]]].
  - rewrite Hsnd, <- rowcount_positive.
    destruct (0 <? List.length (filter (DcaAdmin.owned bid uid) (dca_bots (db w))))%nat;
      split; intros; try reflexivity; discriminate.
  - unfold run_dca_cycle, w1. cbn [db set_db]. rewrite Hdet.
    destruct (get_dca_bot_details (db w) bid uid) as [b|] eqn:Hb; cbn [option_map].
    + destruct (details_found _ _ _ _ Hb) as (_ & Hid & Hu).
      assert (Ho : DcaAdmin.owned bid uid b = true)
        by (unfold DcaAdmin.owned; now rewrite Hid, Hu, !Z.eqb_refl).
      unfold f. rewrite Ho. cbn [dc_is_active Z.eqb]. eexists. reflexivity.
    + eexists. reflexivity.
  - intros bid' uid' Hne. rewrite Hdet.
    destruct (get_dca_bot_details (db w) bid' uid') as [b|] eqn:Hb; [|reflexivity].
    cbn [option_map]. unfold get_dca_bot_details in Hb.
    apply find_some in Hb as [_ Hp].
    unfold f. now rewrite (owned_pair bid uid bid' uid' b Hne Hp).
  - now rewrite Hfst.
  - now rewrite Hfst.
  - destruct (stop_map_idem bid uid (dca_bots (db w))) as [Hidem Hlen].
    fold f in Hidem, Hlen.
    destruct out as [d1 res] eqn:Eout. cbn [fst snd] in *. subst d1.
    unfold DcaAdmin.stop_dca_bot. cbn [dca_bots set_dca_bots].
    fold f. rewrite Hidem, Hlen, Hsnd.
    now destruct (0 <? List.length (filter (DcaAdmin.owned bid uid) (dca_bots (db w))))%nat.
Qed.

Lemma dca_stop_blocks_the_cycle_witness :
  snd (DcaAdmin.stop_dca_bot db_dca 1 1) = inr tt /\
  exists e,
    run_dca_cycle false (set_db (world_of db_dca []) (fst (DcaAdmin.stop_dca_bot db_dca 1 1)))
      1 1
    = (set_db (world_of db_dca []) (fst (DcaAdmin.stop_dca_bot db_dca 1 1)), CycleFailed e).
Proof.
  destruct (dca_stop_blocks_the_cycle false (world_of db_dca []) 1 1) as (Hiff & Hrun & _).
  split; [|exact Hrun].
  apply Hiff. exists dca_sell. split; [now left | now split].
Defined.

Lemma filter_negb_none {A : Type} (p : A -> bool) (l : list A) :
  filter p (filter (fun x => negb (p x)) l) = [].
Proof.
  induction l as [|x l IH]; [reflexivity|].
  cbn [filter]. destruct (p x) eqn:E; cbn [negb filter]; [exact IH | now rewrite E].
Qed.

(** [delete_dca_bot] succeeds exactly when the user has a bot of this id.
    Afterwards the bot is not found, its cycle and its statistics report
    that it does not exist, and a second delete is refused; the rows that
    the bot wrote to the trade log are kept, and the details of every other
    bot are as before. *)
Theorem dca_delete_forgets_the_bot (live : bool) (w : World.t) (bid uid : Z) :
  let out := DcaAdmin.delete_dca_bot (db w) bid uid in
  let w1 := set_db w (fst out) in
  (snd out = inr tt <-> dca_row_exists (db w) bid uid) /\
  get_dca_bot_details (fst out) bid uid = None /\
  run_dca_cycle live w1 bid uid = (w1, CycleFailed "DCA bot not found or access denied") /\
  DcaAdmin.get_dca_statistics (fst out) bid uid = None /\
  (forall bid' uid', (bid', uid') <> (bid, uid) ->
     get_dca_bot_details (fst out) bid' uid' = get_dca_bot_details (db w) bid' uid') /\
  exchange_trade_logs (fst out) = exchange_trade_logs (db w) /\
  snd (DcaAdmin.delete_dca_bot (fst out) bid uid) = inl DcaAdmin.BotNotFound.
Proof.
  intros out w1.
  assert (Hfst : fst out
                 = set_dca_bots (db w)
                     (filter (fun b => negb (DcaAdmin.owned bid uid b)) (dca_bots (db w)))).
  { unfold out, DcaAdmin.delete_dca_bot.
    now destruct (0 <? List.length (filter (DcaAdmin.owned bid uid) (dca_bots (db w))))%nat. }
  assert (Hsnd : snd out
                 = if (0 <? List.length (filter (DcaAdmin.owned bid uid)
                                            (dca_bots (db w))))%nat
                   then inr tt else inl DcaAdmin.BotNotFound).
  { unfold out, DcaAdmin.delete_dca_bot.
    now destruct (0 <? List.length (filter (DcaAdmin.owned bid uid) (dca_bots (db w))))%nat. }
  assert (Hgone : get_dca_bot_details (fst out) bid uid = None).
  { rewrite Hfst. unfold get_dca_bot_details. cbn [dca_bots exchange_accounts set_dca_bots].
    apply find_none_forall. intros x Hx. apply filter_In in Hx as [Hx _].
    apply filter_In in Hx as [_ Hx]. unfold DcaAdmin.owned in Hx.
    now destruct ((dc_id x =? bid)%Z && (dc_user_id x =? uid)%Z). }
  split; [|split; [|split; [|split; [|split; [|split]]]]].
  - rewrite Hsnd, <- rowcount_positive.
    destruct (0 <? List.length (filter (DcaAdmin.owned bid uid) (dca_bots (db w))))%nat;
      split; intros; try reflexivity; discriminate.
  - exact Hgone.
  - unfold run_dca_cycle, w1. cbn [db set_db]. now rewrite Hgone.
  - unfold DcaAdmin.get_dca_statistics. now rewrite Hgone.
  - intros bid' uid' Hne. rewrite Hfst. unfold get_dca_bot_details.
    cbn [dca_bots exchange_accounts set_dca_bots].
    apply details_filter. intros x Hp.
    now rewrite (owned_pair bid uid bid' uid' x Hne Hp).
  - now rewrite Hfst.
  - unfold DcaAdmin.delete_dca_bot.
    assert (Hnone : filter (DcaAdmin.owned bid uid) (dca_bots (fst out)) = []).
    { rewrite Hfst. cbn [dca_bots set_dca_bots]. apply filter_negb_none. }
    now rewrite Hnone.
Qed.

Lemma dca_delete_forgets_the_bot_witness :
  snd (DcaAdmin.delete_dca_bot db_dca 1 1) = inr tt /\
  get_dca_bot_details (fst (DcaAdmin.delete_dca_bot db_dca 1 1)) 1 1 = None.
Proof.
  destruct (dca_delete_forgets_the_bot false (world_of db_dca []) 1 1)
    as (Hiff & Hgone & _).
  split; [|exact Hgone].
  apply Hiff. exists dca_sell. split; [now left | now split].
Defined.






(** What a cycle logs and sends carries the side buy. *)
Lemma cycle_sides (live : bool) (w : World.t) (bid uid : Z) :
  let out := run_dca_cycle live w bid uid in
  (exists rows,
     exchange_trade_logs (db (fst out)) = (exchange_trade_logs (db w) ++ rows)%list /\
     Forall (fun r => tl_side r = "BUY") rows) /\
  (exists sent,
     ex_orders (fst out) = (ex_orders w ++ sent)%list /\
     Forall (fun o => so_side o = "buy") sent).
Proof.
  intros out. unfold out, run_dca_cycle.
  destruct (get_dca_bot_details (db w) bid uid) as [bot|];
    [|split; exists []; now rewrite app_nil_r].
  destruct (dc_is_active bot =? 0)%Z; [split; exists []; now rewrite app_nil_r|].
  pose proof (execute_order_sides live w uid (dc_exchange_account_id bot)
                (if negb (contains "/" (dc_symbol bot))
                 then replace (dc_symbol bot) "USDT" "/USDT" else dc_symbol bot)
                "buy" (dc_buy_amount bot) None ("dca_bot_" ++ str_of_int bid)) as Hsides.
  cbv zeta in Hsides. change (upper "buy") with "BUY" in Hsides.
  change (lower (lower "buy")) with "buy" in Hsides.
  destruct (execute_market_order_for_account live w uid (dc_exchange_account_id bot)
              (if negb (contains "/" (dc_symbol bot))
               then replace (dc_symbol bot) "USDT" "/USDT" else dc_symbol bot)
              "buy" (dc_buy_amount bot) None ("dca_bot_" ++ str_of_int bid)) as [w1 r].
  cbn [fst] in Hsides. destruct (success r); cbn; exact Hsides.
Qed.

(** The run route gates the cycle by the stored side of the bot: a bot that
    is not found or whose cycle the trend gate suppresses leaves the world
    as it was and sends nothing; an approved cycle is [run_dca_cycle].  The
    stored side only selects the gate: whatever the route logs or sends is
    a buy, also for a bot of side SELL that the SELL gate approved. *)
Theorem dca_route_gates_by_side_and_buys (live : bool)
    (ema_context_of : string -> ema_context) (w : World.t) (bid uid : Z) :
  let out := Routes.api_run_dca_bot live ema_context_of w bid uid in
  (get_dca_bot_details (db w) bid uid = None -> out = (w, Routes.RunNotFound)) /\
  (forall bot,
     get_dca_bot_details (db w) bid uid = Some bot ->
     let gate := should_dca_bot_execute (ema_context_of (dc_symbol bot)) (dc_side bot) in
     (fst gate = false -> out = (w, Routes.RunSkipped (snd gate) (dc_side bot))) /\
     (fst gate = true ->
      out = (fst (run_dca_cycle live w bid uid),
             Routes.RunExecuted (snd (run_dca_cycle live w bid uid)) (snd gate)
               (dc_side bot)))) /\
  (exists rows,
     exchange_trade_logs (db (fst out)) = (exchange_trade_logs (db w) ++ rows)%list /\
     Forall (fun r => tl_side r = "BUY") rows) /\
  (exists sent,
     ex_orders (fst out) = (ex_orders w ++ sent)%list /\
     Forall (fun o => so_side o = "buy") sent).
Proof.
  intros out. unfold out, Routes.api_run_dca_bot.
  pose proof (cycle_sides live w bid uid) as Hsides. cbv zeta in Hsides.
  destruct (get_dca_bot_details (db w) bid uid) as [bot|] eqn:Hd.
  2:{ split; [reflexivity|]. split; [discriminate|].
      split; exists []; now rewrite app_nil_r. }
  split; [discriminate|].
  destruct (should_dca_bot_execute (ema_context_of (dc_symbol bot)) (dc_side bot))
    as [go why] eqn:Hg.
  destruct go; cbn [negb].
  - destruct (run_dca_cycle live w bid uid) as [w1 r]. cbn [fst snd] in *.
    split; [|exact Hsides].
    intros b [= <-]. rewrite Hg. cbn [fst snd]. split; [discriminate | reflexivity].
  - split.
    + intros b [= <-]. rewrite Hg. cbn [fst snd]. split; [reflexivity | discriminate].
    + split; exists []; now rewrite app_nil_r.
Qed.

Lemma dca_route_gates_by_side_and_buys_witness :
  Routes.api_run_dca_bot false (fun _ => uptrend_death_ctx) (world_of db_dca []) 1 1
  = (fst (run_dca_cycle false (world_of db_dca []) 1 1),
     Routes.RunExecuted (snd (run_dca_cycle false (world_of db_dca []) 1 1))
       DeathCrossSell "SELL").
Proof.
  exact (proj2 (proj1 (proj2 (dca_route_gates_by_side_and_buys false
                                (fun _ => uptrend_death_ctx) (world_of db_dca []) 1 1))
                  dca_sell eq_refl) eq_refl).
Defined.

End DcaMore.
(** * The grid engine on doubles: proofs *)

Section B64Orders.
Import PrimFloat Py.
Import Binary64.
Import Num Db World Exchange OrderExecution Obs.


Lemma b64_place_market_order_db (w : World.t) (symbol side : string) (amount : float) :
  db (fst (place_market_order w symbol side amount)) = db w.
Proof.
  unfold place_market_order.
  repeat match goal with
         | |- context [if ?b then _ else _] => destruct b
         end; reflexivity.
Qed.

(** The order router writes to the trade log only: levels, bots and users
    are as before. *)
Lemma b64_execute_order_frame (live : bool) (w : World.t) (uid acc : Z)
    (symbol side : string) (amount : float) (mode : option bool) (source : string) :
  let w' := fst (execute_market_order_for_account live w uid acc symbol side amount
                   mode source) in
  grid_levels (db w') = grid_levels (db w) /\
  grid_bots (db w') = grid_bots (db w) /\
  users (db w') = users (db w).
Proof.
  unfold execute_market_order_for_account.
  destruct (get_exchange_account_by_id (db w) acc uid) as [account|]; [|easy].
  destruct (negb (OrderExecution.from_option mode live)); [easy|].
  destruct (negb (create_exchange_client w (Db.ea_exchange_name account))); [easy|].
  pose proof (b64_place_market_order_db w symbol (lower side) amount) as Hdb.
  destruct (place_market_order w symbol (lower side) amount) as [w1 [o|]];
    [destruct (answer_error o) | ];
    cbn in Hdb |- *; now rewrite Hdb.
Qed.

Lemma b64_level_state_ext (d d' : Db.t) (id : Z) :
  grid_levels d = grid_levels d' -> level_state d id = level_state d' id.
Proof. unfold level_state. now intros ->. Qed.

Lemma b64_find_map_id (id lid : Z) (rows : list grid_level_row) :
  let f := fun l : grid_level_row =>
             if (gl_id l =? lid)%Z
             then {| gl_id := gl_id l; gl_bot_id := gl_bot_id l;
                     gl_level_price := gl_level_price l;
                     gl_order_type := gl_order_type l; gl_is_filled := 1 |}
             else l in
  find (fun l => (gl_id l =? id)%Z) (map f rows)
  = option_map f (find (fun l => (gl_id l =? id)%Z) rows).
Proof.
  intros f. induction rows as [|r rows IH]; [reflexivity|].
  cbn [map find].
  assert (Hid : gl_id (f r) = gl_id r) by (unfold f; now destruct (gl_id r =? lid)%Z).
  rewrite Hid. destruct (gl_id r =? id)%Z; [reflexivity | exact IH].
Qed.

Lemma b64_level_state_mark_same (d : Db.t) (lid : Z) :
  level_state d lid <> None -> level_state (mark_filled d lid) lid = Some 1%Z.
Proof.
  unfold level_state, mark_filled. cbn [grid_levels set_grid_levels].
  rewrite b64_find_map_id.
  destruct (find (fun l => (gl_id l =? lid)%Z) (grid_levels d)) as [r|] eqn:Hf; [|easy].
  intros _. apply find_some in Hf as [_ Hr]. cbn. now rewrite Hr.
Qed.

Lemma b64_level_state_mark_other (d : Db.t) (lid id : Z) :
  id <> lid -> level_state (mark_filled d lid) id = level_state d id.
Proof.
  intros Hne. unfold level_state, mark_filled. cbn [grid_levels set_grid_levels].
  rewrite b64_find_map_id.
  destruct (find (fun l => (gl_id l =? id)%Z) (grid_levels d)) as [r|] eqn:Hf; [|easy].
  apply find_some in Hf as [_ Hr]. apply Z.eqb_eq in Hr. cbn.
  destruct (Z.eqb_spec (gl_id r) lid); [congruence | reflexivity].
Qed.

Lemma b64_level_state_mark_filled (d : Db.t) (lid id : Z) :
  level_state d id = Some 1%Z -> level_state (mark_filled d lid) id = Some 1%Z.
Proof.
  unfold level_state, mark_filled. cbn [grid_levels set_grid_levels].
  rewrite b64_find_map_id.
  destruct (find (fun l => (gl_id l =? id)%Z) (grid_levels d)) as [r|]; [|easy].
  cbn. intros [= Hr]. destruct (gl_id r =? lid)%Z; cbn; [reflexivity | now rewrite Hr].
Qed.

(** Every row with a marked id is filled afterwards, and filled rows stay
    filled. *)
Lemma b64_mark_filled_rows (d : Db.t) (lid : Z) (r : grid_level_row) :
  In r (grid_levels (mark_filled d lid)) ->
  (gl_id r = lid -> gl_is_filled r = 1%Z) /\
  exists r0, In r0 (grid_levels d) /\ gl_id r0 = gl_id r /\
             (gl_is_filled r0 = 1%Z -> gl_is_filled r = 1%Z).
Proof.
  unfold mark_filled. cbn [grid_levels set_grid_levels].
  intros Hin. apply in_map_iff in Hin as (r0 & <- & Hr0).
  destruct (Z.eqb_spec (gl_id r0) lid) as [Heq | Hne]; cbn.
  - split; [reflexivity|]. exists r0. now repeat split.
  - split; [intros; contradiction|]. exists r0. now repeat split.
Qed.

Section B64Step.
Variables (live : bool) (uid bid acc : Z) (sym : string) (cp amt : float).

Let step := level_step live uid bid acc sym cp amt.

Let order := level_order live uid bid acc sym amt.

Lemma b64_step_filled (st : World.t * list executed) (l : grid_level_row) :
  gl_is_filled l = 1%Z -> step st l = st.
Proof. intros H. unfold step, level_step. destruct st. now rewrite H. Qed.

Lemma b64_step_not_eligible (st : World.t * list executed) (l : grid_level_row) :
  should_execute (gl_order_type l) cp (gl_level_price l) = None -> step st l = st.
Proof.
  intros H. unfold step, level_step. destruct st. rewrite H.
  now destruct (gl_is_filled l =? 1)%Z.
Qed.

Lemma b64_step_eligible (w : World.t) (ex : list executed) (l : grid_level_row)
    (side : string) :
  gl_is_filled l <> 1%Z ->
  should_execute (gl_order_type l) cp (gl_level_price l) = Some side ->
  step (w, ex) l
  = if success (snd (order w side))
    then (set_db (fst (order w side))
            (mark_filled (db (fst (order w side))) (gl_id l)),
          (ex ++ [entry l (snd (order w side))])%list)
    else (fst (order w side), ex).
Proof.
  intros Hf He. unfold step, level_step, order, level_order.
  destruct (Z.eqb_spec (gl_is_filled l) 1); [contradiction|].
  rewrite He.
  now destruct (execute_market_order_for_account live w uid acc sym side amt None
                  ("grid_bot_" ++ str_of_int bid)) as [w1 r].
Qed.

(** One iteration either changes no level and collects nothing, or it is a
    successful order for a pending, eligible level: that level is marked and
    collected. *)
Lemma b64_step_cases (w : World.t) (ex : list executed) (l : grid_level_row) :
  (grid_levels (db (fst (step (w, ex) l))) = grid_levels (db w) /\
   snd (step (w, ex) l) = ex) \/
  (exists side r,
     gl_is_filled l <> 1%Z /\
     should_execute (gl_order_type l) cp (gl_level_price l) = Some side /\
     success r = true /\
     grid_levels (db (fst (step (w, ex) l)))
     = grid_levels (mark_filled (db w) (gl_id l)) /\
     snd (step (w, ex) l) = (ex ++ [entry l r])%list).
Proof.
  destruct (Z.eq_dec (gl_is_filled l) 1) as [Hf | Hf].
  { left. now rewrite b64_step_filled. }
  destruct (should_execute (gl_order_type l) cp (gl_level_price l)) as [side|] eqn:He.
  2:{ left. now rewrite b64_step_not_eligible. }
  rewrite (b64_step_eligible w ex l side Hf He).
  pose proof (b64_execute_order_frame live w uid acc sym side amt None
                ("grid_bot_" ++ str_of_int bid)) as (Hl & _).
  change (execute_market_order_for_account live w uid acc sym side amt None
            ("grid_bot_" ++ str_of_int bid)) with (order w side) in Hl.
  destruct (success (snd (order w side))) eqn:Hs.
  - right. exists side, (snd (order w side)).
    repeat split; try assumption.
    cbn [fst snd db set_db mark_filled grid_levels set_grid_levels]. now rewrite Hl.
  - left. now split.
Qed.

Let run (ls : list grid_level_row) (st : World.t * list executed) :=
  fold_left step ls st.

(** Levels with other ids do not touch the state of level [x], and do not
    add it to the collected list. *)
Lemma b64_run_other (x : Z) (ls : list grid_level_row) (st : World.t * list executed) :
  ~ In x (map gl_id ls) ->
  level_state (db (fst (run ls st))) x = level_state (db (fst st)) x /\
  (In x (executed_ids (snd (run ls st))) -> In x (executed_ids (snd st))).
Proof.
  revert st. induction ls as [|l ls IH]; intros [w ex] Hx; [easy|].
  cbn [map In] in Hx. unfold run in *. cbn [fold_left].
  destruct (IH (step (w, ex) l)) as [IH1 IH2]; [tauto|].
  rewrite IH1. clear IH1.
  destruct (b64_step_cases w ex l) as [[Hl He] | (side & r & _ & _ & _ & Hl & He)].
  - split; [now apply b64_level_state_ext | now rewrite He in IH2].
  - split.
    + rewrite (b64_level_state_ext _ _ x Hl). apply b64_level_state_mark_other.
      intros ->. apply Hx. now left.
    + intros H. specialize (IH2 H). rewrite He in IH2.
      unfold executed_ids in IH2. rewrite map_app in IH2.
      apply in_app_or in IH2 as [H0 | [H0 | []]]; [exact H0|].
      cbn in H0. tauto.
Qed.

(** A filled level stays filled, and what was collected stays collected. *)
Lemma b64_run_keeps (x : Z) (ls : list grid_level_row) (st : World.t * list executed) :
  (level_state (db (fst st)) x = Some 1%Z ->
   level_state (db (fst (run ls st))) x = Some 1%Z) /\
  incl (snd st) (snd (run ls st)).
Proof.
  revert st. induction ls as [|l ls IH]; intros [w ex]; [split; [easy | apply incl_refl]|].
  unfold run in *. cbn [fold_left].
  destruct (IH (step (w, ex) l)) as [IH1 IH2].
  destruct (b64_step_cases w ex l) as [[Hl He] | (side & r & _ & _ & _ & Hl & He)].
  - split.
    + intros H. apply IH1. now rewrite (b64_level_state_ext _ _ x Hl).
    + now rewrite He in IH2.
  - split.
    + intros H. apply IH1. rewrite (b64_level_state_ext _ _ x Hl).
      now apply b64_level_state_mark_filled.
    + rewrite He in IH2. intros e Hin. apply IH2. apply in_or_app. now left.
Qed.

(** Only successful orders are collected. *)
Lemma b64_run_successes (ls : list grid_level_row) (st : World.t * list executed) :
  Forall (fun e => success (exec_result e) = true) (snd st) ->
  Forall (fun e => success (exec_result e) = true) (snd (run ls st)).
Proof.
  revert st. induction ls as [|l ls IH]; intros [w ex] H; [exact H|].
  unfold run in *. cbn [fold_left]. apply IH.
  destruct (b64_step_cases w ex l) as [[_ He] | (side & r & _ & _ & Hs & _ & He)];
    rewrite He; [exact H|].
  apply Forall_app. split; [exact H|]. now repeat constructor.
Qed.

(** Every collected entry comes from a level of the list that was pending
    and eligible when the tick read it. *)
Lemma b64_run_origin (ls : list grid_level_row) (st : World.t * list executed)
    (e : executed) :
  In e (snd (run ls st)) ->
  In e (snd st) \/
  exists l, In l ls /\ gl_id l = level_id e /\ gl_is_filled l <> 1%Z /\
            should_execute (gl_order_type l) cp (gl_level_price l) <> None.
Proof.
  revert st. induction ls as [|l ls IH]; intros [w ex] H; [now left|].
  unfold run in *. cbn [fold_left] in H.
  destruct (IH _ H) as [Hin | (l' & Hl' & Hrest)].
  2:{ right. exists l'. split; [now right | exact Hrest]. }
  destruct (b64_step_cases w ex l) as [[_ He] | (side & r & Hf & Hs & _ & _ & He)];
    rewrite He in Hin; [now left|].
  apply in_app_or in Hin as [Hin | [<- | []]]; [now left|].
  right. exists l. repeat split; [now left | exact Hf | now rewrite Hs].
Qed.

Lemma b64_run_collected_filled (ls : list grid_level_row) (st : World.t * list executed) :
  collected_filled st -> collected_filled (run ls st).
Proof.
  revert st. induction ls as [|l ls IH]; intros [w ex] H; [exact H|].
  unfold run in *. cbn [fold_left]. apply IH. clear IH.
  destruct (b64_step_cases w ex l) as [[Hl He] | (side & r & _ & _ & _ & Hl & He)];
    unfold collected_filled in *; rewrite Hl, He; [exact H|].
  intros e r' He' Hr' Hid.
  destruct (b64_mark_filled_rows _ _ _ Hr') as [Hsame (r0 & Hr0 & Hid0 & Hkeep)].
  apply in_app_or in He' as [He' | [<- | []]].
  - apply Hkeep. apply (H e r0 He' Hr0). cbn in *. congruence.
  - apply Hsame. exact Hid.
Qed.

End B64Step.

Lemma b64_insert_by_price_in (l x : grid_level_row) (ls : list grid_level_row) :
  In x (GridBot.insert_by_price l ls) -> x = l \/ In x ls.
Proof.
  induction ls as [|h t IH]; cbn.
  - intros [<- | []]. now left.
  - destruct (gl_level_price h <? gl_level_price l)%float; cbn.
    + intros [<- | H]; [right; now left|]. destruct (IH H); [now left | right; now right].
    + intros [<- | H]; [now left | now right].
Qed.

Lemma b64_levels_for_bot_in (d : Db.t) (bid : Z) (x : grid_level_row) :
  In x (GridBot.get_levels_for_bot d bid) -> In x (grid_levels d).
Proof.
  unfold GridBot.get_levels_for_bot, GridBot.order_by_price.
  induction (grid_levels d) as [|h t IH]; cbn; [easy|].
  destruct (gl_bot_id h =? bid)%Z; cbn.
  - intros H. apply b64_insert_by_price_in in H as [-> | H]; [now left | right; now apply IH].
  - intros H. right. now apply IH.
Qed.

End B64Orders.

(** ** Price levels on doubles *)

Section B64Levels.
Import PrimFloat Py.
Import Binary64.
Import Num Db GridBot Obs Fixtures.
Set Warnings "-inexact-float".

Lemma nth_error_map_range {A : Type} (f : Z -> A) (n : Z) (i : nat) :
  (i < Z.to_nat n)%nat -> nth_error (map f (range n)) i = Some (f (Z.of_nat i)).
Proof.
  intros Hi. unfold range. rewrite map_map, nth_error_map.
  rewrite nth_error_seq.
  destruct (Nat.ltb_spec i (Z.to_nat n)) as [_ | H]; [reflexivity | lia].
Qed.

Lemma b64_arithmetic_prices (lower upper : float) (n : Z) :
  prices (arithmetic_levels lower upper n)
  = map (fun i => (lower + of_int i * ((upper - lower) / of_int (n - 1)))%float) (range n).
Proof. unfold prices, arithmetic_levels. now rewrite map_map. Qed.

(** When no [math.pow] of the loop raises, the loop yields one level per
    index: its price is [lower] times the power that [math.pow] answered. *)
Lemma b64_geometric_loop_prices (math_pow : float -> float -> option float)
    (lower ratio : float) (n : Z) (indices : list Z) (ls : list level) :
  geometric_loop math_pow lower ratio n indices = Some ls ->
  Forall2 (fun i p => exists q, math_pow ratio (of_int i) = Some q /\ p = (lower * q)%float)
          indices (prices ls).
Proof.
  revert ls. induction indices as [|i rest IH]; intros ls; cbn [geometric_loop].
  - intros [= <-]. constructor.
  - destruct (math_pow ratio (of_int i)) as [q|] eqn:Hq; [|discriminate].
    destruct (geometric_loop math_pow lower ratio n rest) as [ls'|]; [|discriminate].
    intros [= <-]. cbn. constructor; [|now apply IH].
    exists q. now split.
Qed.

Lemma b64_geometric_loop_total (math_pow : float -> float -> option float)
    (lower ratio : float) (n : Z) (indices : list Z) :
  (forall i, In i indices -> math_pow ratio (of_int i) <> None) ->
  exists ls, geometric_loop math_pow lower ratio n indices = Some ls.
Proof.
  induction indices as [|i rest IH]; intros H; cbn [geometric_loop].
  - now exists [].
  - destruct (math_pow ratio (of_int i)) as [q|] eqn:Hq.
    2:{ exfalso. apply (H i); [now left | exact Hq]. }
    destruct IH as [ls Hls]; [intros j Hj; apply H; now right|].
    rewrite Hls. eexists. reflexivity.
Qed.

Lemma Forall2_nth_error {A B : Type} (P : A -> B -> Prop) (l1 : list A) (l2 : list B)
    (i : nat) (a : A) :
  Forall2 P l1 l2 -> nth_error l1 i = Some a ->
  exists b, nth_error l2 i = Some b /\ P a b.
Proof.
  intros H. revert i. induction H as [|x y l1 l2 Hxy _ IH]; intros [|i]; cbn; try discriminate.
  - intros [= <-]. now exists y.
  - apply IH.
Qed.

Lemma range_nth_error (n : Z) (i : nat) :
  (i < Z.to_nat n)%nat -> nth_error (range n) i = Some (Z.of_nat i).
Proof.
  intros Hi. rewrite <- (map_id (range n)). now apply (nth_error_map_range (fun z => z)).
Qed.

(** C1, as amended, on doubles: for a valid range and a count [n] between 2
    and 100, the ARITHMETIC grid has exactly [n] prices (not [n + 1]), the
    price of index [i] being [lower + i * step] with
    [step = (upper - lower) / (n - 1)], every operation rounded to a double;
    the GEOMETRIC grid, which exists when no [math.pow] raises, has exactly
    [n] prices, the price of index [i] being [lower * math.pow(ratio, i)]
    with [ratio = math.pow(upper / lower, 1.0 / (n - 1))]. *)
Theorem grid_levels_count_and_spacing (math_pow : float -> float -> option float)
    (lower upper : float) (n : Z) :
  (0 <? lower)%float = true -> (lower <? upper)%float = true -> (2 <= n <= 100)%Z ->
  let step := ((upper - lower) / of_int (n - 1))%float in
  (exists ls,
     compute_levels math_pow "ARITHMETIC" lower upper n = Some ls /\
     List.length (prices ls) = Z.to_nat n /\
     forall i, (i < Z.to_nat n)%nat ->
       nth_error (prices ls) i = Some (lower + of_int (Z.of_nat i) * step)%float) /\
  (forall ls,
     compute_levels math_pow "GEOMETRIC" lower upper n = Some ls ->
     List.length (prices ls) = Z.to_nat n /\
     exists ratio,
       math_pow (upper / lower)%float (1 / of_int (n - 1))%float = Some ratio /\
       forall i, (i < Z.to_nat n)%nat ->
         exists q, math_pow ratio (of_int (Z.of_nat i)) = Some q /\
                   nth_error (prices ls) i = Some (lower * q)%float) /\
  ((forall x y, math_pow x y <> None) ->
   exists ls, compute_levels math_pow "GEOMETRIC" lower upper n = Some ls).
Proof.
  intros _ _ _ step. split; [|split].
  - exists (arithmetic_levels lower upper n). split; [reflexivity|].
    rewrite b64_arithmetic_prices. split.
    + now rewrite length_map, range_length.
    + intros i Hi. now rewrite nth_error_map_range.
  - intros ls. unfold compute_levels. cbn [String.eqb Ascii.eqb Bool.eqb].
    unfold geometric_levels.
    destruct (math_pow (upper / lower)%float (1 / of_int (n - 1))%float) as [ratio|];
      [|discriminate].
    intros Hls. apply b64_geometric_loop_prices in Hls.
    split.
    + apply Forall2_length in Hls. rewrite <- Hls. apply range_length.
    + exists ratio. split; [reflexivity|]. intros i Hi.
      destruct (Forall2_nth_error _ _ _ i _ Hls (range_nth_error n i Hi))
        as (p & Hp & q & Hq & ->).
      exists q. now split.
  - intros Hpow. unfold compute_levels. cbn [String.eqb Ascii.eqb Bool.eqb].
    unfold geometric_levels.
    destruct (math_pow (upper / lower)%float (1 / of_int (n - 1))%float) as [ratio|] eqn:Hr.
    + apply b64_geometric_loop_total. intros i _. apply Hpow.
    + now apply Hpow in Hr.
Qed.

Lemma grid_levels_count_and_spacing_witness :
  (exists ls,
     compute_levels no_pow "ARITHMETIC" 40000 50000 5 = Some ls /\
     List.length (prices ls) = 5%nat /\
     nth_error (prices ls) 1 = Some (40000 + of_int 1 * ((50000 - 40000) / of_int 4))%float) /\
  (40000 + of_int 1 * ((50000 - 40000) / of_int 4))%float = 42500%float /\
  (forall ls,
     compute_levels pow_count_2 "GEOMETRIC" 100 200 2 = Some ls ->
     exists q, pow_count_2 2 1 = Some q /\
               nth_error (prices ls) 1 = Some (100 * q)%float).
Proof.
  pose proof (grid_levels_count_and_spacing no_pow 40000 50000 5
                eq_refl eq_refl ltac:(lia)) as [(ls & Hls & Hlen & Hnth) _].
  pose proof (grid_levels_count_and_spacing pow_count_2 100 200 2
                eq_refl eq_refl ltac:(lia)) as (_ & Hgeo & _).
  split; [|split].
  - exists ls. repeat split; [exact Hls | exact Hlen | exact (Hnth 1%nat ltac:(lia))].
  - reflexivity.
  - intros ls' Hls'. destruct (Hgeo ls' Hls') as (_ & ratio & Hr & Hq).
    vm_compute in Hr. injection Hr as <-.
    exact (Hq 1%nat ltac:(lia)).
Defined.

(** C1, as stated, fails on doubles.  Scenario A, a valid ARITHMETIC grid
    of count 5, has the 5 prices 40000, 42500, 45000, 47500, 50000: not 6,
    and the second one is not [lower + 1 * step] for
    [step = (upper - lower) / count].  The valid grid from 1 to 26 of count
    12 ends at 26.000000000000004, above the upper price.  The valid grid
    from 1e16 to 1e16 + 2 of count 5 repeats its first price. *)
Lemma scenario_a_not_count_plus_one :
  (validate scenario_a = None /\
   exists ls,
     compute_levels no_pow "ARITHMETIC" 40000 50000 5 = Some ls /\
     prices ls = [40000; 42500; 45000; 47500; 50000]%float /\
     List.length (prices ls) <> Z.to_nat (5 + 1) /\
     (42500 =? 40000 + of_int 1 * ((50000 - 40000) / of_int 5))%float = false) /\
  (validate (grid 1 26 12 1000) = None /\
   exists ls,
     compute_levels no_pow "ARITHMETIC" 1 26 12 = Some ls /\
     nth_error (prices ls) 11 = Some 26.000000000000004%float /\
     (26 <? 26.000000000000004)%float = true) /\
  (validate (grid 10000000000000000 10000000000000002 5 1000) = None /\
   exists ls,
     compute_levels no_pow "ARITHMETIC" 10000000000000000 10000000000000002 5 = Some ls /\
     prices ls = [10000000000000000; 10000000000000000; 10000000000000000;
                  10000000000000002; 10000000000000002]%float).
Proof.
  split; [|split]; (split; [reflexivity|]); eexists;
    (split; [reflexivity|]); vm_compute; repeat split; discriminate.
Qed.

(** The utility [calculate_grid_levels] computes the prices of the
    ARITHMETIC branch of [create_grid_bot]: for a count [n] of at least 2,
    [n] prices, the one of index [i] being [lower + i * step] on doubles.
    A count of 1 divides by zero. *)
Theorem calculate_grid_levels_matches_arithmetic_grid
    (math_pow : float -> float -> option float) (lower upper : float) (n : Z) :
  (2 <= n)%Z ->
  let step := ((upper - lower) / of_int (n - 1))%float in
  (exists ls,
     compute_levels math_pow "ARITHMETIC" lower upper n = Some ls /\
     calculate_grid_levels lower upper n = Some (prices ls)) /\
  (exists ps,
     calculate_grid_levels lower upper n = Some ps /\
     List.length ps = Z.to_nat n /\
     forall i, (i < Z.to_nat n)%nat ->
       nth_error ps i = Some (lower + of_int (Z.of_nat i) * step)%float) /\
  calculate_grid_levels lower upper 1 = None.
Proof.
  intros Hn step.
  assert (Hc : calculate_grid_levels lower upper n
               = Some (map (fun i => (lower + of_int i * step)%float) (range n))).
  { unfold calculate_grid_levels. destruct (Z.eqb_spec (n - 1) 0); [lia | reflexivity]. }
  split; [|split].
  - exists (arithmetic_levels lower upper n). split; [reflexivity|].
    now rewrite Hc, b64_arithmetic_prices.
  - eexists. split; [exact Hc|]. split.
    + now rewrite length_map, range_length.
    + intros i Hi. now rewrite nth_error_map_range.
  - reflexivity.
Qed.

Lemma calculate_grid_levels_matches_arithmetic_grid_witness :
  calculate_grid_levels 40000 50000 5 = Some [40000; 42500; 45000; 47500; 50000]%float /\
  (exists ps, calculate_grid_levels 1 26 12 = Some ps /\
              nth_error ps 11 = Some (1 + of_int 11 * ((26 - 1) / of_int 11))%float) /\
  (1 + of_int 11 * ((26 - 1) / of_int 11))%float = 26.000000000000004%float.
Proof.
  pose proof (calculate_grid_levels_matches_arithmetic_grid no_pow 1 26 12 ltac:(lia))
    as (_ & (ps & Hps & _ & Hnth) & _).
  split; [|split].
  - reflexivity.
  - exists ps. split; [exact Hps | exact (Hnth 11%nat ltac:(lia))].
  - reflexivity.
Defined.

End B64Levels.

(** ** The capital ledger on doubles *)

Section B64Ledger.
Import PrimFloat Py.
Import Binary64.
Import Num Db GridBot Obs Fixtures.
Set Warnings "-inexact-float".

Lemma b64_balance_of_update (d : Db.t) (uid : Z) (b : float) :
  select_user d uid <> None -> balance_of (update_balance d uid b) uid = Some b.
Proof.
  unfold balance_of, select_user, update_balance. simpl.
  induction (users d) as [|u us IH]; simpl; [easy|].
  destruct (Z.eqb_spec (u_id u) uid) as [Heq | Hne]; simpl.
  - intros _. destruct (Z.eqb_spec (u_id u) uid); [reflexivity | contradiction].
  - destruct (Z.eqb_spec (u_id u) uid); [contradiction | exact IH].
Qed.

Lemma b64_balance_of_credit (d : Db.t) (uid : Z) (amount b : float) :
  balance_of d uid = Some b ->
  balance_of (credit_balance d uid amount) uid = Some (b + amount)%float.
Proof.
  unfold balance_of, select_user, credit_balance. simpl.
  induction (users d) as [|u us IH]; simpl; [easy|].
  destruct (Z.eqb_spec (u_id u) uid) as [Heq | Hne]; simpl.
  - intros [= <-]. destruct (Z.eqb_spec (u_id u) uid); [reflexivity | contradiction].
  - destruct (Z.eqb_spec (u_id u) uid); [contradiction | exact IH].
Qed.

Lemma b64_insert_levels_frame (bot_id : Z) (ls : list level) (d : Db.t) :
  users (fold_left (insert_grid_level bot_id) ls d) = users d /\
  grid_bots (fold_left (insert_grid_level bot_id) ls d) = grid_bots d.
Proof.
  revert d. induction ls as [|l ls IH]; intros d; simpl; [easy|].
  now rewrite !(proj1 (IH _)), !(proj2 (IH _)).
Qed.

(** What a successful [create_grid_bot] did. *)
Lemma b64_create_success_inv (math_pow : float -> float -> option float)
    (d d' : Db.t) (c : config) (r : created) :
  create_grid_bot math_pow d c = (d', inr r) ->
  exists user,
    validate c = None /\
    select_user d (user_id c) = Some user /\
    (u_balance user <? investment_amount c)%float = false /\
    bot_id r = Db.next_id (map gb_id (grid_bots d)) /\
    compute_levels math_pow (grid_type c) (lower_price c) (upper_price c) (grid_count c)
    = Some (levels r) /\
    new_balance r = (u_balance user - investment_amount c)%float /\
    d' = update_balance
           (fold_left (insert_grid_level (bot_id r)) (levels r) (fst (insert_grid_bot d c)))
           (user_id c) (new_balance r).
Proof.
  unfold create_grid_bot.
  destruct (validate c); [discriminate|].
  destruct (select_user d (user_id c)) as [user|]; [|discriminate].
  destruct (u_balance user <? investment_amount c)%float eqn:Hb; [discriminate|].
  cbn [insert_grid_bot].
  destruct (compute_levels math_pow (grid_type c) (lower_price c) (upper_price c)
              (grid_count c)) as [ls|]; [|discriminate].
  intros [= <- <-]. exists user. now repeat split.
Qed.

(** The bot written by [create_grid_bot] is the one [get_bot_details] finds. *)
Lemma b64_created_bot_found (d : Db.t) (c : config) (ls : list level) (b : float) :
  let bid := snd (insert_grid_bot d c) in
  let d' := update_balance (fold_left (insert_grid_level bid) ls (fst (insert_grid_bot d c)))
                           (user_id c) b in
  exists dt, get_bot_details d' bid (user_id c) = Some dt /\
             gb_id (bot dt) = bid /\
             gb_investment_amount (bot dt) = investment_amount c /\
             gb_is_active (bot dt) = 1%Z.
Proof.
  intros bid d'. unfold get_bot_details.
  assert (Hbots : grid_bots d' = (grid_bots d ++ [ {|
          gb_id := bid;
          gb_user_id := user_id c;
          gb_symbol := symbol c;
          gb_lower_price := lower_price c;
          gb_upper_price := upper_price c;
          gb_grid_count := grid_count c;
          gb_investment_amount := investment_amount c;
          gb_grid_type := grid_type c;
          gb_quote_currency := quote_currency c;
          gb_trailing_up := if trailing_up c then 1%Z else 0%Z;
          gb_grid_trigger_price := grid_trigger_price c;
          gb_take_profit_pct := take_profit_pct c;
          gb_stop_loss_price := stop_loss_price c;
          gb_sell_all_on_stop := if sell_all_on_stop c then 1%Z else 0%Z;
          gb_is_active := 1%Z |} ])%list).
  { unfold d', update_balance. simpl. now rewrite (proj2 (b64_insert_levels_frame _ _ _)). }
  rewrite Hbots. unfold bid. simpl.
  destruct (negb (user_id c =? 0)%Z); rewrite find_app.
  - rewrite (find_none_fresh gb_id)
      by (intros r Hr; apply andb_prop in Hr as [Hr _]; now apply Z.eqb_eq in Hr).
    simpl. rewrite !Z.eqb_refl. simpl. eexists. repeat split.
  - rewrite (find_none_fresh gb_id) by (intros r Hr; now apply Z.eqb_eq in Hr).
    simpl. rewrite !Z.eqb_refl. eexists. repeat split.
Qed.

(** C8, as amended, on doubles: a successful create writes the balance
    [b0 - I]; a stop right after it succeeds, returns [I] and writes
    [(b0 - I) + I], each operation rounded to a double. *)
Theorem create_then_stop_restores_balance (math_pow : float -> float -> option float)
    (d d1 : Db.t) (c : config) (r : created) (b0 : float) :
  is_nan b0 = false ->
  is_finite (investment_amount c) = true ->
  balance_of d (user_id c) = Some b0 ->
  create_grid_bot math_pow d c = (d1, inr r) ->
  balance_of d1 (user_id c) = Some (b0 - investment_amount c)%float /\
  new_balance r = (b0 - investment_amount c)%float /\
  exists d2,
    stop_grid_bot d1 (bot_id r) (user_id c) = (d2, inr (investment_amount c)) /\
    balance_of d2 (user_id c) = Some (b0 - investment_amount c + investment_amount c)%float.
Proof.
  intros _ _ Hb0 Hc.
  apply b64_create_success_inv in Hc as (user & _ & Hu & _ & Hid & _ & Hnb & ->).
  assert (Hbal : u_balance user = b0).
  { unfold balance_of in Hb0. rewrite Hu in Hb0. now injection Hb0. }
  rewrite Hbal in Hnb.
  assert (H1 : balance_of
                 (update_balance
                    (fold_left (insert_grid_level (bot_id r)) (levels r)
                       (fst (insert_grid_bot d c)))
                    (user_id c) (new_balance r)) (user_id c)
               = Some (b0 - investment_amount c)%float).
  { rewrite Hnb. apply b64_balance_of_update. unfold select_user.
    rewrite (proj1 (b64_insert_levels_frame _ _ _)). simpl.
    unfold select_user in Hu. now rewrite Hu. }
  split; [exact H1|]. split; [exact Hnb|].
  rewrite Hid in H1 |- *.
  unfold stop_grid_bot.
  destruct (b64_created_bot_found d c (levels r) (new_balance r)) as (dt & Hdt & _ & Hinv & _).
  cbn zeta in Hdt. cbn [insert_grid_bot fst snd] in Hdt, H1 |- *.
  rewrite Hdt, Hinv. eexists. split; [reflexivity|].
  now apply b64_balance_of_credit.
Qed.

Lemma create_then_stop_restores_balance_witness :
  exists d1 r d2,
    create_grid_bot no_pow db0 scenario_a = (d1, inr r) /\
    balance_of d1 1 = Some (5000 - 1000)%float /\
    stop_grid_bot d1 (bot_id r) 1 = (d2, inr 1000%float) /\
    balance_of d2 1 = Some (5000 - 1000 + 1000)%float /\
    (5000 - 1000 + 1000)%float = 5000%float.
Proof.
  destruct (create_grid_bot no_pow db0 scenario_a) as [d1 [e | r]] eqn:Hc;
    [vm_compute in Hc; discriminate|].
  destruct (create_then_stop_restores_balance no_pow db0 d1 scenario_a r 5000
              eq_refl eq_refl eq_refl Hc) as (H1 & _ & d2 & H2 & H3).
  exists d1, r, d2. repeat split; assumption.
Defined.

(** C8, as stated, fails on doubles: with a balance of 7136.44 and an
    investment of 2469.77, the create succeeds, the stop right after it
    returns 2469.77, and the balance is then 7136.4400000000005, above the
    balance before the create. *)
Lemma create_then_stop_misses_the_balance :
  balance_of db_cents 1 = Some 7136.44%float /\
  exists d1 r d2,
    create_grid_bot no_pow db_cents scenario_cents = (d1, inr r) /\
    balance_of d1 1 = Some 4666.6700000000001%float /\
    stop_grid_bot d1 (bot_id r) 1 = (d2, inr 2469.77%float) /\
    balance_of d2 1 = Some 7136.4400000000005%float /\
    (7136.44 <? 7136.4400000000005)%float = true.
Proof.
  split; [reflexivity|].
  do 3 eexists. split; [vm_compute; reflexivity|].
  split; [reflexivity|]. split; [vm_compute; reflexivity|].
  split; reflexivity.
Qed.

End B64Ledger.

(** ** Eligibility on doubles *)

Section B64Eligibility.
Import PrimFloat Py.
Import Binary64.
Import Num Db World Exchange OrderExecution Obs Fixtures.
Set Warnings "-inexact-float".

Lemma b64_should_execute_buy (cp lp : float) :
  should_execute "BUY" cp lp = if (cp <=? lp * 1.01)%float then Some "buy" else None.
Proof. unfold should_execute. cbn. now destruct (cp <=? lp * 1.01)%float. Qed.

Lemma b64_should_execute_sell (cp lp : float) :
  should_execute "SELL" cp lp = if (lp * 0.99 <=? cp)%float then Some "sell" else None.
Proof. unfold should_execute. cbn. now destruct (lp * 0.99 <=? cp)%float. Qed.

Lemma b64_should_execute_other (t : string) (cp lp : float) :
  t <> "BUY" -> t <> "SELL" -> should_execute t cp lp = None.
Proof.
  intros Hb Hs. unfold should_execute.
  destruct (String.eqb_spec t "BUY"); [contradiction|].
  destruct (String.eqb_spec t "SELL"); [contradiction|]. reflexivity.
Qed.

(** The step of the loop for a pending level that passes the test. *)
Lemma b64_step_order (live : bool) (uid bid acc : Z) (sym : string) (cp amt : float)
    (w : World.t) (ex : list executed) (l : grid_level_row) (side : string) :
  gl_is_filled l <> 1%Z ->
  should_execute (gl_order_type l) cp (gl_level_price l) = Some side ->
  level_step live uid bid acc sym cp amt (w, ex) l
  = after_order l ex (level_order live uid bid acc sym amt w side).
Proof.
  intros Hf He. rewrite (b64_step_eligible live uid bid acc sym cp amt w ex l side Hf He).
  reflexivity.
Qed.

(** In simulated mode, the order of the tick for a usable account succeeds
    and leaves one SIMULATED row. *)
Lemma b64_simulated_order (uid bid acc : Z) (sym : string) (amt : float) (w : World.t)
    (side : string) (account : Db.exchange_account_row) :
  get_exchange_account_by_id (db w) acc uid = Some account ->
  let routed := level_order false uid bid acc sym amt w side in
  success (snd routed) = true /\
  grid_levels (db (fst routed)) = grid_levels (db w) /\
  ex_orders (fst routed) = ex_orders w /\
  exists row,
    exchange_trade_logs (db (fst routed)) = (exchange_trade_logs (db w) ++ [row])%list /\
    tl_status row = "SIMULATED" /\ tl_side row = upper side /\ tl_symbol row = sym /\
    tl_amount row = amt /\ tl_trade_source row = ("grid_bot_" ++ str_of_int bid)%string.
Proof.
  intros Hacc. unfold level_order, execute_market_order_for_account.
  rewrite Hacc. cbn. repeat split. eexists. repeat split.
Qed.

(** C5, on doubles.  One iteration of the loop of the tick, at a current
    price [cp]: a filled level is skipped without any effect; a pending BUY
    level is sent to the order router as a buy exactly when
    [cp <= level_price * 1.01], a pending SELL level as a sell exactly when
    [cp >= level_price * 0.99], the products being rounded doubles, and is
    skipped without any effect otherwise; the level is marked filled and
    collected when the order succeeds, which in simulated mode it does for a
    usable account.  Over whole ticks: the levels collected were pending and
    passed the test when the tick read them, and a level collected by one
    tick is not collected by the next one. *)
Theorem eligibility_and_no_refill (live : bool) (w : World.t) (uid bid acc : Z)
    (b : grid_bot_row) (sym : string) (cp amt : float) (ex : list executed)
    (l : grid_level_row) :
  is_nan cp = false -> is_nan (gl_level_price l) = false -> numbers (db w) = true ->
  let st := level_step live uid bid acc sym cp amt (w, ex) l in
  let order := level_order live uid bid acc sym amt w in
  (gl_is_filled l = 1%Z -> st = (w, ex)) /\
  (gl_is_filled l <> 1%Z -> gl_order_type l = "BUY" ->
   st = if (cp <=? gl_level_price l * 1.01)%float
        then after_order l ex (order "buy") else (w, ex)) /\
  (gl_is_filled l <> 1%Z -> gl_order_type l = "SELL" ->
   st = if (gl_level_price l * 0.99 <=? cp)%float
        then after_order l ex (order "sell") else (w, ex)) /\
  (gl_order_type l <> "BUY" -> gl_order_type l <> "SELL" -> st = (w, ex)) /\
  (forall side account,
     live = false ->
     get_exchange_account_by_id (db w) acc uid = Some account ->
     level_state (db w) (gl_id l) <> None ->
     let st' := after_order l ex (order side) in
     success (snd (order side)) = true /\
     snd st' = (ex ++ [entry l (snd (order side))])%list /\
     level_state (db (fst st')) (gl_id l) = Some 1%Z /\
     ex_orders (fst st') = ex_orders w /\
     exists row,
       exchange_trade_logs (db (fst st')) = (exchange_trade_logs (db w) ++ [row])%list /\
       tl_status row = "SIMULATED" /\ tl_side row = upper side /\ tl_symbol row = sym /\
       tl_amount row = amt /\
       tl_trade_source row = ("grid_bot_" ++ str_of_int bid)%string) /\
  let levels := GridBot.get_levels_for_bot (db w) bid in
  let tick1 := run_levels live w uid bid acc b levels amt in
  let tick2 := run_levels live (fst tick1) uid bid acc b
                 (GridBot.get_levels_for_bot (db (fst tick1)) bid) amt in
  (forall e, In e (snd tick1) ->
     exists l0, In l0 levels /\ gl_id l0 = level_id e /\ gl_is_filled l0 <> 1%Z /\
                should_execute (gl_order_type l0) (tick_price (db w) b) (gl_level_price l0)
                <> None) /\
  (forall e1 e2, In e1 (snd tick1) -> In e2 (snd tick2) -> level_id e1 <> level_id e2).
Proof.
  intros _ _ _ st order.
  split; [|split; [|split; [|split; [|split]]]].
  - intros Hf. now apply b64_step_filled.
  - intros Hf Ht. unfold st.
    destruct (cp <=? gl_level_price l * 1.01)%float eqn:E.
    + apply b64_step_order; [exact Hf|]. now rewrite Ht, b64_should_execute_buy, E.
    + apply b64_step_not_eligible. now rewrite Ht, b64_should_execute_buy, E.
  - intros Hf Ht. unfold st.
    destruct (gl_level_price l * 0.99 <=? cp)%float eqn:E.
    + apply b64_step_order; [exact Hf|]. now rewrite Ht, b64_should_execute_sell, E.
    + apply b64_step_not_eligible. now rewrite Ht, b64_should_execute_sell, E.
  - intros Hb Hs. apply b64_step_not_eligible. now apply b64_should_execute_other.
  - intros side account -> Hacc Hex st'.
    destruct (b64_simulated_order uid bid acc sym amt w side account Hacc)
      as (Hok & Hlev & Hsent & row & Hlog & Hrow).
    fold (order side) in Hok, Hlev, Hsent, Hlog.
    unfold st', after_order. rewrite Hok. cbn [fst snd db set_db ex_orders].
    split; [reflexivity|]. split; [reflexivity|]. split; [|split; [exact Hsent|]].
    + apply b64_level_state_mark_same.
      now rewrite (b64_level_state_ext _ _ _ Hlev).
    + exists row. split; [exact Hlog | exact Hrow].
  - intros levels tick1 tick2. split.
    + intros e He. unfold tick1, run_levels in He.
      apply b64_run_origin in He as [[] | Hl]. exact Hl.
    + intros e1 e2 He1 He2 Heq.
      unfold tick2, run_levels in He2.
      apply b64_run_origin in He2 as [[] | (l0 & Hl & Hid & Hpending & _)].
      apply b64_levels_for_bot_in in Hl.
      apply Hpending.
      assert (Hinv : collected_filled tick1).
      { unfold tick1, run_levels. apply b64_run_collected_filled. intros e r []. }
      apply (Hinv e1 l0 He1 Hl). congruence.
Qed.

(** At a latest price of 3.0300000000000002, the double that [3.0 * 1.01]
    rounds to, the tick buys the pending BUY level at 3.0 and marks it
    filled; the pending SELL level at 4.0 is left alone. *)
Lemma eligibility_and_no_refill_witness :
  let cp := 3.0300000000000002%float in
  let st := level_step false 1 1 1 "ADA/USDT" cp 50 (world_edge, []) edge_level in
  (cp <=? 3 * 1.01)%float = true /\
  st = after_order edge_level [] (level_order false 1 1 1 "ADA/USDT" 50 world_edge "buy") /\
  level_state (db (fst st)) 1 = Some 1%Z /\
  executed_ids (snd st) = [1%Z] /\
  (4 * 0.99 <=? cp)%float = false /\
  level_step false 1 1 1 "ADA/USDT" cp 50 (world_edge, []) edge_sell = (world_edge, []).
Proof.
  intros cp st.
  pose proof (eligibility_and_no_refill false world_edge 1 1 1 edge_bot "ADA/USDT" cp 50 []
                edge_level eq_refl eq_refl eq_refl) as (_ & Hbuy & _ & _ & Hsim & _).
  pose proof (eligibility_and_no_refill false world_edge 1 1 1 edge_bot "ADA/USDT" cp 50 []
                edge_sell eq_refl eq_refl eq_refl) as (_ & _ & Hsell & _).
  specialize (Hbuy ltac:(discriminate) eq_refl).
  specialize (Hsell ltac:(discriminate) eq_refl).
  pose proof (Hsim "buy" Fixtures.account1 eq_refl eq_refl ltac:(discriminate)) as H.
  cbv zeta in H. destruct H as (_ & Hcol & Hfill & _).
  assert (E : (cp <=? gl_level_price edge_level * 1.01)%float = true) by reflexivity.
  rewrite E in Hbuy. fold st in Hbuy.
  split; [reflexivity|]. split; [exact Hbuy|].
  rewrite Hbuy. split; [exact Hfill|]. split; [rewrite Hcol; reflexivity|].
  split; [reflexivity | exact Hsell].
Defined.

End B64Eligibility.
